(** * Sotopia-Pi demo: a shallow embedding of [app.py]

    The development follows the layout of the program:
    - [Py]: the fragment of Python the program relies on (exceptions,
      [str] operations, a state-and-exception monad);
    - [Chat]: [prepare_model] and [run_chat], with the retry loop around the
      sanitizer [format_bot_message];
    - [Profiles]: the memoized loader [get_sotopia_profiles] and the two
      dropdown queries, over an explicit heap that holds the shared store;
    - [Turns], [Graph], [Ui]: vocabulary for the statements (the calls of
      the sanitizer one by one, the edges of the relationship file), the
      information boxes and the start-up of the page;
    - [Fixtures], [MoreFixtures]: small concrete collaborators and profile
      files;
    - [ChatFacts], [LoaderFacts], [IndexFacts], [StoreFacts]: the properties
      proved, and [Scenarios]: the same at concrete inputs;
    - [ChatExtras], [LoaderExtras], [QueryExtras], [UiExtras]: further
      properties of the same code, and [MoreScenarios]: these at concrete
      inputs.

    Code that lives outside [app.py] (the [utils] module, the [json] parser,
    the model runtime) is taken as a parameter of the section that uses it. *)

From Stdlib Require Import String Ascii List Arith Lia Permutation Sorted.
From Stdlib Require Import DecimalString DecimalNat OrderedTypeEx.
From stdpp Require Import base option list gmap strings fin_maps.

Import ListNotations.
Local Open Scope string_scope.
Local Open Scope list_scope.

(* ===================================================================== *)
(** ** Python fragment *)
(* ===================================================================== *)

Module Py.

(** A [str] is held with one [ascii] per character, the character's code
    point; characters beyond U+00FF are outside the model. *)

(** Exceptions the program can observe, with the arguments they were made
    from.  [KeyError] carries the key that was looked up, a [str] or [None];
    [JSONDecodeError] the message of the parser, the document and the
    position in it.  [Exception] stands for the other subclasses of
    [Exception], made from one message; [BaseException] for the exceptions
    that are not subclasses of [Exception] ([KeyboardInterrupt],
    [SystemExit]): an [except Exception] clause lets them through. *)
Inductive exn : Type :=
| FileNotFoundError (path : string)
| JSONDecodeError (msg doc : string) (pos : nat)
| KeyError (key : option string)
| TypeError (msg : string)
| AttributeError (msg : string)
| RuntimeError (msg : string)
| Exception (msg : string)
| BaseException (msg : string).

Definition is_Exception (e : exn) : bool :=
  match e with
  | BaseException _ => false
  | _ => true
  end.

(** [str(n)] for a natural number, which is also what [%d] writes. *)
Definition str_int (n : nat) : string := NilEmpty.string_of_uint (Nat.to_uint n).

Definition backslash : ascii := ascii_of_nat 92.
Definition single_quote : ascii := ascii_of_nat 39.
Definition double_quote : ascii := ascii_of_nat 34.
Definition line_feed : ascii := ascii_of_nat 10.

Fixpoint has_char (c : ascii) (s : string) : bool :=
  match s with
  | EmptyString => false
  | String a s' => Ascii.eqb a c || has_char c s'
  end.

Definition hex_digit (n : nat) : ascii :=
  nth n (list_ascii_of_string "0123456789abcdef") "0"%char.

(** [str.isprintable] on the characters below U+0100: all but the control
    characters, the no-break space and the soft hyphen. *)
Definition isprintable (n : nat) : bool :=
  Nat.leb 32 n && negb (Nat.eqb n 127)
  && negb (Nat.leb 128 n && Nat.leb n 160) && negb (Nat.eqb n 173).

(** [repr(s)] of a [str]: double quotes when [s] holds a single quote and
    no double quote, single quotes otherwise; the quote and the backslash
    are escaped, tab, line feed and carriage return are written with their
    letters, and the other characters that are not printable as [\xNN]. *)
Definition repr_char (quote c : ascii) : string :=
  let n := nat_of_ascii c in
  if Ascii.eqb c quote || Ascii.eqb c backslash then String backslash (String c "")
  else if Nat.eqb n 9 then String backslash "t"
  else if Nat.eqb n 10 then String backslash "n"
  else if Nat.eqb n 13 then String backslash "r"
  else if isprintable n then String c ""
  else String backslash (String "x" (String (hex_digit (n / 16))
                                        (String (hex_digit (n mod 16)) ""))).

Fixpoint repr_chars (quote : ascii) (s : string) : string :=
  match s with
  | EmptyString => ""
  | String c s' => repr_char quote c ++ repr_chars quote s'
  end.

Definition repr_str (s : string) : string :=
  let quote :=
    if has_char single_quote s && negb (has_char double_quote s)
    then double_quote else single_quote in
  String quote (repr_chars quote s ++ String quote "").

(** The line and the column [json.JSONDecodeError] computes from the
    document and the position: [doc.count('\n', 0, pos) + 1] and
    [pos - doc.rfind('\n', 0, pos)], where [rfind] gives -1 when there is
    no line feed before [pos]. *)
Fixpoint count_char (c : ascii) (l : list ascii) : nat :=
  match l with
  | [] => 0
  | a :: l' => (if Ascii.eqb a c then 1 else 0) + count_char c l'
  end.

Fixpoint rfind_from (c : ascii) (l : list ascii) (i : nat) (found : option nat) : option nat :=
  match l with
  | [] => found
  | a :: l' => rfind_from c l' (S i) (if Ascii.eqb a c then Some i else found)
  end.

Definition lineno (doc : string) (pos : nat) : nat :=
  count_char line_feed (firstn pos (list_ascii_of_string doc)) + 1.

Definition colno (doc : string) (pos : nat) : nat :=
  match rfind_from line_feed (firstn pos (list_ascii_of_string doc)) 0 None with
  | Some i => pos - i
  | None => pos + 1
  end.

(** [str(e)], what [print(e)] writes: the message for an exception made
    from one message, the [repr] of the key for a [KeyError], the errno
    line for a missing file, and the message with line, column and position
    for a [JSONDecodeError]. *)
Definition exn_str (e : exn) : string :=
  match e with
  | FileNotFoundError p => "[Errno 2] No such file or directory: " ++ repr_str p
  | JSONDecodeError m doc pos =>
      m ++ ": line " ++ str_int (lineno doc pos) ++ " column " ++ str_int (colno doc pos)
        ++ " (char " ++ str_int pos ++ ")"
  | KeyError (Some k) => repr_str k
  | KeyError None => "None"
  | TypeError m | AttributeError m | RuntimeError m
  | Exception m | BaseException m => m
  end.

Inductive result (A : Type) : Type :=
| Ok (a : A)
| Raise (e : exn).
Arguments Ok {A} a.
Arguments Raise {A} e.

Definition is_Ok {A} (r : result A) : bool :=
  match r with Ok _ => true | Raise _ => false end.

(** A computation over a state [S] that returns or raises. *)
Definition M (S A : Type) : Type := S -> result A * S.

Definition ret {S A} (a : A) : M S A := fun s => (Ok a, s).
Definition raise {S A} (e : exn) : M S A := fun s => (Raise e, s).
Definition bind {S A B} (c : M S A) (k : A -> M S B) : M S B :=
  fun s => match c s with
           | (Ok a, s') => k a s'
           | (Raise e, s') => (Raise e, s')
           end.
Definition get {S} : M S S := fun s => (Ok s, s).
Definition put {S} (s : S) : M S unit := fun _ => (Ok tt, s).
Definition modify {S} (f : S -> S) : M S unit := fun s => (Ok tt, f s).
Definition lift_result {S A} (r : result A) : M S A := fun s => (r, s).

(** [s.startswith(p)] and [needle in hay] on [str]. *)
Fixpoint startswith (p s : string) : bool :=
  match p, s with
  | EmptyString, _ => true
  | String a p', String b s' => if Ascii.eqb a b then startswith p' s' else false
  | String _ _, EmptyString => false
  end.

Fixpoint str_in (needle hay : string) : bool :=
  startswith needle hay ||
  match hay with
  | EmptyString => false
  | String _ hay' => str_in needle hay'
  end.

(** Attribute access on the objects a callback receives: a [str], [None],
    or an object of a class [cls] with named attributes. *)
#[warnings="-register-all"] Inductive pyobj : Type :=
| PyStr (s : string)
| PyNone
| PyObj (cls : string) (attrs : list (string * pyobj)).

Fixpoint assoc {A} (k : string) (l : list (string * A)) : option A :=
  match l with
  | [] => None
  | (k', v) :: l' => if String.eqb k k' then Some v else assoc k l'
  end.

Definition getattr (o : pyobj) (a : string) : result pyobj :=
  match o with
  | PyObj cls attrs =>
      match assoc a attrs with
      | Some v => Ok v
      | None => Raise (AttributeError ("'" ++ cls ++ "' object has no attribute '" ++ a ++ "'"))
      end
  | PyStr _ => Raise (AttributeError ("'str' object has no attribute '" ++ a ++ "'"))
  | PyNone => Raise (AttributeError ("'NoneType' object has no attribute '" ++ a ++ "'"))
  end.

End Py.

Import Py.

Declare Scope py_scope.
Delimit Scope py_scope with py.
Notation "x <- c ;; k" := (bind c (fun x => k))
  (at level 100, c at next level, right associativity) : py_scope.
Notation "c ;;; k" := (bind c (fun _ => k))
  (at level 100, right associativity) : py_scope.
Local Open Scope py_scope.

(* ===================================================================== *)
(** ** The chat turn: [prepare_model] and [run_chat] *)
(* ===================================================================== *)

Module Chat.

(** The choices of the model-selection dropdown in [sotopia_info_accordion]. *)
Definition model_name_choices : list string :=
  ["cmu-lti/sotopia-pi-mistral-7b-BC_SR"; "mistralai/Mistral-7B-Instruct-v0.1"; "GPT3.5"].

Definition DEFAULT_MODEL_SELECTION : string := "cmu-lti/sotopia-pi-mistral-7b-BC_SR".

(** The names [prepare_model] accepts (the two [in] tests of lines 75, 89). *)
Definition supported (model_name : string) : bool :=
  str_in "cmu-lti/sotopia-pi-mistral-7b-BC_SR" model_name ||
  str_in "mistralai/Mistral-7B-Instruct-v0.1" model_name.

(** The lines printed by [k] failed rounds of the retry loop. *)
Definition retry_log (e : exn) (k : nat) : list string :=
  concat (repeat [exn_str e; "Retrying..."] k).

Section WithRuntime.

(** [X] is the state of everything outside [app.py] that a call may read
    or change (the model runtime, the GPU, whatever [utils] keeps). *)
Context {X Model Tokenizer : Type}.

(** The external collaborators.  [load_peft name] stands for lines 76-88
    (quantized base model, tokenizer, PEFT adapter [name]); [load_base] for
    lines 90-95; [infer] for lines 229-244 (tokenize, generate, decode). *)
Variable load_peft : string -> M X (Model * Tokenizer).
Variable load_base : M X (Model * Tokenizer).
Variable format_sotopia_prompt :
  string -> list (string * string) -> string -> pyobj -> pyobj -> M X string.
Variable infer : Model -> Tokenizer -> string -> M X string.
Variable format_bot_message : string -> M X string.

Record state : Type := mkState {
  ext : X;
  model_cache : gmap string (Model * Tokenizer);
  stdout : list string
}.

Definition call {A} (c : M X A) : M state A :=
  fun st => let (r, x') := c (ext st) in
            (r, mkState x' (model_cache st) (stdout st)).

Definition print (s : string) : M state unit :=
  modify (fun st => mkState (ext st) (model_cache st) (stdout st ++ [s])).

(** The body of [prepare_model], lines 73-98. *)
Definition prepare_model_body (model_name : string) : M state (Model * Tokenizer) :=
  if str_in "cmu-lti/sotopia-pi-mistral-7b-BC_SR" model_name then
    call (load_peft model_name)
  else if str_in "mistralai/Mistral-7B-Instruct-v0.1" model_name then
    call load_base
  else
    raise (RuntimeError ("Model " ++ model_name ++ " not supported")).

(** [@cache]: a hit returns the stored pair; a miss runs the body and
    stores its value only when the body returns. *)
Definition prepare_model (model_name : string) : M state (Model * Tokenizer) :=
  st <- get ;;
  match model_cache st !! model_name with
  | Some mt => ret mt
  | None =>
      mt <- prepare_model_body model_name ;;
      modify (fun st => mkState (ext st) (<[model_name := mt]> (model_cache st)) (stdout st)) ;;;
      ret mt
  end.

(** Lines 245-253: [output] starts as the empty string; each of the [n]
    rounds calls the sanitizer, leaves the loop on the first value, and on
    an [Exception] prints it and goes on. *)
Fixpoint retry_loop (n : nat) (text_output output : string) : M state string :=
  match n with
  | 0 => ret output
  | S n' =>
      fun st =>
        match call (format_bot_message text_output) st with
        | (Ok v, st') => (Ok v, st')
        | (Raise e, st') =>
            if is_Exception e then
              (print (exn_str e) ;;; print "Retrying..." ;;;
               retry_loop n' text_output output) st'
            else (Raise e, st')
        end
  end.

Definition sanitize (text_output : string) : M state string :=
  retry_loop 5 text_output "".

(** Lines 224-244: everything up to the decoded completion. *)
Definition complete (message : string) (history : list (string * string))
    (instructions : string) (user_agent_dropdown bot_agent_dropdown : pyobj)
    (model_selection : string) : M state string :=
  user_value <- lift_result (getattr user_agent_dropdown "value") ;;
  user_name <- lift_result (getattr user_value "name") ;;
  bot_value <- lift_result (getattr bot_agent_dropdown "value") ;;
  bot_name <- lift_result (getattr bot_value "name") ;;
  mt <- prepare_model model_selection ;;
  prompt <- call (format_sotopia_prompt message history instructions user_name bot_name) ;;
  call (infer (fst mt) (snd mt) prompt).

Definition run_chat (message : string) (history : list (string * string))
    (instructions : string) (user_agent_dropdown bot_agent_dropdown : pyobj)
    (model_selection : string) : M state string :=
  text_output <- complete message history instructions
                   user_agent_dropdown bot_agent_dropdown model_selection ;;
  sanitize text_output.

(** The sanitizer's outcome depends on its text only. *)
Definition deterministic : Prop :=
  forall text (x x' : X), fst (format_bot_message text x) = fst (format_bot_message text x').

(** No entry of [prepare_model]'s cache is filed under a name that the
    body rejects.  True of the empty cache the process starts with. *)
Definition cache_sound (st : state) : Prop :=
  forall k mt, model_cache st !! k = Some mt -> supported k = true.

End WithRuntime.

End Chat.

(* ===================================================================== *)
(** ** The profile store: [get_sotopia_profiles] and the dropdown queries *)
(* ===================================================================== *)

(** The classes [Environment] and [Agent] of [utils], as far as [app.py]
    reads their attributes. *)
Module Environment.
Record t : Type := mk {
  _id : string;
  codename : string;
  scenario : string;
  agent_goals : list string;
  relationship : string
}.
End Environment.

Module Agent.
Record t : Type := mk {
  _id : string;
  agent_id : string;
  name : string;
  background : string;
  personality : string
}.
End Agent.

Module Profiles.

Definition ENVIRONMENT_PROFILES : string := "profiles/environment_profiles.jsonl".
Definition AGENT_PROFILES : string := "profiles/agent_profiles.jsonl".
Definition RELATIONSHIP_PROFILES : string := "profiles/relationship_profiles.jsonl".

(** Computations that only return or raise. *)
Definition rbind {A B} (r : result A) (k : A -> result B) : result B :=
  match r with
  | Ok a => k a
  | Raise e => Raise e
  end.

Notation "x <-? c ;; k" := (rbind c (fun x => k))
  (at level 100, c at next level, right associativity) : py_scope.

(** A list comprehension [[f(x) for x in l]]: left to right, the first
    exception ends it. *)
Fixpoint comprehension {A B} (f : A -> result B) (l : list A) : result (list B) :=
  match l with
  | [] => Ok []
  | x :: l' =>
      y <-? f x ;;
      ys <-? comprehension f l' ;;
      Ok (y :: ys)
  end.

(** ["{:05d}".format(n)] for a count [n]: decimal digits, padded with zeros
    on the left up to width 5. *)
Definition decimal (n : nat) : string := NilEmpty.string_of_uint (Nat.to_uint n).

Fixpoint zeros (k : nat) : string :=
  match k with
  | 0 => ""
  | S k' => String "0" (zeros k')
  end.

Definition fmt_05d (n : nat) : string :=
  let s := decimal n in zeros (5 - String.length s) ++ s.

(** [sorted(data, key=...)] is stable and compares keys with [<].  The
    insertion sort below is stable; every stable sort yields the same list.
    [String.ltb] compares character by character by code point, as Python
    compares [str]. *)
Fixpoint insert_by_key {A} (k : string) (x : A) (l : list (string * A)) : list (string * A) :=
  match l with
  | [] => [(k, x)]
  | (k', y) :: l' =>
      if String.ltb k' k then (k', y) :: insert_by_key k x l'
      else (k, x) :: (k', y) :: l'
  end.

Fixpoint sort_by_key {A} (l : list (string * A)) : list (string * A) :=
  match l with
  | [] => []
  | (k, x) :: l' => insert_by_key k x (sort_by_key l')
  end.

(** [gr.Dropdown(choices=..., value=..., label=...)]. *)
Record Dropdown : Type := mkDropdown {
  choices : list (string * string);
  value : option string;
  label : string
}.

(** The tuple [get_sotopia_profiles] returns.  [relationship_dict] is the
    [defaultdict] of [defaultdict(list)]. *)
Record store : Type := mkStore {
  environments : list (string * string);
  environment_dict : gmap string Environment.t;
  agent_dict : gmap string Agent.t;
  relationship_dict : gmap string (gmap string (list string))
}.

(** The process as the loader and the queries see it: the files, the log of
    files opened so far, the heap of loaded stores (a reference is an index),
    and the table kept by [@cache], keyed by the positional arguments of the
    call as they were passed (every call in [app.py] passes none; calls with
    keyword arguments are left out). *)
Record world : Type := mkWorld {
  fs : gmap string (list string);
  opened : list string;
  heap : list store;
  cache : gmap (list string) nat
}.

(** The world after the index of the store at [ref] has become [d]: the
    store is shared, so every holder of the reference sees [d]. *)
Definition with_relationship_dict (w : world) (ref : nat)
    (d : gmap string (gmap string (list string))) : world :=
  mkWorld (fs w) (opened w)
    (alter (fun st => mkStore (environments st) (environment_dict st) (agent_dict st) d)
           ref (heap w))
    (cache w).

(** [d[k]] on a plain [dict]. *)
Definition dict_getitem {V} (d : gmap string V) (k : string) : result V :=
  match d !! k with
  | Some v => Ok v
  | None => Raise (KeyError (Some k))
  end.

(** [d[r]] on the outer [defaultdict]: a missing key is inserted with an
    empty inner map.  Returns the inner map and the updated outer one. *)
Definition outer_getitem (d : gmap string (gmap string (list string))) (r : string)
  : gmap string (list string) * gmap string (gmap string (list string)) :=
  match d !! r with
  | Some inner => (inner, d)
  | None => (∅, <[r := ∅]> d)
  end.

(** [inner[a]] on a [defaultdict(list)]: a missing key is inserted with []. *)
Definition inner_getitem (inner : gmap string (list string)) (a : string)
  : list string * gmap string (list string) :=
  match inner !! a with
  | Some l => (l, inner)
  | None => ([], <[a := []]> inner)
  end.

(** [d[r][a]], with both insertions written back into [d]. *)
Definition index_getitem (d : gmap string (gmap string (list string))) (r a : string)
  : list string * gmap string (gmap string (list string)) :=
  let (inner, d1) := outer_getitem d r in
  let (l, inner') := inner_getitem inner a in
  (l, <[r := inner']> d1).

(** [d[r][a].append(b)]. *)
Definition index_append (d : gmap string (gmap string (list string))) (r a b : string)
  : gmap string (gmap string (list string)) :=
  let (inner, d1) := outer_getitem d r in
  let (l, inner') := inner_getitem inner a in
  <[r := <[a := l ++ [b]]> inner']> d1.

(** Reading the index without touching it: the list under [r], [a], or []. *)
Definition neighbors (d : gmap string (gmap string (list string))) (r a : string) : list string :=
  default [] (default ∅ (d !! r) !! a).

(** The relationship edges as the specification speaks of them: a type tag
    and two endpoints.  [counterparts r u edges] lists, in the order of the
    edges, the other endpoint of every edge of type [r] that has [u] as an
    endpoint (an edge from [u] to [u] has [u] at both ends, and counts for
    each). *)
Definition edge : Type := string * string * string.

Definition counterparts (r u : string) (edges : list edge) : list string :=
  flat_map
    (fun e : edge =>
       let '(r', a1, a2) := e in
       if decide (r' = r) then
         (if decide (a1 = u) then [a2] else []) ++ (if decide (a2 = u) then [a1] else [])
       else [])
    edges.

(** The display label of an environment that comes after [k] others of the
    same codename. *)
Definition display_label (cn : string) (k : nat) : string :=
  match k with
  | 0 => cn
  | S _ => (cn ++ "_" ++ fmt_05d k)%string
  end.

(** How many entries before position [i] equal the entry at [i]. *)
Definition earlier_same (cns : list string) (i : nat) : nat :=
  count_occ string_dec (firstn i cns) (nth i cns "").

(** Reading back the number a zero-padded decimal stands for. *)
Definition read_decimal (s : string) : option nat :=
  option_map Nat.of_uint (NilEmpty.uint_of_string s).

Definition key_le {A} (a b : string * A) : Prop := String.leb (fst a) (fst b) = true.

(** The world serves a store that answers like [s]: same display list, same
    environment and agent maps, and the same list under every relationship
    type and agent. *)
Definition serves (w : world) (s : store) : Prop :=
  exists ref st,
    cache w !! ([] : list string) = Some ref /\
    heap w !! ref = Some st /\
    environments st = environments s /\
    environment_dict st = environment_dict s /\
    agent_dict st = agent_dict s /\
    forall r u, neighbors (relationship_dict st) r u = neighbors (relationship_dict s) r u.

(** The name shown for an agent id (the empty string stands in for an id
    that is not a key; the statements below only use it on keys). *)
Definition agent_name (d : gmap string Agent.t) (n : string) : string :=
  match d !! n with
  | Some a => Agent.name a
  | None => ""
  end.

(** The choices of the bot dropdown that correspond to a list of agent ids. *)
Definition choices_of (d : gmap string Agent.t) (ids : list string) : list (string * string) :=
  map (fun n => (agent_name d n, n)) ids.

(** [code_names_count] holds, for every codename seen so far, how often. *)
Definition counts_agree (cnt : gmap string nat) (seen : list string) : Prop :=
  forall c, cnt !! c = match count_occ string_dec seen c with
                       | 0 => None
                       | S k => Some (S k)
                       end.

Section WithUtils.

(** What [json.loads] returns for a line, the subscript [profile[key]] on
    it for the keys the loader reads (their values serve as sort keys and
    dictionary keys, and are held as strings), and the constructors of
    [utils]. *)
Context {json : Type}.
Variable json_loads : string -> result json.
Variable getitem : json -> string -> result string.
Variable Environment_init : json -> result Environment.t.
Variable Agent_init : json -> result Agent.t.

(** The order in which a [set] of strings is iterated. *)
Variable set_iter : gset string -> list string.

(** [with open(path, 'r') as f: data = [json.loads(line) for line in f.readlines()]] *)
Definition read_jsonl (path : string) : M world (list json) :=
  w <- get ;;
  match fs w !! path with
  | None => raise (FileNotFoundError path)
  | Some lines =>
      put (mkWorld (fs w) (opened w ++ [path]) (heap w) (cache w)) ;;;
      lift_result (comprehension json_loads lines)
  end.

(** [sorted(data, key=lambda x: x['codename'])]: the keys are computed for
    the whole list first. *)
Definition sorted_by_codename (data : list json) : result (list json) :=
  keyed <-? comprehension (fun x => k <-? getitem x "codename" ;; Ok (k, x)) data ;;
  Ok (map snd (sort_by_key keyed)).

(** Lines 39-51, one round per profile. *)
Fixpoint environment_loop (profiles : list json)
    (code_names_count : gmap string nat)
    (environments : list (string * string))
    (environment_dict : gmap string Environment.t)
  : result (list (string * string) * gmap string Environment.t) :=
  match profiles with
  | [] => Ok (environments, environment_dict)
  | profile :: rest =>
      env_obj <-? Environment_init profile ;;
      cn <-? getitem profile "codename" ;;
      let entry :=
        match code_names_count !! cn with
        | Some c => ((cn ++ "_" ++ fmt_05d c)%string, Environment._id env_obj)
        | None => (cn, Environment._id env_obj)
        end in
      environment_loop rest
        (<[cn := default 0 (code_names_count !! cn) + 1]> code_names_count)
        (environments ++ [entry])
        (<[Environment._id env_obj := env_obj]> environment_dict)
  end.

(** Lines 56-59. *)
Fixpoint agent_loop (profiles : list json) (agent_dict : gmap string Agent.t)
  : result (gmap string Agent.t) :=
  match profiles with
  | [] => Ok agent_dict
  | profile :: rest =>
      agent_obj <-? Agent_init profile ;;
      agent_loop rest (<[Agent._id agent_obj := agent_obj]> agent_dict)
  end.

(** Lines 64-67. *)
Fixpoint relationship_loop (profiles : list json)
    (relationship_dict : gmap string (gmap string (list string)))
  : result (gmap string (gmap string (list string))) :=
  match profiles with
  | [] => Ok relationship_dict
  | profile :: rest =>
      r <-? getitem profile "relationship" ;;
      a1 <-? getitem profile "agent1_id" ;;
      a2 <-? getitem profile "agent2_id" ;;
      relationship_loop rest
        (index_append (index_append relationship_dict r a1 a2) r a2 a1)
  end.

(** The body of [get_sotopia_profiles], lines 33-69. *)
Definition get_sotopia_profiles_body (env_file agent_file relationship_file : string)
  : M world store :=
  data <- read_jsonl env_file ;;
  profiles <- lift_result (sorted_by_codename data) ;;
  envs <- lift_result (environment_loop profiles ∅ [] ∅) ;;
  data <- read_jsonl agent_file ;;
  agent_dict <- lift_result (agent_loop data ∅) ;;
  data <- read_jsonl relationship_file ;;
  relationship_dict <- lift_result (relationship_loop data ∅) ;;
  ret (mkStore (fst envs) (snd envs) agent_dict relationship_dict).

(** Positional arguments are bound to the three parameters, the defaults
    fill the rest. *)
Definition bind_args (args : list string) : result (string * string * string) :=
  match args with
  | [] => Ok (ENVIRONMENT_PROFILES, AGENT_PROFILES, RELATIONSHIP_PROFILES)
  | [e] => Ok (e, AGENT_PROFILES, RELATIONSHIP_PROFILES)
  | [e; a] => Ok (e, a, RELATIONSHIP_PROFILES)
  | [e; a; r] => Ok (e, a, r)
  | _ => Raise (TypeError ("get_sotopia_profiles() takes from 0 to 3 positional arguments but "
                           ++ str_int (length args) ++ " were given"))
  end.

(** [@cache] around the body: a hit returns the stored reference and does
    nothing else; a miss runs the body and, if it returns, puts the tuple
    on the heap and records its reference under the arguments. *)
Definition get_sotopia_profiles (args : list string) : M world nat :=
  w <- get ;;
  match cache w !! args with
  | Some ref => ret ref
  | None =>
      files <- lift_result (bind_args args) ;;
      st <- get_sotopia_profiles_body (fst (fst files)) (snd (fst files)) (snd files) ;;
      w' <- get ;;
      let ref := length (heap w') in
      put (mkWorld (fs w') (opened w') (heap w' ++ [st]) (<[args := ref]> (cache w'))) ;;;
      ret ref
  end.

(** Reading and writing through a reference. *)
Definition deref (ref : nat) : M world store :=
  w <- get ;;
  match heap w !! ref with
  | Some st => ret st
  | None => raise (RuntimeError "dangling reference")
  end.

Definition set_relationship_dict (ref : nat)
    (d : gmap string (gmap string (list string))) : M world unit :=
  modify (fun w => with_relationship_dict w ref d).

Definition first_value (l : list (string * string)) : option string :=
  match l with
  | [] => None
  | x :: _ => Some (snd x)
  end.

(** Lines 119-130. *)
Definition create_user_agent_dropdown (environment_id : string) : M world Dropdown :=
  ref <- get_sotopia_profiles [] ;;
  st <- deref ref ;;
  environment <- lift_result (dict_getitem (environment_dict st) environment_id) ;;
  let (inner, d') := outer_getitem (relationship_dict st) (Environment.relationship environment) in
  set_relationship_dict ref d' ;;;
  let unique_agent_ids : gset string := dom inner in
  user_agents_list <- lift_result
    (comprehension
       (fun agent_id => a <-? dict_getitem (agent_dict st) agent_id ;; Ok (Agent.name a, agent_id))
       (set_iter unique_agent_ids)) ;;
  ret (mkDropdown user_agents_list (first_value user_agents_list) "User Agent Selection").

(** Lines 132-140. *)
Definition create_bot_agent_dropdown (environment_id user_agent_id : string) : M world Dropdown :=
  ref <- get_sotopia_profiles [] ;;
  st <- deref ref ;;
  environment <- lift_result (dict_getitem (environment_dict st) environment_id) ;;
  user_agent <- lift_result (dict_getitem (agent_dict st) user_agent_id) ;;
  let (l, d') := index_getitem (relationship_dict st)
                   (Environment.relationship environment) (Agent.agent_id user_agent) in
  set_relationship_dict ref d' ;;;
  bot_agent_list <- lift_result
    (comprehension
       (fun neighbor_id => a <-? dict_getitem (agent_dict st) neighbor_id ;; Ok (Agent.name a, neighbor_id))
       l) ;;
  ret (mkDropdown bot_agent_list (first_value bot_agent_list) "Bot Agent Selection").

(** The string a record holds under a key (the empty string stands in
    where the subscript raises; the statements below only use it on
    records where it does not). *)
Definition field (p : json) (k : string) : string :=
  match getitem p k with
  | Ok v => v
  | Raise _ => ""
  end.

Definition codename_of (p : json) : string := field p "codename".

Definition env_id_of (p : json) : string :=
  match Environment_init p with
  | Ok e => Environment._id e
  | Raise _ => ""
  end.

Definition edge_of (p : json) : edge :=
  (field p "relationship", field p "agent1_id", field p "agent2_id").

Definition env_record_ok (p : json) : bool :=
  is_Ok (getitem p "codename") && is_Ok (Environment_init p).

Definition edge_record_ok (p : json) : bool :=
  is_Ok (getitem p "relationship") && is_Ok (getitem p "agent1_id")
  && is_Ok (getitem p "agent2_id").

(** The environment records in the order the loop visits them. *)
Definition in_codename_order (data : list json) : list json :=
  map snd (sort_by_key (map (fun p => (codename_of p, p)) data)).

(** The display list as the specification describes it: one entry per
    record, the label suffixed by the number of earlier records (listed in
    [seen]) with the same codename when there are any. *)
Fixpoint display_from (seen : list string) (profiles : list json) : list (string * string) :=
  match profiles with
  | [] => []
  | p :: rest =>
      (display_label (codename_of p) (count_occ string_dec seen (codename_of p)), env_id_of p)
      :: display_from (seen ++ [codename_of p]) rest
  end.

(** The store the cache serves for the call without arguments. *)
Definition current_store (w : world) : option store :=
  match cache w !! ([] : list string) with
  | Some ref => heap w !! ref
  | None => None
  end.

(** What can happen to the world while the process runs: a call of the
    loader, one of the two dropdown queries, or a change of the files on
    disk. *)
Inductive process_step : world -> world -> Prop :=
| step_load args w :
    process_step w (snd (get_sotopia_profiles args w))
| step_user environment_id w :
    process_step w (snd (create_user_agent_dropdown environment_id w))
| step_bot environment_id user_agent_id w :
    process_step w (snd (create_bot_agent_dropdown environment_id user_agent_id w))
| step_files fs' w :
    process_step w (mkWorld fs' (opened w) (heap w) (cache w)).

End WithUtils.

End Profiles.

(* ===================================================================== *)
(** ** Further vocabulary for the chat turn *)
(* ===================================================================== *)

Module Turns.

(** What the retry loop prints for a run of failed attempts, one exception
    per attempt. *)
Definition fail_log (es : list exn) : list string :=
  concat (map (fun e => [exn_str e; "Retrying..."]) es).



(** [k] calls of a sanitizer on the same text, one after the other and
    whatever they give: the outcomes in order (one entry per call), and the
    outside state the last call leaves. *)
Fixpoint attempts {X : Type} (sanitizer : string -> M X string)
    (k : nat) (text_output : string) (x : X) : list (result string) * X :=
  match k with
  | 0 => ([], x)
  | S k' =>
      let (r, x') := sanitizer text_output x in
      let (rs, x'') := attempts sanitizer k' text_output x' in
      (r :: rs, x'')
  end.

(** An outcome that takes the retry loop out: a value, or an exception
    that [except Exception] does not catch. *)
Definition leaves_the_loop (r : result string) : Prop :=
  match r with
  | Ok _ => True
  | Raise e => is_Exception e = false
  end.

Section WithRuntime.

Context {X Model Tokenizer : Type}.
Variable load_peft : string -> M X (Model * Tokenizer).
Variable load_base : M X (Model * Tokenizer).
Variable format_sotopia_prompt :
  string -> list (string * string) -> string -> pyobj -> pyobj -> M X string.
Variable infer : Model -> Tokenizer -> string -> M X string.
Variable format_bot_message : string -> M X string.

(** One submitted message: the chat widget calls [run_chat] and keeps
    whatever state the call leaves. *)
Inductive turn_step : @Chat.state X Model Tokenizer -> @Chat.state X Model Tokenizer -> Prop :=
| step_turn message history instructions u b model_selection st :
    turn_step st
      (snd (Chat.run_chat load_peft load_base format_sotopia_prompt infer format_bot_message
              message history instructions u b model_selection st)).

End WithRuntime.

End Turns.

(* ===================================================================== *)
(** ** Further vocabulary for the profile store *)
(* ===================================================================== *)

Module Graph.

Import Profiles.

(** The agents that occur as an end of an edge of type [r], one entry per
    end, in the order of the edges. *)
Definition endpoints (r : string) (edges : list edge) : list string :=
  flat_map
    (fun e : edge =>
       let '(r', a1, a2) := e in
       if decide (r' = r) then [a1; a2] else [])
    edges.

(** Every cached reference points into the heap, and no two argument lists
    share a reference. *)
Definition cache_ok (w : world) : Prop :=
  (forall k ref, cache w !! k = Some ref -> ref < length (heap w)) /\
  (forall k k' ref, cache w !! k = Some ref -> cache w !! k' = Some ref -> k = k').

(** Every display entry resolves: its id is a key of the environment map,
    and the environment found there carries that id. *)
Definition display_resolves (envs : list (string * string))
    (d : gmap string Environment.t) : Prop :=
  forall entry, In entry envs ->
    exists env, d !! snd entry = Some env /\ Environment._id env = snd entry.

(** [st'] answers like [st]: the same display list, the same environment
    and agent maps, and the same list of counterparts under every
    relationship type and agent.  The index itself may differ by entries
    that hold nothing. *)
Definition answers_like (st' st : store) : Prop :=
  environments st' = environments st /\
  environment_dict st' = environment_dict st /\
  agent_dict st' = agent_dict st /\
  forall r u, neighbors (relationship_dict st') r u = neighbors (relationship_dict st) r u.

(** The world serves, at [ref], a store with the display list and the two
    maps of [st], and with the same list of counterparts everywhere. *)
Definition same_maps (w : world) (ref : nat) (st : store) : Prop :=
  cache w !! ([] : list string) = Some ref /\
  exists st', heap w !! ref = Some st' /\
              environments st' = environments st /\
              environment_dict st' = environment_dict st /\
              agent_dict st' = agent_dict st /\
              forall r u, neighbors (relationship_dict st') r u
                          = neighbors (relationship_dict st) r u.

End Graph.

(* ===================================================================== *)
(** ** The information boxes and the start-up of the page *)
(* ===================================================================== *)

Module Ui.

Import Profiles.

(** [gr.Textbox(label=..., lines=..., value=...)]. *)
Record Textbox : Type := mkTextbox {
  tb_label : string;
  tb_lines : nat;
  tb_value : string
}.

(** The character written [\n] in the f-strings of lines 151 and 157. *)
Definition newline : string := String (ascii_of_nat 10) EmptyString.

(** [d[v]] where [v] is the value of a dropdown.  The keys of the maps are
    strings, so [None] (the value of a dropdown without choices) is no key:
    the subscript raises [KeyError(None)]. *)
Definition subscript {V} (d : gmap string V) (v : option string) : result V :=
  match v with
  | Some k => dict_getitem d k
  | None => Raise (KeyError None)
  end.

(** [environment.agent_goals[i]]; out of range is [IndexError], a subclass
    of [Exception], held here as [Exception] with Python's message. *)
Definition goal (environment : Environment.t) (i : nat) : result string :=
  match Environment.agent_goals environment !! i with
  | Some g => Ok g
  | None => Raise (Exception "list index out of range")
  end.

(** The f-string of lines 151 and 157. *)
Definition profile_text (ag : Agent.t) (g : string) : string :=
  (Agent.background ag ++ " " ++ Agent.personality ag ++ " " ++ newline ++ " " ++ g)%string.

(** What [print] writes for the value of a dropdown. *)
Definition str_of_value (v : option string) : string :=
  match v with
  | Some s => s
  | None => "None"
  end.

(** The page under construction: the world of the store, and what has been
    printed. *)
Record page : Type := mkPage {
  page_world : world;
  page_stdout : list string
}.

(** The four dropdowns [sotopia_info_accordion] returns. *)
Record Accordion : Type := mkAccordion {
  model_name_dropdown : Dropdown;
  environment_dropdown : Dropdown;
  user_agent_dropdown : Dropdown;
  bot_agent_dropdown : Dropdown
}.

Definition in_world {A} (c : M world A) : M page A :=
  fun p => let (r, w') := c (page_world p) in (r, mkPage w' (page_stdout p)).

Definition page_print (s : string) : M page unit :=
  modify (fun p => mkPage (page_world p) (page_stdout p ++ [s])).

Section WithUtils.

Context {json : Type}.
Variable json_loads : string -> result json.
Variable getitem : json -> string -> result string.
Variable Environment_init : json -> result Environment.t.
Variable Agent_init : json -> result Agent.t.
Variable set_iter : gset string -> list string.

(** [get_starter_prompt] of [utils]. *)
Variable get_starter_prompt : Agent.t -> Agent.t -> Environment.t -> result string.

Local Abbreviation get_sotopia_profiles :=
  (Profiles.get_sotopia_profiles json_loads getitem Environment_init Agent_init).

(** Lines 142-146. *)
Definition create_environment_info (environment_dropdown : option string) : M world Textbox :=
  ref <- get_sotopia_profiles [] ;;
  st <- deref ref ;;
  environment <- lift_result (subscript (environment_dict st) environment_dropdown) ;;
  ret (mkTextbox "Scenario Information" 4 (Environment.scenario environment)).

(** Lines 148-152. *)
Definition create_user_info (environment_dropdown user_agent_dropdown : option string)
  : M world Textbox :=
  ref <- get_sotopia_profiles [] ;;
  st <- deref ref ;;
  environment <- lift_result (subscript (environment_dict st) environment_dropdown) ;;
  user_agent <- lift_result (subscript (agent_dict st) user_agent_dropdown) ;;
  g <- lift_result (goal environment 0) ;;
  ret (mkTextbox "User Agent Profile" 4 (profile_text user_agent g)).

(** Lines 154-158. *)
Definition create_bot_info (environment_dropdown bot_agent_dropdown : option string)
  : M world Textbox :=
  ref <- get_sotopia_profiles [] ;;
  st <- deref ref ;;
  environment <- lift_result (subscript (environment_dict st) environment_dropdown) ;;
  bot_agent <- lift_result (subscript (agent_dict st) bot_agent_dropdown) ;;
  g <- lift_result (goal environment 1) ;;
  ret (mkTextbox "Bot Agent Profile" 4 (profile_text bot_agent g)).

(** The two dropdown queries called on dropdown values, as lines 179-180
    call them: with [None] for the environment, line 121 (line 134) raises
    right after the store has been fetched; with [None] for the user agent,
    line 134 raises after its first subscript. *)
Definition user_dropdown_for (environment_id : option string) : M world Dropdown :=
  match environment_id with
  | Some e =>
      Profiles.create_user_agent_dropdown
        json_loads getitem Environment_init Agent_init set_iter e
  | None =>
      ref <- get_sotopia_profiles [] ;;
      st <- deref ref ;;
      raise (KeyError None)
  end.

Definition bot_dropdown_for (environment_id user_agent_id : option string) : M world Dropdown :=
  match environment_id, user_agent_id with
  | Some e, Some u =>
      Profiles.create_bot_agent_dropdown json_loads getitem Environment_init Agent_init e u
  | Some e, None =>
      ref <- get_sotopia_profiles [] ;;
      st <- deref ref ;;
      environment <- lift_result (dict_getitem (environment_dict st) e) ;;
      raise (KeyError None)
  | None, _ =>
      ref <- get_sotopia_profiles [] ;;
      st <- deref ref ;;
      raise (KeyError None)
  end.

(** Lines 164-169: the choices are plain strings, each its own label. *)
Definition model_dropdown : Dropdown :=
  mkDropdown (map (fun n => (n, n)) Chat.model_name_choices)
    (Some "cmu-lti/sotopia-pi-mistral-7b-BC_SR") "Model Selection".

(** Lines 160-198, without the registration of the change handlers: the
    dropdowns and information boxes are built once, each from the values
    of the ones before.  The [value] attribute of a dropdown is taken to be
    the value it was built with. *)
Definition sotopia_info_accordion : M page Accordion :=
  ref <- in_world (get_sotopia_profiles []) ;;
  st <- in_world (deref ref) ;;
  let environment_dropdown :=
    mkDropdown (environments st) (first_value (environments st)) "Scenario Selection" in
  page_print (str_of_value (value environment_dropdown)) ;;;
  user_agent_dropdown <- in_world (user_dropdown_for (value environment_dropdown)) ;;
  bot_agent_dropdown <-
    in_world (bot_dropdown_for (value environment_dropdown) (value user_agent_dropdown)) ;;
  scenario_info_display <- in_world (create_environment_info (value environment_dropdown)) ;;
  user_agent_info_display <-
    in_world (create_user_info (value environment_dropdown) (value user_agent_dropdown)) ;;
  bot_agent_info_display <-
    in_world (create_bot_info (value environment_dropdown) (value bot_agent_dropdown)) ;;
  ret (mkAccordion model_dropdown environment_dropdown user_agent_dropdown bot_agent_dropdown).

(** Lines 255-259 of [chat_tab]: the value of the starter prompt box. *)
Definition chat_tab_starter_prompt : M page string :=
  ref <- in_world (get_sotopia_profiles []) ;;
  st <- in_world (deref ref) ;;
  acc <- sotopia_info_accordion ;;
  user <- lift_result (subscript (agent_dict st) (value (user_agent_dropdown acc))) ;;
  bot <- lift_result (subscript (agent_dict st) (value (bot_agent_dropdown acc))) ;;
  environment <-
    lift_result (subscript (environment_dict st) (value (environment_dropdown acc))) ;;
  lift_result (get_starter_prompt user bot environment).

End WithUtils.

End Ui.

(* ===================================================================== *)
(** ** Concrete collaborators used in the examples *)
(* ===================================================================== *)

Module Fixtures.

(** A runtime whose only state is a call counter. *)
Definition stub_load_peft (name : string) : M nat (unit * unit) := fun x => (Ok (tt, tt), x).
Definition stub_load_base : M nat (unit * unit) := fun x => (Ok (tt, tt), x).
Definition stub_prompt (message : string) (history : list (string * string))
    (instructions : string) (user_name bot_name : pyobj) : M nat string :=
  fun x => (Ok (instructions ++ message)%string, x).
Definition stub_infer (m t : unit) (prompt : string) : M nat string :=
  fun x => (Ok "Eli said: hello there", x).

(** A sanitizer that finds no reply span in anything. *)
Definition always_malformed (text : string) : M nat string :=
  fun x => (Raise (Exception "malformed output"), x).

(** A sanitizer that is a function of its text: it rejects the empty
    completion and returns anything else unchanged. *)
Definition nonempty_or_raise (text : string) : M nat string :=
  fun x => match text with
           | EmptyString => (Raise (Exception "empty completion"), x)
           | _ => (Ok text, x)
           end.

(** A sanitizer that is not: it raises on its first two calls. *)
Definition flaky (text : string) : M nat string :=
  fun x => if Nat.ltb x 2 then (Raise (Exception "try again"), S x) else (Ok text, S x).

Definition st0 : Chat.state (X:=nat) (Model:=unit) (Tokenizer:=unit) :=
  Chat.mkState 0 ∅ [].

Definition agent_widget (name : string) : pyobj :=
  PyObj "Dropdown" [("value", PyObj "Agent" [("name", PyStr name)])].


(** A stand-in for the [json] module: a record is a flat table from keys to
    strings, and the lines below are the ones that parse. *)
Definition record : Type := list (string * string).

Definition known_lines : list (string * record) :=
  [ ("env e1",
     [("env_id", "e1"); ("codename", "negotiation");
      ("scenario", "Two friends split a bill"); ("relationship", "friend")]);
    ("env e2",
     [("env_id", "e2"); ("codename", "negotiation");
      ("scenario", "Siblings divide an inheritance"); ("relationship", "family")]);
    ("env e3",
     [("env_id", "e3"); ("codename", "borrow");
      ("scenario", "A neighbour asks for a ladder"); ("relationship", "friend")]);
    ("agent a1",
     [("agent_id", "a1"); ("name", "Alice"); ("background", "teacher");
      ("personality", "open")]);
    ("agent a2",
     [("agent_id", "a2"); ("name", "Bob"); ("background", "chef");
      ("personality", "calm")]);
    ("agent a3",
     [("agent_id", "a3"); ("name", "Carol"); ("background", "pilot");
      ("personality", "bold")]);
    ("friend a1 a2",
     [("relationship", "friend"); ("agent1_id", "a1"); ("agent2_id", "a2")]);
    ("friend a3 a1",
     [("relationship", "friend"); ("agent1_id", "a3"); ("agent2_id", "a1")]);
    ("friend a2 a1",
     [("relationship", "friend"); ("agent1_id", "a2"); ("agent2_id", "a1")]) ].

Definition stub_json_loads (line : string) : result record :=
  match assoc line known_lines with
  | Some r => Ok r
  | None => Raise (JSONDecodeError "Expecting value" line 0)
  end.

Definition stub_getitem (p : record) (k : string) : result string :=
  match assoc k p with
  | Some v => Ok v
  | None => Raise (KeyError (Some k))
  end.

(** Modelled from the spec: the constructors [Environment] and [Agent] of
    [utils], which is not part of [app.py].  They read the fields the
    profile file format names; the identity of an agent is its [agent_id].
    The flat records hold no lists, so [agent_goals] stays empty. *)
Definition stub_Environment (p : record) : result Environment.t :=
  Profiles.rbind (stub_getitem p "env_id") (fun i =>
  Profiles.rbind (stub_getitem p "codename") (fun c =>
  Profiles.rbind (stub_getitem p "scenario") (fun s =>
  Profiles.rbind (stub_getitem p "relationship") (fun r =>
  Ok (Environment.mk i c s [] r))))).

Definition stub_Agent (p : record) : result Agent.t :=
  Profiles.rbind (stub_getitem p "agent_id") (fun i =>
  Profiles.rbind (stub_getitem p "name") (fun n =>
  Profiles.rbind (stub_getitem p "background") (fun b =>
  Profiles.rbind (stub_getitem p "personality") (fun q =>
  Ok (Agent.mk i i n b q))))).

Definition stub_set_iter (s : gset string) : list string := elements s.

Definition files_on_disk (agent_lines : list string) : gmap string (list string) :=
  <[Profiles.ENVIRONMENT_PROFILES := ["env e1"; "env e3"; "env e2"]]>
  (<[Profiles.AGENT_PROFILES := agent_lines]>
  (<[Profiles.RELATIONSHIP_PROFILES := ["friend a1 a2"; "friend a3 a1"; "friend a2 a1"]]> ∅)).

(** The process at start: nothing opened, nothing loaded, nothing cached. *)
Definition world0 : Profiles.world :=
  Profiles.mkWorld (files_on_disk ["agent a1"; "agent a2"; "agent a3"]) [] [] ∅.

(** The same with a line in the agent file that is not JSON. *)
Definition world_bad : Profiles.world :=
  Profiles.mkWorld (files_on_disk ["agent a1"; "agent a2 {"; "agent a3"]) [] [] ∅.

Definition load (args : list string) : M Profiles.world nat :=
  Profiles.get_sotopia_profiles stub_json_loads stub_getitem stub_Environment stub_Agent args.

Definition user_dropdown (environment_id : string) : M Profiles.world Profiles.Dropdown :=
  Profiles.create_user_agent_dropdown
    stub_json_loads stub_getitem stub_Environment stub_Agent stub_set_iter environment_id.

Definition bot_dropdown (environment_id user_agent_id : string)
  : M Profiles.world Profiles.Dropdown :=
  Profiles.create_bot_agent_dropdown
    stub_json_loads stub_getitem stub_Environment stub_Agent environment_id user_agent_id.

(** The world after the start-up load of [__main__], and the store it serves. *)
Definition loaded_world : Profiles.world := snd (load [] world0).

Definition store_of (w : Profiles.world) : Profiles.store :=
  match Profiles.current_store w with
  | Some st => st
  | None => Profiles.mkStore [] ∅ ∅ ∅
  end.

Definition environment_records : list record :=
  match Profiles.comprehension stub_json_loads ["env e1"; "env e3"; "env e2"] with
  | Ok l => l
  | Raise _ => []
  end.

Definition relationship_records : list record :=
  match Profiles.comprehension stub_json_loads
          ["friend a1 a2"; "friend a3 a1"; "friend a2 a1"] with
  | Ok l => l
  | Raise _ => []
  end.


(** A chat turn with the stand-in runtime: Mia (user) writes to Eli (bot). *)
Definition completion (message model_selection : string) : M (@Chat.state nat unit unit) string :=
  Chat.complete stub_load_peft stub_load_base stub_prompt stub_infer
    message [] "" (agent_widget "Mia") (agent_widget "Eli") model_selection.

Definition turn (sanitizer : string -> M nat string) (message model_selection : string)
  : M (@Chat.state nat unit unit) string :=
  Chat.run_chat stub_load_peft stub_load_base stub_prompt stub_infer sanitizer
    message [] "" (agent_widget "Mia") (agent_widget "Eli") model_selection.

Definition env_e1 : Environment.t :=
  Environment.mk "e1" "negotiation" "Two friends split a bill" [] "friend".
Definition env_e2 : Environment.t :=
  Environment.mk "e2" "negotiation" "Siblings divide an inheritance" [] "family".
Definition agent_a1 : Agent.t := Agent.mk "a1" "a1" "Alice" "teacher" "open".

End Fixtures.

(* ===================================================================== *)
(** ** Further concrete collaborators *)
(* ===================================================================== *)

Module MoreFixtures.

Import Fixtures.

(** An inference call that fails the way a full GPU does. *)
Definition failing_infer (m t : unit) (prompt : string) : M nat string :=
  fun x => (Raise (Exception "CUDA out of memory"), x).

(** A model download that fails on its first call and counts its calls. *)
Definition flaky_load_peft (name : string) : M nat (unit * unit) :=
  fun x => match x with
           | 0 => (Raise (Exception "connection reset"), 1)
           | S _ => (Ok (tt, tt), S x)
           end.

Definition prepare (name : string) : M (@Chat.state nat unit unit) (unit * unit) :=
  Chat.prepare_model stub_load_peft stub_load_base name.

Definition prepare_flaky (name : string) : M (@Chat.state nat unit unit) (unit * unit) :=
  Chat.prepare_model flaky_load_peft stub_load_base name.

(** A sanitizer that finds no reply span in anything and counts its calls. *)
Definition counting_malformed (text : string) : M nat string :=
  fun x => (Raise (Exception "malformed output"), S x).


(** The start-up world without the agent file, and without any scenario. *)
Definition world_without_agents : Profiles.world :=
  Profiles.mkWorld (delete Profiles.AGENT_PROFILES (Profiles.fs world0)) [] [] ∅.

Definition world_without_scenarios : Profiles.world :=
  Profiles.mkWorld (<[Profiles.ENVIRONMENT_PROFILES := []]> (Profiles.fs world0)) [] [] ∅.

(** The default paths, spelled out. *)
Definition explicit_paths : list string :=
  [Profiles.ENVIRONMENT_PROFILES; Profiles.AGENT_PROFILES; Profiles.RELATIONSHIP_PROFILES].

(** Two agent records under one id. *)
Definition agent_records_with_a_duplicate : list record :=
  [ [("agent_id", "a1"); ("name", "Alice"); ("background", "teacher"); ("personality", "open")];
    [("agent_id", "a2"); ("name", "Bob"); ("background", "chef"); ("personality", "calm")];
    [("agent_id", "a1"); ("name", "Alicia"); ("background", "nurse"); ("personality", "kind")] ].

Definition agents_with_a_duplicate : list Agent.t :=
  [ Agent.mk "a1" "a1" "Alice" "teacher" "open";
    Agent.mk "a2" "a2" "Bob" "chef" "calm";
    Agent.mk "a1" "a1" "Alicia" "nurse" "kind" ].

(** The start-up world with an agent file that lacks Carol (a3), while the
    relationship file still has the edge between a3 and a1; and the world
    after the start-up load from these files. *)
Definition world_with_a_dangling_edge : Profiles.world :=
  Profiles.mkWorld (files_on_disk ["agent a1"; "agent a2"]) [] [] ∅.

Definition loaded_with_a_dangling_edge : Profiles.world :=
  snd (load [] world_with_a_dangling_edge).

(** Modelled from the spec: the constructor [Environment] of [utils], which
    is not part of [app.py], here for records that carry no goals of their
    own: every environment gets the same pair of goals, one per role. *)
Definition stub_Environment_with_goals (p : record) : result Environment.t :=
  Profiles.rbind (stub_Environment p) (fun env =>
  Ok (Environment.mk (Environment._id env) (Environment.codename env)
        (Environment.scenario env)
        ["Reach an agreement"; "Keep the friendship"]
        (Environment.relationship env))).

(** Modelled from the spec: [get_starter_prompt] of [utils], reduced to a
    line that names the two agents and the scenario. *)
Definition stub_starter_prompt (user bot : Agent.t) (env : Environment.t) : result string :=
  Ok (Agent.name user ++ " talks to " ++ Agent.name bot ++ ": "
      ++ Environment.scenario env)%string.

Definition load_with_goals : M Profiles.world nat :=
  Profiles.get_sotopia_profiles stub_json_loads stub_getitem stub_Environment_with_goals
    stub_Agent [].

Definition accordion_with_goals : M Ui.page Ui.Accordion :=
  Ui.sotopia_info_accordion stub_json_loads stub_getitem stub_Environment_with_goals
    stub_Agent stub_set_iter.

Definition accordion : M Ui.page Ui.Accordion :=
  Ui.sotopia_info_accordion stub_json_loads stub_getitem stub_Environment
    stub_Agent stub_set_iter.

(** The page when [chat_tab] starts, after the load of [__main__]. *)
Definition page_with_goals : Ui.page :=
  Ui.mkPage (snd (load_with_goals world0)) [].

Definition page_without_scenarios : Ui.page :=
  Ui.mkPage (snd (load [] world_without_scenarios)) [].

Definition built_accordion : Ui.Accordion :=
  match fst (accordion_with_goals page_with_goals) with
  | Ok acc => acc
  | Raise _ => Ui.mkAccordion Ui.model_dropdown Ui.model_dropdown Ui.model_dropdown
                 Ui.model_dropdown
  end.

End MoreFixtures.

(* ===================================================================== *)
(** ** Facts about the chat turn *)
(* ===================================================================== *)

Module ChatFacts.

Section WithRuntime.

Context {X Model Tokenizer : Type}.
Variable load_peft : string -> M X (Model * Tokenizer).
Variable load_base : M X (Model * Tokenizer).
Variable format_sotopia_prompt :
  string -> list (string * string) -> string -> pyobj -> pyobj -> M X string.
Variable infer : Model -> Tokenizer -> string -> M X string.
Variable format_bot_message : string -> M X string.

Local Abbreviation state := (@Chat.state X Model Tokenizer).
Local Abbreviation retry_loop := (Chat.retry_loop format_bot_message).
Local Abbreviation sanitize := (Chat.sanitize format_bot_message).
Local Abbreviation complete := (Chat.complete load_peft load_base format_sotopia_prompt infer).
Local Abbreviation run_chat :=
  (Chat.run_chat load_peft load_base format_sotopia_prompt infer format_bot_message).
Local Abbreviation prepare_model := (Chat.prepare_model load_peft load_base).
Local Abbreviation deterministic := (Chat.deterministic format_bot_message).
Local Abbreviation retry_log := Chat.retry_log.
Local Abbreviation attempts := (Turns.attempts format_bot_message).

Lemma run_chat_after_complete message history instructions u b sel (st st1 : state) text :
  complete message history instructions u b sel st = (Ok text, st1) ->
  run_chat message history instructions u b sel st = sanitize text st1.
Proof.
  intros H. unfold Chat.run_chat, bind. now rewrite H.
Qed.

Lemma run_chat_complete_raises message history instructions u b sel (st st1 : state) e :
  complete message history instructions u b sel st = (Raise e, st1) ->
  run_chat message history instructions u b sel st = (Raise e, st1).
Proof.
  intros H. unfold Chat.run_chat, bind. now rewrite H.
Qed.

(** One round of the loop, by the outcome of the sanitizer. *)
Lemma retry_loop_ok n text output (st : state) v x' :
  format_bot_message text (Chat.ext st) = (Ok v, x') ->
  retry_loop (S n) text output st
  = (Ok v, Chat.mkState x' (Chat.model_cache st) (Chat.stdout st)).
Proof.
  intros H. simpl. unfold Chat.call. now rewrite H.
Qed.

Lemma retry_loop_caught n text output (st : state) e x' :
  format_bot_message text (Chat.ext st) = (Raise e, x') ->
  is_Exception e = true ->
  retry_loop (S n) text output st
  = retry_loop n text output
      (Chat.mkState x' (Chat.model_cache st)
         (Chat.stdout st ++ [exn_str e] ++ ["Retrying..."])).
Proof.
  intros H He. simpl. unfold Chat.call. rewrite H, He.
  unfold bind, Chat.print, modify. simpl. now rewrite <- app_assoc.
Qed.

Lemma retry_loop_escapes n text output (st : state) e x' :
  format_bot_message text (Chat.ext st) = (Raise e, x') ->
  is_Exception e = false ->
  retry_loop (S n) text output st
  = (Raise e, Chat.mkState x' (Chat.model_cache st) (Chat.stdout st)).
Proof.
  intros H He. simpl. unfold Chat.call. now rewrite H, He.
Qed.

(** If the sanitizer raises the same [Exception] whatever the outside
    state, [n] rounds all fail: [output] comes back untouched and the log
    grows by [n] identical entries. *)
Lemma retry_loop_all_fail e text output :
  is_Exception e = true ->
  (forall x, fst (format_bot_message text x) = Raise e) ->
  forall n (st : state),
    fst (retry_loop n text output st) = Ok output /\
    Chat.stdout (snd (retry_loop n text output st)) = Chat.stdout st ++ retry_log e n /\
    Chat.model_cache (snd (retry_loop n text output st)) = Chat.model_cache st.
Proof.
  intros He Hall. induction n as [|n IH]; intros st.
  - simpl. unfold Chat.retry_log. simpl. now rewrite app_nil_r.
  - specialize (Hall (Chat.ext st)).
    destruct (format_bot_message text (Chat.ext st)) as [r x'] eqn:E.
    simpl in Hall. subst r.
    rewrite (retry_loop_caught _ _ _ _ _ _ E He).
    destruct (IH (Chat.mkState x' (Chat.model_cache st)
                    (Chat.stdout st ++ [exn_str e] ++ ["Retrying..."]))) as (H1 & H2 & H3).
    rewrite H1, H2, H3. simpl. repeat split.
    unfold Chat.retry_log. simpl. now rewrite <- !app_assoc.
Qed.


(** [attempts], one call at a time. *)
Lemma attempts_S k text (x : X) :
  attempts (S k) text x
  = (fst (format_bot_message text x)
       :: fst (attempts k text (snd (format_bot_message text x))),
     snd (attempts k text (snd (format_bot_message text x)))).
Proof.
  cbn [Turns.attempts]. destruct (format_bot_message text x) as [r x'].
  cbn [fst snd]. now destruct (attempts k text x').
Qed.

Lemma attempts_length k text : forall x : X, length (fst (attempts k text x)) = k.
Proof.
  induction k as [|k IH]; intros x; [reflexivity|].
  rewrite attempts_S. cbn [fst length]. now rewrite IH.
Qed.

(** The loop, call by call.  [n] rounds make [k <= n] calls of the
    sanitizer, one after the other; all but possibly the last raise an
    [Exception], each of which is printed with "Retrying..."; either all
    [n] calls failed that way and [output] comes back, or the last call
    took the loop out and its outcome is the outcome of the loop. *)
Lemma retry_loop_trace n text output : forall st : state,
  exists k es,
    k <= n /\
    Forall (fun e => is_Exception e = true) es /\
    Chat.ext (snd (retry_loop n text output st)) = snd (attempts k text (Chat.ext st)) /\
    Chat.stdout (snd (retry_loop n text output st)) = Chat.stdout st ++ Turns.fail_log es /\
    Chat.model_cache (snd (retry_loop n text output st)) = Chat.model_cache st /\
    ((k = n /\
      fst (attempts k text (Chat.ext st)) = map Raise es /\
      fst (retry_loop n text output st) = Ok output) \/
     (exists r,
        fst (attempts k text (Chat.ext st)) = map Raise es ++ [r] /\
        fst (retry_loop n text output st) = r /\
        Turns.leaves_the_loop r)).
Proof.
  induction n as [|n IH]; intros st.
  - exists 0, []. cbn. rewrite app_nil_r. repeat apply conj; auto.
  - destruct (format_bot_message text (Chat.ext st)) as [[v|e] x'] eqn:E.
    + exists 1, []. rewrite (retry_loop_ok _ _ _ _ _ _ E), attempts_S, E.
      cbn. rewrite app_nil_r. repeat apply conj; auto; [lia|].
      right. exists (Ok v). repeat apply conj; auto. exact I.
    + destruct (is_Exception e) eqn:He.
      * rewrite (retry_loop_caught _ _ _ _ _ _ E He).
        destruct (IH (Chat.mkState x' (Chat.model_cache st)
                        (Chat.stdout st ++ [exn_str e] ++ ["Retrying..."])))
          as (k & es & Hk & Hes & Hx & Hout & Hmc & Hcase).
        exists (S k), (e :: es). rewrite attempts_S, E. cbn [fst snd Chat.ext] in *.
        rewrite Hx, Hout, Hmc. cbn [Chat.stdout Chat.model_cache].
        repeat apply conj; auto; [lia| |].
        -- unfold Turns.fail_log. cbn [map concat]. now rewrite <- !app_assoc.
        -- destruct Hcase as [(-> & Ha & Hr)|(r & Ha & Hr & Hl)].
           ++ left. rewrite Ha. repeat apply conj; auto.
           ++ right. exists r. rewrite Ha. repeat apply conj; auto.
      * exists 1, []. rewrite (retry_loop_escapes _ _ _ _ _ _ E He), attempts_S, E.
        cbn. rewrite app_nil_r. repeat apply conj; auto; [lia|].
        right. exists (Raise e). repeat apply conj; auto.
Qed.


(** What a single round does, by the outcome of the sanitizer. *)
Lemma single_attempt text (st : state) :
  fst (retry_loop 1 text "" st)
  = match fst (format_bot_message text (Chat.ext st)) with
    | Ok v => Ok v
    | Raise e => if is_Exception e then Ok "" else Raise e
    end.
Proof.
  destruct (format_bot_message text (Chat.ext st)) as [[v|e] x'] eqn:E.
  - now rewrite (retry_loop_ok _ _ _ _ _ _ E).
  - destruct (is_Exception e) eqn:He.
    + rewrite (retry_loop_caught _ _ _ _ _ _ E He). simpl. now rewrite He.
    + rewrite (retry_loop_escapes _ _ _ _ _ _ E He). simpl. now rewrite He.
Qed.

(** [prepare_model] never stores anything under a rejected name, and the
    other steps of a turn leave its cache alone. *)
Lemma call_model_cache {A} (c : M X A) (st : state) :
  Chat.model_cache (snd (Chat.call c st)) = Chat.model_cache st.
Proof. unfold Chat.call. now destruct (c (Chat.ext st)). Qed.

Lemma prepare_model_cache_sound name (st : state) :
  Chat.cache_sound st -> Chat.cache_sound (snd (prepare_model name st)).
Proof.
  intros Hs. unfold Chat.prepare_model, bind, get.
  destruct (Chat.model_cache st !! name) as [mt|] eqn:El; [exact Hs|].
  unfold Chat.prepare_model_body.
  destruct (str_in "cmu-lti/sotopia-pi-mistral-7b-BC_SR" name) eqn:E1;
    [|destruct (str_in "mistralai/Mistral-7B-Instruct-v0.1" name) eqn:E2].
  3: exact Hs.
  all: match goal with |- context [Chat.call ?c ?s] =>
         pose proof (call_model_cache c s) as Hc;
         destruct (Chat.call c s) as [[mt|e] st'] end;
       simpl in Hc |- *;
       [|intros k v Hk; rewrite Hc in Hk; eauto];
       intros k v; simpl; rewrite Hc, lookup_insert; case_decide;
       [subst k; intros _; unfold Chat.supported; rewrite ?E1, ?E2; now rewrite ?orb_true_r
       |apply Hs].
Qed.

Lemma retry_loop_model_cache n text output :
  forall st : state,
    Chat.model_cache (snd (retry_loop n text output st)) = Chat.model_cache st.
Proof.
  induction n as [|n IH]; intros st; [reflexivity|].
  destruct (format_bot_message text (Chat.ext st)) as [[v|e] x'] eqn:E.
  - now rewrite (retry_loop_ok _ _ _ _ _ _ E).
  - destruct (is_Exception e) eqn:He.
    + rewrite (retry_loop_caught _ _ _ _ _ _ E He). now rewrite IH.
    + now rewrite (retry_loop_escapes _ _ _ _ _ _ E He).
Qed.

Lemma complete_cache_sound message history instructions u b sel (st : state) :
  Chat.cache_sound st ->
  Chat.cache_sound (snd (complete message history instructions u b sel st)).
Proof.
  intros Hs. unfold Chat.complete, bind, lift_result.
  destruct (getattr u "value") as [uv|]; [|exact Hs].
  destruct (getattr uv "name") as [un|]; [|exact Hs].
  destruct (getattr b "value") as [bv|]; [|exact Hs].
  destruct (getattr bv "name") as [bn|]; [|exact Hs].
  pose proof (prepare_model_cache_sound sel st Hs) as Hp.
  destruct (prepare_model sel st) as [[mt|e] st1]; simpl in Hp; [|exact Hp].
  pose proof (call_model_cache (format_sotopia_prompt message history instructions un bn) st1) as Hc.
  destruct (Chat.call (format_sotopia_prompt message history instructions un bn) st1)
    as [[prompt|e] st2]; simpl in Hc.
  2: { intros k v Hk. simpl in Hk. rewrite Hc in Hk. eauto. }
  pose proof (call_model_cache (infer (fst mt) (snd mt) prompt) st2) as Hc2.
  intros k v Hk. rewrite Hc2, Hc in Hk. eauto.
Qed.

Lemma run_chat_cache_sound message history instructions u b sel (st : state) :
  Chat.cache_sound st ->
  Chat.cache_sound (snd (run_chat message history instructions u b sel st)).
Proof.
  intros Hs.
  pose proof (complete_cache_sound message history instructions u b sel st Hs) as Hc.
  destruct (complete message history instructions u b sel st) as [[text|e] st1] eqn:E.
  - rewrite (run_chat_after_complete _ _ _ _ _ _ _ _ _ E).
    intros k v Hk. unfold Chat.sanitize in Hk.
    rewrite retry_loop_model_cache in Hk. eauto.
  - now rewrite (run_chat_complete_raises _ _ _ _ _ _ _ _ _ E).
Qed.

Lemma prepare_model_unsupported name (st : state) :
  Chat.cache_sound st ->
  Chat.supported name = false ->
  prepare_model name st
  = (Raise (RuntimeError ("Model " ++ name ++ " not supported")), st).
Proof.
  intros Hs Hn. unfold Chat.prepare_model, bind, get.
  destruct (Chat.model_cache st !! name) as [mt|] eqn:El.
  { apply Hs in El. congruence. }
  unfold Chat.prepare_model_body. unfold Chat.supported in Hn.
  apply orb_false_iff in Hn as [-> ->]. reflexivity.
Qed.

(** Whatever the callback is handed, a turn with a rejected model name
    produces no reply: it stops at line 224 or at line 225. *)
Lemma unsupported_selection_never_replies
    message history instructions u b name (st : state) :
  Chat.cache_sound st ->
  Chat.supported name = false ->
  exists e st', run_chat message history instructions u b name st = (Raise e, st').
Proof.
  intros Hs Hn.
  assert (exists e st', complete message history instructions u b name st = (Raise e, st'))
    as (e & st' & Hc).
  { unfold Chat.complete, bind, lift_result.
    destruct (getattr u "value") as [uv|]; [|eauto].
    destruct (getattr uv "name") as [un|]; [|eauto].
    destruct (getattr b "value") as [bv|]; [|eauto].
    destruct (getattr bv "name") as [bn|]; [|eauto].
    rewrite (prepare_model_unsupported name st Hs Hn). eauto. }
  exists e, st'. now apply run_chat_complete_raises.
Qed.


(** C6.  If the outcome of the sanitizer depends on its text only, the
    five-round loop of [run_chat] gives what one round gives: the value
    of the single call when it returns; the empty string when it raises
    an [Exception], after five failures that print the same exception;
    the exception itself when the except clause does not catch it. *)
Theorem C6_retry_loop_equals_single_attempt
    message history instructions u b sel (st0 st : state) text
    (Hdet : deterministic)
    (Hcomplete : complete message history instructions u b sel st0 = (Ok text, st)) :
  fst (run_chat message history instructions u b sel st0) = fst (retry_loop 1 text "" st) /\
  (forall v, fst (format_bot_message text (Chat.ext st)) = Ok v ->
     fst (run_chat message history instructions u b sel st0) = Ok v) /\
  (forall e, fst (format_bot_message text (Chat.ext st)) = Raise e ->
     is_Exception e = true ->
     fst (run_chat message history instructions u b sel st0) = Ok "" /\
     Chat.stdout (snd (run_chat message history instructions u b sel st0))
     = Chat.stdout st ++ retry_log e 5) /\
  (forall e, fst (format_bot_message text (Chat.ext st)) = Raise e ->
     is_Exception e = false ->
     fst (run_chat message history instructions u b sel st0) = Raise e).
Proof.
  rewrite (run_chat_after_complete _ _ _ _ _ _ _ _ _ Hcomplete).
  rewrite single_attempt. unfold Chat.sanitize.
  destruct (format_bot_message text (Chat.ext st)) as [[v|e] x'] eqn:E.
  - rewrite (retry_loop_ok _ _ _ _ _ _ E). simpl.
    repeat split; intros; try discriminate; congruence.
  - destruct (is_Exception e) eqn:He.
    + assert (Hall : forall x, fst (format_bot_message text x) = Raise e).
      { intros x. rewrite (Hdet text x (Chat.ext st)), E. reflexivity. }
      destruct (retry_loop_all_fail e text "" He Hall 5 st) as (H1 & H2 & _).
      rewrite H1, H2. simpl. rewrite He.
      repeat split; intros; try discriminate; congruence.
    + rewrite (retry_loop_escapes _ _ _ _ _ _ E He). simpl. rewrite He.
      repeat split; intros; try discriminate; congruence.
Qed.



End WithRuntime.

End ChatFacts.

(* ===================================================================== *)
(** ** Facts about the loader's pure parts *)
(* ===================================================================== *)

Module LoaderFacts.

Import Profiles.

(** *** The order on strings *)

Lemma ltb_false_leb a b : String.ltb a b = false -> String.leb b a = true.
Proof.
  unfold String.ltb, String.leb. rewrite (String.compare_antisym b a).
  now destruct (String.compare a b).
Qed.

Lemma leb_refl a : String.leb a a = true.
Proof. destruct (String.leb_total a a); assumption. Qed.

Lemma leb_trans a b c :
  String.leb a b = true -> String.leb b c = true -> String.leb a c = true.
Proof.
  intros Hab Hbc. pose proof (leb_refl c) as Hcc. revert Hab Hbc Hcc.
  unfold String.leb. intros Hab Hbc Hcc.
  destruct (String.compare a b) eqn:Eab; try discriminate;
    destruct (String.compare b c) eqn:Ebc; try discriminate.
  - apply String.compare_eq_iff in Eab. apply String.compare_eq_iff in Ebc.
    subst. exact Hcc.
  - apply String.compare_eq_iff in Eab. subst. now rewrite Ebc.
  - apply String.compare_eq_iff in Ebc. subst. now rewrite Eab.
  - apply String_as_OT.cmp_lt in Eab. apply String_as_OT.cmp_lt in Ebc.
    pose proof (String_as_OT.lt_trans _ _ _ Eab Ebc) as Hac.
    apply String_as_OT.cmp_lt in Hac. unfold String_as_OT.cmp in Hac. now rewrite Hac.
Qed.

(** *** [sorted]: a permutation, in key order, equal keys in input order *)

Section Sorting.

Context {A : Type}.
Implicit Types (l : list (string * A)) (k : string) (x : A).

Lemma insert_by_key_perm k x l : Permutation (insert_by_key k x l) ((k, x) :: l).
Proof.
  induction l as [|[k' y] l IH]; simpl; [reflexivity|].
  destruct (String.ltb k' k); [|reflexivity].
  rewrite IH. apply perm_swap.
Qed.

Lemma sort_by_key_perm l : Permutation (sort_by_key l) l.
Proof.
  induction l as [|[k x] l IH]; simpl; [reflexivity|].
  rewrite insert_by_key_perm. now constructor.
Qed.

Lemma insert_by_key_sorted k x l :
  StronglySorted key_le l -> StronglySorted key_le (insert_by_key k x l).
Proof.
  induction l as [|[k' y] l IH]; intros Hs; simpl.
  - repeat constructor.
  - inversion Hs as [|? ? Hs' Hall]; subst.
    destruct (String.ltb k' k) eqn:E.
    + constructor; [now apply IH|].
      rewrite List.Forall_forall. intros z Hz.
      apply (Permutation_in _ (insert_by_key_perm k x l)) in Hz.
      destruct Hz as [<-|Hz].
      * unfold key_le; simpl. unfold String.ltb in E. unfold String.leb.
        now destruct (String.compare k' k).
      * rewrite List.Forall_forall in Hall. now apply Hall.
    + apply ltb_false_leb in E.
      constructor; [exact Hs|].
      constructor; [exact E|].
      rewrite List.Forall_forall in Hall |- *. intros z Hz.
      unfold key_le in *; simpl in *. eapply leb_trans; [exact E|now apply Hall].
Qed.

Lemma sort_by_key_sorted l : StronglySorted key_le (sort_by_key l).
Proof.
  induction l as [|[k x] l IH]; simpl; [constructor|].
  now apply insert_by_key_sorted.
Qed.

(** Stability: records with the same key keep their relative order. *)
Lemma insert_by_key_filter k x l c :
  StronglySorted key_le l ->
  filter (fun e => String.eqb (fst e) c) (insert_by_key k x l)
  = filter (fun e => String.eqb (fst e) c) ((k, x) :: l).
Proof.
  induction l as [|[k' y] l IH]; intros Hs; [reflexivity|].
  inversion Hs as [|? ? Hs' Hall]; subst.
  cbn [insert_by_key]. destruct (String.ltb k' k) eqn:E; [|reflexivity].
  rewrite !filter_cons. rewrite filter_cons in IH. cbn [fst] in *.
  destruct (decide (String.eqb k' c)) as [Hk'|Hk'].
  - destruct (decide (String.eqb k c)) as [Hk|Hk].
    + apply Is_true_eq_true in Hk, Hk'. apply String.eqb_eq in Hk, Hk'. subst.
      unfold String.ltb in E.
      assert (String.compare c c = Eq) as Hc by now apply String_as_OT.cmp_eq.
      rewrite Hc in E. discriminate.
    + f_equal. rewrite (IH Hs'). destruct (decide (String.eqb k c)); [contradiction|reflexivity].
  - rewrite (IH Hs'). reflexivity.
Qed.

Lemma sort_by_key_stable l c :
  filter (fun e => String.eqb (fst e) c) (sort_by_key l)
  = filter (fun e => String.eqb (fst e) c) l.
Proof.
  induction l as [|[k x] l IH]; [reflexivity|].
  cbn [sort_by_key].
  rewrite insert_by_key_filter by apply sort_by_key_sorted.
  rewrite !filter_cons, IH. reflexivity.
Qed.

End Sorting.

(** *** The zero-padded counter *)

Lemma read_decimal_zeros k s : read_decimal (zeros k ++ s) = read_decimal s.
Proof.
  induction k as [|k IH]; [reflexivity|].
  simpl. unfold read_decimal in *. simpl.
  destruct (NilEmpty.uint_of_string (zeros k ++ s)) as [d|] eqn:E;
    destruct (NilEmpty.uint_of_string s) as [d'|] eqn:E'; simpl in *;
    try discriminate; try reflexivity.
  rewrite <- IH. reflexivity.
Qed.

Lemma read_decimal_fmt_05d n : read_decimal (fmt_05d n) = Some n.
Proof.
  unfold fmt_05d. rewrite read_decimal_zeros.
  unfold read_decimal, decimal. rewrite NilEmpty.usu. simpl.
  now rewrite Unsigned.of_to.
Qed.

Lemma fmt_05d_inj a b : fmt_05d a = fmt_05d b -> a = b.
Proof.
  intros H. apply (f_equal read_decimal) in H.
  rewrite !read_decimal_fmt_05d in H. now inversion H.
Qed.

Lemma length_zeros k : String.length (zeros k) = k.
Proof. induction k; simpl; congruence. Qed.

Lemma length_append (a b : string) :
  String.length (a ++ b) = String.length a + String.length b.
Proof. induction a as [|c a IH]; simpl; [reflexivity|now rewrite IH]. Qed.

Lemma length_fmt_05d n : 5 <= String.length (fmt_05d n).
Proof.
  unfold fmt_05d. rewrite length_append, length_zeros. lia.
Qed.

Lemma append_inv_head (a b c : string) : (a ++ b = a ++ c)%string -> b = c.
Proof. induction a; simpl; intros H; [assumption|]. inversion H. auto. Qed.

Lemma display_label_inj cn a b : display_label cn a = display_label cn b -> a = b.
Proof.
  unfold display_label. intros H.
  assert (Hlen : forall k, String.length (cn ++ "_" ++ fmt_05d k) > String.length cn).
  { intros k. rewrite length_append. simpl. lia. }
  destruct a, b; try reflexivity.
  - specialize (Hlen (S b)). rewrite <- H in Hlen. lia.
  - specialize (Hlen (S a)). rewrite H in Hlen. lia.
  - apply append_inv_head in H. inversion H as [H']. now apply fmt_05d_inj.
Qed.

Lemma display_label_unsuffixed cn k : display_label cn k = cn <-> k = 0.
Proof.
  split; [|now intros ->].
  intros H. apply (display_label_inj cn k 0). exact H.
Qed.

End LoaderFacts.

(* ===================================================================== *)
(** ** Facts about the relationship index and the loops of the loader *)
(* ===================================================================== *)

Module IndexFacts.

Import Profiles.

Implicit Types (d : gmap string (gmap string (list string))) (r a b u : string).

(** *** The [defaultdict] operations in normal form *)

Lemma index_append_eq d r a b :
  index_append d r a b
  = <[r := <[a := neighbors d r a ++ [b]]> (default ∅ (d !! r))]> d.
Proof.
  unfold index_append, outer_getitem, inner_getitem, neighbors.
  destruct (d !! r) as [inner|] eqn:Er; simpl.
  - destruct (inner !! a) as [l|] eqn:Ea; simpl; [reflexivity|].
    now rewrite insert_insert_eq.
  - rewrite lookup_empty. simpl. now rewrite !insert_insert_eq.
Qed.

Lemma index_getitem_eq d r a :
  index_getitem d r a
  = (neighbors d r a, <[r := <[a := neighbors d r a]> (default ∅ (d !! r))]> d).
Proof.
  unfold index_getitem, outer_getitem, inner_getitem, neighbors.
  destruct (d !! r) as [inner|] eqn:Er; simpl.
  - destruct (inner !! a) as [l|] eqn:Ea; simpl; [|reflexivity].
    now rewrite (insert_id inner a l Ea).
  - rewrite lookup_empty. simpl. now rewrite insert_insert_eq.
Qed.

Lemma neighbors_insert d r inner r' u :
  neighbors (<[r := inner]> d) r' u
  = if decide (r = r') then default [] (inner !! u) else neighbors d r' u.
Proof.
  unfold neighbors. rewrite lookup_insert. now case_decide.
Qed.

(** Appending [b] under [r], [a] extends that one list and no other. *)
Lemma neighbors_index_append d r a b r' u :
  neighbors (index_append d r a b) r' u
  = neighbors d r' u ++ (if decide (r = r' /\ a = u) then [b] else []).
Proof.
  rewrite index_append_eq, neighbors_insert.
  destruct (decide (r = r')) as [<-|Hr].
  - rewrite lookup_insert. destruct (decide (a = u)) as [<-|Ha]; simpl.
    + rewrite decide_True by done. reflexivity.
    + rewrite decide_False by (intros [_ ?]; done).
      now rewrite app_nil_r.
  - rewrite decide_False by (intros [? _]; done). now rewrite app_nil_r.
Qed.

(** Reading through the [defaultdict] changes no list. *)
Lemma neighbors_outer_getitem d r r' u :
  neighbors (snd (outer_getitem d r)) r' u = neighbors d r' u.
Proof.
  unfold outer_getitem. destruct (d !! r) as [inner|] eqn:Er; [reflexivity|].
  simpl. rewrite neighbors_insert. case_decide; [subst|reflexivity].
  unfold neighbors. now rewrite Er, !lookup_empty.
Qed.

Lemma neighbors_index_getitem d r a r' u :
  neighbors (snd (index_getitem d r a)) r' u = neighbors d r' u.
Proof.
  rewrite index_getitem_eq. simpl. rewrite neighbors_insert.
  case_decide; [subst r'|reflexivity].
  rewrite lookup_insert. case_decide; [now subst|reflexivity].
Qed.

Lemma fst_index_getitem d r a : fst (index_getitem d r a) = neighbors d r a.
Proof. now rewrite index_getitem_eq. Qed.

Lemma index_append_other d r a b r' : r <> r' -> index_append d r a b !! r' = d !! r'.
Proof. intros H. rewrite index_append_eq. now rewrite lookup_insert_ne. Qed.

Lemma counterparts_cons r u r' a1 a2 (edges : list edge) :
  counterparts r u ((r', a1, a2) :: edges)
  = (if decide (r' = r) then
       (if decide (a1 = u) then [a2] else []) ++ (if decide (a2 = u) then [a1] else [])
     else [])
    ++ counterparts r u edges.
Proof. reflexivity. Qed.

(** Edges are undirected: each one makes its ends counterparts of each other. *)
Lemma counterparts_symmetric r a1 a2 (edges : list edge) :
  In (r, a1, a2) edges ->
  In a2 (counterparts r a1 edges) /\ In a1 (counterparts r a2 edges).
Proof.
  intros H. unfold counterparts. split; apply in_flat_map; exists (r, a1, a2);
    (split; [exact H|]); rewrite decide_True by done; apply in_or_app.
  - left. rewrite decide_True by done. now left.
  - right. rewrite decide_True by done. now left.
Qed.

(** *** List comprehensions *)

Lemma comprehension_ok {A B} (f : A -> result B) (g : A -> B) l :
  Forall (fun x => f x = Ok (g x)) l -> comprehension f l = Ok (map g l).
Proof.
  induction 1 as [|x l Hx _ IH]; simpl; [reflexivity|].
  now rewrite Hx, IH.
Qed.

Lemma comprehension_raises {A B} (f : A -> result B) l x e :
  In x l -> f x = Raise e -> exists e', comprehension f l = Raise e'.
Proof.
  induction l as [|y l IH]; intros Hin Hx; [destruct Hin|].
  simpl. destruct Hin as [->|Hin].
  - rewrite Hx. simpl. eauto.
  - destruct (f y); simpl; [|eauto].
    destruct (IH Hin Hx) as [e' ->]. simpl. eauto.
Qed.

Lemma comprehension_inv {A B} (f : A -> result B) l ys :
  comprehension f l = Ok ys -> Forall2 (fun x y => f x = Ok y) l ys.
Proof.
  revert ys. induction l as [|x l IH]; simpl; intros ys H.
  - inversion H. constructor.
  - destruct (f x) as [y|] eqn:Ex; simpl in H; [|discriminate].
    destruct (comprehension f l) as [ys'|]; simpl in H; [|discriminate].
    inversion H; subst. constructor; auto.
Qed.

Lemma is_Ok_true {A} (res : result A) : is_Ok res = true -> exists v, res = Ok v.
Proof. destruct res; [eauto|discriminate]. Qed.

End IndexFacts.

(* ===================================================================== *)
(** ** Facts about the loader and the queries *)
(* ===================================================================== *)

Module StoreFacts.

Import Profiles LoaderFacts IndexFacts.

Lemma StronglySorted_map {A B} (R : A -> A -> Prop) (R' : B -> B -> Prop) (f : A -> B) l :
  (forall x y, In x l -> In y l -> R x y -> R' (f x) (f y)) ->
  StronglySorted R l -> StronglySorted R' (map f l).
Proof.
  intros HR Hs. induction Hs as [|x l Hs IH Hall]; simpl; [constructor|].
  constructor.
  - apply IH. intros; apply HR; simpl; auto.
  - rewrite List.Forall_forall in Hall |- *. intros y Hy.
    apply in_map_iff in Hy as (z & <- & Hz).
    apply HR; simpl; auto.
Qed.

Section WithUtils.

Context {json : Type}.
Variable json_loads : string -> result json.
Variable getitem : json -> string -> result string.
Variable Environment_init : json -> result Environment.t.
Variable Agent_init : json -> result Agent.t.
Variable set_iter : gset string -> list string.

Local Abbreviation sorted_by_codename := (Profiles.sorted_by_codename getitem).
Local Abbreviation environment_loop := (Profiles.environment_loop getitem Environment_init).
Local Abbreviation agent_loop := (Profiles.agent_loop Agent_init).
Local Abbreviation relationship_loop := (Profiles.relationship_loop getitem).
Local Abbreviation codename_of := (Profiles.codename_of getitem).
Local Abbreviation env_id_of := (Profiles.env_id_of Environment_init).
Local Abbreviation edge_of := (Profiles.edge_of getitem).
Local Abbreviation env_record_ok := (Profiles.env_record_ok getitem Environment_init).
Local Abbreviation edge_record_ok := (Profiles.edge_record_ok getitem).
Local Abbreviation in_codename_order := (Profiles.in_codename_order getitem).
Local Abbreviation display_from := (Profiles.display_from getitem Environment_init).

(** *** Line 39: the sort *)

Lemma sorted_by_codename_ok data :
  Forall (fun p => is_Ok (getitem p "codename") = true) data ->
  sorted_by_codename data = Ok (in_codename_order data).
Proof.
  intros H. unfold Profiles.sorted_by_codename.
  rewrite (comprehension_ok _ (fun p => (codename_of p, p))); [reflexivity|].
  eapply Forall_impl; [exact H|]. intros p Hp. simpl in Hp.
  apply is_Ok_true in Hp as [c Hc].
  unfold Profiles.codename_of, Profiles.field. now rewrite Hc.
Qed.

Lemma in_codename_order_perm data : Permutation (in_codename_order data) data.
Proof.
  unfold Profiles.in_codename_order.
  rewrite (Permutation_map snd (sort_by_key_perm _)).
  rewrite map_map. simpl. now rewrite map_id.
Qed.

Lemma in_codename_order_sorted data :
  StronglySorted (fun p q => String.leb (codename_of p) (codename_of q) = true)
    (in_codename_order data).
Proof.
  unfold Profiles.in_codename_order.
  apply (StronglySorted_map key_le); [|apply sort_by_key_sorted].
  intros x y Hx Hy Hxy.
  assert (Hkey : forall z, In z (sort_by_key (map (fun p => (codename_of p, p)) data)) ->
                           fst z = codename_of (snd z)).
  { intros z Hz. apply (Permutation_in _ (sort_by_key_perm _)) in Hz.
    apply in_map_iff in Hz as (p & <- & _). reflexivity. }
  rewrite <- (Hkey x Hx), <- (Hkey y Hy). exact Hxy.
Qed.

(** Records with the same codename keep the order of the file. *)
Lemma in_codename_order_stable data c :
  filter (fun p => String.eqb (codename_of p) c) (in_codename_order data)
  = filter (fun p => String.eqb (codename_of p) c) data.
Proof.
  unfold Profiles.in_codename_order.
  assert (Hmap : forall l : list json,
    filter (fun p => String.eqb (codename_of p) c) l
    = map snd (filter (fun e : string * json => String.eqb (fst e) c)
                      (map (fun p => (codename_of p, p)) l))).
  { induction l as [|p l IH]; [reflexivity|].
    simpl. rewrite !filter_cons. simpl.
    destruct (decide (String.eqb (codename_of p) c)); simpl; now rewrite IH. }
  rewrite (Hmap data), <- sort_by_key_stable.
  generalize (sort_by_key_perm (map (fun p => (codename_of p, p)) data)).
  generalize (sort_by_key (map (fun p => (codename_of p, p)) data)).
  intros l Hperm.
  assert (Hkey : forall z, In z l -> fst z = codename_of (snd z)).
  { intros z Hz. apply (Permutation_in _ Hperm) in Hz.
    apply in_map_iff in Hz as (p & <- & _). reflexivity. }
  clear Hperm Hmap. induction l as [|z l IH]; [reflexivity|].
  simpl. rewrite !filter_cons.
  rewrite <- (Hkey z (or_introl eq_refl)).
  destruct (decide (String.eqb (fst z) c)); simpl; rewrite IH; auto;
    intros; apply Hkey; simpl; auto.
Qed.

(** *** Lines 36-51: the labels *)

Lemma counts_agree_empty : counts_agree ∅ [].
Proof. intros c. now rewrite lookup_empty. Qed.

Lemma counts_agree_step cnt seen cn :
  counts_agree cnt seen ->
  counts_agree (<[cn := default 0 (cnt !! cn) + 1]> cnt) (seen ++ [cn]).
Proof.
  intros H c. rewrite count_occ_app. simpl.
  destruct (string_dec cn c) as [->|Hne].
  - rewrite lookup_insert_eq, (H c).
    destruct (count_occ string_dec seen c); simpl; f_equal; lia.
  - rewrite lookup_insert_ne by done. rewrite (H c), Nat.add_0_r. reflexivity.
Qed.

Lemma environment_loop_display profiles :
  forall seen cnt envs dict,
    Forall (fun p => env_record_ok p = true) profiles ->
    counts_agree cnt seen ->
    exists dict',
      environment_loop profiles cnt envs dict
      = Ok (envs ++ display_from seen profiles, dict').
Proof.
  induction profiles as [|p rest IH]; intros seen cnt envs dict Hok Hcnt.
  - simpl. rewrite app_nil_r. eauto.
  - inversion Hok as [|? ? Hp Hrest]; subst.
    unfold Profiles.env_record_ok in Hp. apply andb_true_iff in Hp as [Hc He].
    apply is_Ok_true in Hc as [cn Hcn]. apply is_Ok_true in He as [env Henv].
    cbn [Profiles.environment_loop Profiles.display_from].
    rewrite Henv, Hcn. cbn [rbind].
    destruct (IH (seen ++ [cn]) (<[cn := default 0 (cnt !! cn) + 1]> cnt)
                (envs ++ [match cnt !! cn with
                          | Some c => ((cn ++ "_" ++ fmt_05d c)%string, Environment._id env)
                          | None => (cn, Environment._id env)
                          end])
                (<[Environment._id env := env]> dict) Hrest
                (counts_agree_step _ _ _ Hcnt)) as [dict' Hd].
    exists dict'. rewrite Hd. f_equal. f_equal.
    rewrite <- app_assoc. f_equal. simpl.
    unfold Profiles.codename_of, Profiles.field, Profiles.env_id_of.
    rewrite Hcn, Henv. f_equal.
    rewrite (Hcnt cn). unfold display_label.
    now destruct (count_occ string_dec seen cn).
Qed.

Lemma display_from_length profiles : forall seen,
  length (display_from seen profiles) = length profiles.
Proof. induction profiles as [|p rest IH]; intros seen; simpl; [reflexivity|now rewrite IH]. Qed.

Lemma display_from_ids profiles : forall seen,
  map snd (display_from seen profiles) = map env_id_of profiles.
Proof. induction profiles as [|p rest IH]; intros seen; simpl; [reflexivity|now rewrite IH]. Qed.

Lemma display_from_lookup profiles : forall seen i p,
  profiles !! i = Some p ->
  display_from seen profiles !! i
  = Some (display_label (codename_of p)
            (count_occ string_dec seen (codename_of p)
             + count_occ string_dec (map codename_of (take i profiles)) (codename_of p)),
          env_id_of p).
Proof.
  induction profiles as [|q rest IH]; intros seen i p Hi; [discriminate|].
  destruct i as [|i]; simpl in *.
  - inversion Hi; subst. now rewrite Nat.add_0_r.
  - rewrite (IH _ _ _ Hi). rewrite count_occ_app. simpl.
    destruct (string_dec (codename_of q) (codename_of p)); do 3 f_equal; lia.
Qed.

Lemma earlier_same_lookup profiles i p :
  profiles !! i = Some p ->
  earlier_same (map codename_of profiles) i
  = count_occ string_dec (map codename_of (take i profiles)) (codename_of p).
Proof.
  intros Hi. unfold earlier_same. rewrite firstn_map. f_equal.
  revert i Hi. induction profiles as [|q rest IH]; intros i Hi; [discriminate|].
  destruct i; simpl in *; [now inversion Hi|auto].
Qed.

(** Position [i] has no earlier record of the same codename exactly when
    the counter is zero there. *)
Lemma count_occ_zero_iff (l : list string) c :
  count_occ string_dec l c = 0 <-> ~ In c l.
Proof. symmetry. apply count_occ_not_In. Qed.

(** *** Lines 64-67: the index *)

Lemma relationship_loop_spec rels : forall d,
  Forall (fun p => edge_record_ok p = true) rels ->
  exists d',
    relationship_loop rels d = Ok d' /\
    (forall r u, neighbors d' r u
                 = neighbors d r u ++ counterparts r u (map edge_of rels)) /\
    (forall r, (forall p, In p rels -> field getitem p "relationship" <> r) ->
               d' !! r = d !! r).
Proof.
  induction rels as [|p rest IH]; intros d Hok.
  - exists d. simpl. repeat split; auto. intros; now rewrite app_nil_r.
  - inversion Hok as [|? ? Hp Hrest]; subst.
    unfold Profiles.edge_record_ok in Hp.
    apply andb_true_iff in Hp as [Hp H2]. apply andb_true_iff in Hp as [Hr H1].
    apply is_Ok_true in Hr as [r0 Hr]. apply is_Ok_true in H1 as [a1 H1].
    apply is_Ok_true in H2 as [a2 H2].
    cbn [Profiles.relationship_loop]. rewrite Hr, H1, H2. cbn [rbind].
    destruct (IH (index_append (index_append d r0 a1 a2) r0 a2 a1) Hrest)
      as (d' & Hd' & Hn & Hother).
    exists d'. split; [exact Hd'|]. split.
    + intros r u. rewrite Hn, !neighbors_index_append, <- !app_assoc. f_equal.
      assert (He : edge_of p = (r0, a1, a2)).
      { unfold Profiles.edge_of, field. now rewrite Hr, H1, H2. }
      cbn [map]. rewrite He, counterparts_cons, app_assoc. f_equal.
      repeat case_decide; try reflexivity; exfalso; intuition congruence.
    + intros r Hr'. rewrite Hother by (intros q Hq; apply Hr'; now right).
      assert (r0 <> r).
      { specialize (Hr' p (or_introl eq_refl)). unfold field in Hr'. now rewrite Hr in Hr'. }
      now rewrite !index_append_other.
Qed.

(** *** The loader as a whole *)

Local Abbreviation read_jsonl := (Profiles.read_jsonl json_loads).
Local Abbreviation body :=
  (Profiles.get_sotopia_profiles_body json_loads getitem Environment_init Agent_init).
Local Abbreviation get_sotopia_profiles :=
  (Profiles.get_sotopia_profiles json_loads getitem Environment_init Agent_init).
Local Abbreviation create_user_agent_dropdown :=
  (Profiles.create_user_agent_dropdown json_loads getitem Environment_init Agent_init set_iter).
Local Abbreviation create_bot_agent_dropdown :=
  (Profiles.create_bot_agent_dropdown json_loads getitem Environment_init Agent_init).
Local Abbreviation process_step :=
  (Profiles.process_step json_loads getitem Environment_init Agent_init set_iter).

Lemma read_jsonl_eq path w :
  read_jsonl path w
  = match fs w !! path with
    | None => (Raise (FileNotFoundError path), w)
    | Some lines =>
        (comprehension json_loads lines,
         mkWorld (fs w) (opened w ++ [path]) (heap w) (cache w))
    end.
Proof.
  unfold Profiles.read_jsonl, bind, get, raise, put, lift_result.
  destruct (fs w !! path); reflexivity.
Qed.

(** The body writes nothing but the log of opened files. *)
Lemma body_frame e a r w :
  fs (snd (body e a r w)) = fs w /\
  heap (snd (body e a r w)) = heap w /\
  cache (snd (body e a r w)) = cache w.
Proof.
  unfold Profiles.get_sotopia_profiles_body, bind, lift_result, ret.
  rewrite read_jsonl_eq.
  destruct (fs w !! e) as [le|]; [|simpl; auto].
  destruct (comprehension json_loads le) as [de|]; [|simpl; auto].
  destruct (sorted_by_codename de) as [profiles|]; [|simpl; auto].
  destruct (environment_loop profiles ∅ [] ∅) as [envs|]; [|simpl; auto].
  rewrite read_jsonl_eq. cbn [fs opened heap cache].
  destruct (fs w !! a) as [la|]; [|simpl; auto].
  destruct (comprehension json_loads la) as [da|]; [|simpl; auto].
  destruct (agent_loop da ∅) as [ad|]; [|simpl; auto].
  rewrite read_jsonl_eq. cbn [fs opened heap cache].
  destruct (fs w !! r) as [lr|]; [|simpl; auto].
  destruct (comprehension json_loads lr) as [dr|]; [|simpl; auto].
  destruct (relationship_loop dr ∅) as [rd|]; simpl; auto.
Qed.

(** When the body returns, every file was there, every line parsed, and
    every loop ran to its end. *)
Lemma body_inv e a r w st w' :
  body e a r w = (Ok st, w') ->
  exists le de profiles la da lr dr,
    fs w !! e = Some le /\ comprehension json_loads le = Ok de /\
    sorted_by_codename de = Ok profiles /\
    environment_loop profiles ∅ [] ∅ = Ok (environments st, environment_dict st) /\
    fs w !! a = Some la /\ comprehension json_loads la = Ok da /\
    agent_loop da ∅ = Ok (agent_dict st) /\
    fs w !! r = Some lr /\ comprehension json_loads lr = Ok dr /\
    relationship_loop dr ∅ = Ok (relationship_dict st) /\
    w' = mkWorld (fs w) (opened w ++ [e; a; r]) (heap w) (cache w).
Proof.
  unfold Profiles.get_sotopia_profiles_body, bind, lift_result, ret.
  rewrite read_jsonl_eq.
  destruct (fs w !! e) as [le|] eqn:Ee; [|discriminate].
  destruct (comprehension json_loads le) as [de|] eqn:Ede; [|discriminate].
  destruct (sorted_by_codename de) as [profiles|] eqn:Es; [|discriminate].
  destruct (environment_loop profiles ∅ [] ∅) as [envs|] eqn:Eenv; [|discriminate].
  rewrite read_jsonl_eq. cbn [fs opened heap cache].
  destruct (fs w !! a) as [la|] eqn:Ea; [|discriminate].
  destruct (comprehension json_loads la) as [da|] eqn:Eda; [|discriminate].
  destruct (agent_loop da ∅) as [ad|] eqn:Ead; [|discriminate].
  rewrite read_jsonl_eq. cbn [fs opened heap cache].
  destruct (fs w !! r) as [lr|] eqn:Er; [|discriminate].
  destruct (comprehension json_loads lr) as [dr|] eqn:Edr; [|discriminate].
  destruct (relationship_loop dr ∅) as [rd|] eqn:Erd; [|discriminate].
  intros H. inversion H; subst. cbn [environments environment_dict agent_dict relationship_dict].
  destruct envs as [envl envd]. rewrite <- !app_assoc.
  exists le, de, profiles, la, da, lr, dr. simpl. repeat split; auto.
Qed.

(** [@cache]: hit and miss. *)
Lemma get_sotopia_profiles_hit args w ref :
  cache w !! args = Some ref -> get_sotopia_profiles args w = (Ok ref, w).
Proof.
  intros H. unfold Profiles.get_sotopia_profiles, bind, get. now rewrite H.
Qed.

Lemma get_sotopia_profiles_miss args w :
  cache w !! args = None ->
  get_sotopia_profiles args w
  = match bind_args args with
    | Raise ex => (Raise ex, w)
    | Ok files =>
        match body (fst (fst files)) (snd (fst files)) (snd files) w with
        | (Ok st, w') =>
            (Ok (length (heap w')),
             mkWorld (fs w') (opened w') (heap w' ++ [st])
               (<[args := length (heap w')]> (cache w')))
        | (Raise ex, w') => (Raise ex, w')
        end
    end.
Proof.
  intros H. unfold Profiles.get_sotopia_profiles, bind, get, lift_result, put, ret.
  rewrite H. destruct (bind_args args) as [files|]; [|reflexivity].
  destruct (body _ _ _ w) as [[st|ex] w']; reflexivity.
Qed.

(** A call of the loader keeps what the cache holds and what the heap
    holds. *)
Lemma get_sotopia_profiles_keeps args w :
  (forall k ref, cache w !! k = Some ref ->
                 cache (snd (get_sotopia_profiles args w)) !! k = Some ref) /\
  (forall i st, heap w !! i = Some st ->
                heap (snd (get_sotopia_profiles args w)) !! i = Some st).
Proof.
  destruct (cache w !! args) as [ref|] eqn:E.
  - rewrite (get_sotopia_profiles_hit _ _ _ E). auto.
  - rewrite (get_sotopia_profiles_miss _ _ E).
    destruct (bind_args args) as [files|]; [|auto].
    pose proof (body_frame (fst (fst files)) (snd (fst files)) (snd files) w) as (_ & Hh & Hc).
    destruct (body _ _ _ w) as [[st|ex] w']; simpl in *.
    + rewrite Hh, Hc. split.
      * intros k ref Hk. rewrite lookup_insert_ne; [exact Hk|]. congruence.
      * intros i st' Hi. now apply lookup_app_l_Some.
    + rewrite Hh, Hc. auto.
Qed.

(** After a call that returns, the cache holds the reference returned. *)
Lemma get_sotopia_profiles_cached args w ref w1 :
  get_sotopia_profiles args w = (Ok ref, w1) -> cache w1 !! args = Some ref.
Proof.
  destruct (cache w !! args) as [ref'|] eqn:E.
  - rewrite (get_sotopia_profiles_hit _ _ _ E). intros H. inversion H; subst. exact E.
  - rewrite (get_sotopia_profiles_miss _ _ E).
    destruct (bind_args args) as [files|]; [|discriminate].
    destruct (body _ _ _ w) as [[st|ex] w']; [|discriminate].
    intros H. inversion H; subst. simpl. apply lookup_insert_eq.
Qed.

(** A load from a miss puts the store built by the body on the heap. *)
Lemma get_sotopia_profiles_loaded w ref w1 :
  cache w !! ([] : list string) = None ->
  get_sotopia_profiles [] w = (Ok ref, w1) ->
  exists st w',
    body ENVIRONMENT_PROFILES AGENT_PROFILES RELATIONSHIP_PROFILES w = (Ok st, w') /\
    cache w1 !! ([] : list string) = Some ref /\
    heap w1 !! ref = Some st /\
    fs w1 = fs w.
Proof.
  intros Hmiss. rewrite (get_sotopia_profiles_miss _ _ Hmiss). simpl.
  pose proof (body_frame ENVIRONMENT_PROFILES AGENT_PROFILES RELATIONSHIP_PROFILES w)
    as (Hf & Hh & Hc).
  destruct (body _ _ _ w) as [[st|ex] w'] eqn:Eb; [|discriminate].
  intros H. inversion H; subst. exists st, w'. simpl in *.
  repeat split; auto.
  - apply lookup_insert_eq.
  - now apply list_lookup_middle.
Qed.

(** *** The queries *)

Lemma create_user_agent_dropdown_eq environment_id w ref st :
  cache w !! ([] : list string) = Some ref ->
  heap w !! ref = Some st ->
  create_user_agent_dropdown environment_id w
  = match environment_dict st !! environment_id with
    | None => (Raise (KeyError (Some environment_id)), w)
    | Some env =>
        (match comprehension
                 (fun agent_id =>
                    a <-? dict_getitem (agent_dict st) agent_id ;; Ok (Agent.name a, agent_id))
                 (set_iter (dom (fst (outer_getitem (relationship_dict st)
                                        (Environment.relationship env))))) with
         | Ok l => Ok (mkDropdown l (first_value l) "User Agent Selection")
         | Raise ex => Raise ex
         end,
         with_relationship_dict w ref
           (snd (outer_getitem (relationship_dict st) (Environment.relationship env))))
    end.
Proof.
  intros Hc Hh. unfold Profiles.create_user_agent_dropdown.
  unfold bind at 1. rewrite (get_sotopia_profiles_hit _ _ _ Hc).
  unfold bind at 1. unfold deref, bind at 1, get. rewrite Hh. unfold ret at 1.
  unfold bind at 1, lift_result at 1, dict_getitem at 1.
  destruct (environment_dict st !! environment_id) as [env|]; [|reflexivity].
  destruct (outer_getitem (relationship_dict st) (Environment.relationship env))
    as [inner d'] eqn:Eo.
  unfold bind, set_relationship_dict, modify, lift_result, ret. simpl.
  destruct (comprehension _ (set_iter (dom inner))); reflexivity.
Qed.

Lemma create_bot_agent_dropdown_eq environment_id user_agent_id w ref st :
  cache w !! ([] : list string) = Some ref ->
  heap w !! ref = Some st ->
  create_bot_agent_dropdown environment_id user_agent_id w
  = match environment_dict st !! environment_id with
    | None => (Raise (KeyError (Some environment_id)), w)
    | Some env =>
        match agent_dict st !! user_agent_id with
        | None => (Raise (KeyError (Some user_agent_id)), w)
        | Some user =>
            (match comprehension
                     (fun neighbor_id =>
                        a <-? dict_getitem (agent_dict st) neighbor_id ;;
                        Ok (Agent.name a, neighbor_id))
                     (neighbors (relationship_dict st)
                        (Environment.relationship env) (Agent.agent_id user)) with
             | Ok l => Ok (mkDropdown l (first_value l) "Bot Agent Selection")
             | Raise ex => Raise ex
             end,
             with_relationship_dict w ref
               (snd (index_getitem (relationship_dict st)
                       (Environment.relationship env) (Agent.agent_id user))))
        end
    end.
Proof.
  intros Hc Hh. unfold Profiles.create_bot_agent_dropdown.
  unfold bind at 1. rewrite (get_sotopia_profiles_hit _ _ _ Hc).
  unfold bind at 1. unfold deref, bind at 1, get. rewrite Hh. unfold ret at 1.
  unfold bind at 1, lift_result at 1, dict_getitem at 1.
  destruct (environment_dict st !! environment_id) as [env|]; [|reflexivity].
  unfold bind at 1, lift_result at 1, dict_getitem at 1.
  destruct (agent_dict st !! user_agent_id) as [user|]; [|reflexivity].
  rewrite <- fst_index_getitem.
  destruct (index_getitem (relationship_dict st) (Environment.relationship env)
              (Agent.agent_id user)) as [l d'] eqn:Ei.
  unfold bind, set_relationship_dict, modify, lift_result, ret. simpl.
  destruct (comprehension _ l); reflexivity.
Qed.

(** What follows the loader call in either query leaves the cache alone
    and keeps every heap cell in place. *)
Lemma with_relationship_dict_lookup w ref d i :
  heap (with_relationship_dict w ref d) !! i
  = if decide (ref = i)
    then (fun st => mkStore (environments st) (environment_dict st) (agent_dict st) d)
           <$> heap w !! i
    else heap w !! i.
Proof.
  unfold with_relationship_dict. simpl. rewrite list_lookup_alter.
  case_decide; [now subst|reflexivity].
Qed.

Lemma create_user_agent_dropdown_cache environment_id w k ref :
  cache w !! k = Some ref ->
  cache (snd (create_user_agent_dropdown environment_id w)) !! k = Some ref.
Proof.
  intros Hk. unfold Profiles.create_user_agent_dropdown. unfold bind at 1.
  pose proof (proj1 (get_sotopia_profiles_keeps [] w) k ref Hk) as Hk1.
  destruct (get_sotopia_profiles [] w) as [[r1|ex] w1]; [|exact Hk1].
  simpl in Hk1. unfold deref, bind, get, ret, raise, lift_result, dict_getitem,
    set_relationship_dict, modify.
  destruct (heap w1 !! r1) as [st|]; [|exact Hk1].
  destruct (environment_dict st !! environment_id) as [env|]; [|exact Hk1].
  destruct (outer_getitem _ _) as [inner d'].
  destruct (comprehension _ _); exact Hk1.
Qed.

Lemma create_bot_agent_dropdown_cache environment_id user_agent_id w k ref :
  cache w !! k = Some ref ->
  cache (snd (create_bot_agent_dropdown environment_id user_agent_id w)) !! k = Some ref.
Proof.
  intros Hk. unfold Profiles.create_bot_agent_dropdown. unfold bind at 1.
  pose proof (proj1 (get_sotopia_profiles_keeps [] w) k ref Hk) as Hk1.
  destruct (get_sotopia_profiles [] w) as [[r1|ex] w1]; [|exact Hk1].
  simpl in Hk1. unfold deref, bind, get, ret, raise, lift_result, dict_getitem,
    set_relationship_dict, modify.
  destruct (heap w1 !! r1) as [st|]; [|exact Hk1].
  destruct (environment_dict st !! environment_id) as [env|]; [|exact Hk1].
  destruct (agent_dict st !! user_agent_id) as [user|]; [|exact Hk1].
  destruct (index_getitem _ _ _) as [l d'].
  destruct (comprehension _ _); exact Hk1.
Qed.

(** Nothing that happens in the process removes a cache entry. *)
Lemma process_step_keeps_cache w w' :
  process_step w w' ->
  forall k ref, cache w !! k = Some ref -> cache w' !! k = Some ref.
Proof.
  intros Hstep k ref Hk. destruct Hstep.
  - now apply get_sotopia_profiles_keeps.
  - now apply create_user_agent_dropdown_cache.
  - now apply create_bot_agent_dropdown_cache.
  - exact Hk.
Qed.

Lemma process_keeps_cache w w' :
  rtc process_step w w' ->
  forall k ref, cache w !! k = Some ref -> cache w' !! k = Some ref.
Proof.
  induction 1 as [|w w1 w2 Hstep _ IH]; intros k ref Hk; [exact Hk|].
  apply IH. eapply process_step_keeps_cache; eauto.
Qed.

(** The store that is served keeps answering the same. *)
Lemma serves_with_relationship_dict w s ref st d :
  cache w !! ([] : list string) = Some ref ->
  heap w !! ref = Some st ->
  environments st = environments s ->
  environment_dict st = environment_dict s ->
  agent_dict st = agent_dict s ->
  (forall r u, neighbors d r u = neighbors (relationship_dict s) r u) ->
  serves (with_relationship_dict w ref d) s.
Proof.
  intros Hc Hh H1 H2 H3 H4.
  exists ref, (mkStore (environments st) (environment_dict st) (agent_dict st) d).
  repeat split; auto.
  rewrite with_relationship_dict_lookup, decide_True by done. now rewrite Hh.
Qed.

Lemma process_step_serves w w' s :
  process_step w w' -> serves w s -> serves w' s.
Proof.
  intros Hstep (ref & st & Hc & Hh & H1 & H2 & H3 & H4). destruct Hstep.
  - exists ref, st. repeat split; auto; now apply get_sotopia_profiles_keeps.
  - rewrite (create_user_agent_dropdown_eq _ _ _ _ Hc Hh).
    destruct (environment_dict st !! environment_id) as [env|].
    + simpl. eapply serves_with_relationship_dict; eauto.
      intros r u. now rewrite neighbors_outer_getitem.
    + exists ref, st. repeat split; auto.
  - rewrite (create_bot_agent_dropdown_eq _ _ _ _ _ Hc Hh).
    destruct (environment_dict st !! environment_id) as [env|];
      [destruct (agent_dict st !! user_agent_id) as [user|]|].
    + simpl. eapply serves_with_relationship_dict; eauto.
      intros r u. now rewrite neighbors_index_getitem.
    + exists ref, st. repeat split; auto.
    + exists ref, st. repeat split; auto.
  - exists ref, st. repeat split; auto.
Qed.

Lemma process_serves w w' s :
  rtc process_step w w' -> serves w s -> serves w' s.
Proof.
  induction 1 as [|w w1 w2 Hstep _ IH]; intros Hs; [exact Hs|].
  apply IH. eapply process_step_serves; eauto.
Qed.

Lemma relationship_loop_inv rels : forall d d',
  relationship_loop rels d = Ok d' -> Forall (fun p => edge_record_ok p = true) rels.
Proof.
  induction rels as [|p rest IH]; intros d d' H; [constructor|].
  cbn [Profiles.relationship_loop] in H.
  destruct (getitem p "relationship") as [r0|] eqn:Hr; [|discriminate].
  destruct (getitem p "agent1_id") as [a1|] eqn:H1; [|discriminate].
  destruct (getitem p "agent2_id") as [a2|] eqn:H2; [|discriminate].
  cbn [rbind] in H. constructor; [|eapply IH; eauto].
  unfold Profiles.edge_record_ok. now rewrite Hr, H1, H2.
Qed.

(** *** What a load from an empty cache leaves behind *)

Lemma loaded_index w0 ref w1 lines rels :
  cache w0 !! ([] : list string) = None ->
  get_sotopia_profiles [] w0 = (Ok ref, w1) ->
  fs w0 !! RELATIONSHIP_PROFILES = Some lines ->
  comprehension json_loads lines = Ok rels ->
  exists st,
    cache w1 !! ([] : list string) = Some ref /\
    heap w1 !! ref = Some st /\
    (forall r u, neighbors (relationship_dict st) r u
                 = counterparts r u (map edge_of rels)) /\
    (forall r, (forall p, In p rels -> field getitem p "relationship" <> r) ->
               relationship_dict st !! r = None).
Proof.
  intros Hmiss Hload Hfile Hparse.
  destruct (get_sotopia_profiles_loaded _ _ _ Hmiss Hload) as (st & w' & Hb & Hc & Hh & _).
  apply body_inv in Hb
    as (le & de & profiles & la & da & lr & dr & _ & _ & _ & _ & _ & _ & _ & Hlr & Hdr & Hrl & _).
  rewrite Hfile in Hlr. inversion Hlr; subst lr.
  rewrite Hparse in Hdr. inversion Hdr; subst dr.
  pose proof (relationship_loop_inv _ _ _ Hrl) as Hok.
  destruct (relationship_loop_spec rels ∅ Hok) as (d' & Hd' & Hn & Hother).
  rewrite Hrl in Hd'. inversion Hd'; subst d'.
  exists st. repeat split; auto.
Qed.

Lemma count_take_lt (l : list string) : forall i j c,
  i < j -> l !! i = Some c ->
  count_occ string_dec (take i l) c < count_occ string_dec (take j l) c.
Proof.
  induction l as [|x l IH]; intros i j c Hij Hi; [discriminate|].
  destruct j as [|j]; [lia|]. destruct i as [|i]; simpl in *.
  - inversion Hi; subst. destruct (string_dec c c); [lia|congruence].
  - specialize (IH i j c ltac:(lia) Hi). destruct (string_dec x c); lia.
Qed.

Lemma not_earlier_iff profiles i p :
  profiles !! i = Some p ->
  earlier_same (map codename_of profiles) i = 0
  <-> forall j q, j < i -> profiles !! j = Some q -> codename_of q <> codename_of p.
Proof.
  intros Hi. rewrite (earlier_same_lookup _ _ _ Hi), count_occ_zero_iff. split.
  - intros Hnot j q Hj Hq Heq. apply Hnot. rewrite <- Heq.
    apply in_map. apply list_elem_of_In. apply elem_of_take. eauto.
  - intros Hall Hin. apply in_map_iff in Hin as (q & Heq & Hq).
    apply list_elem_of_In in Hq. apply elem_of_take in Hq as (j & Hq & Hj).
    exact (Hall j q Hj Hq Heq).
Qed.

(** C3.  The loader visits the environment records in codename order and
    emits one display entry per record, with the record's own id.  The
    first record of a codename keeps the codename as its label, and it is
    the only one of that codename that does; a record that comes after [k]
    others of the same codename is labelled codename, underscore, [k]
    printed with at least five digits, so labels within one codename are
    pairwise different.  Two records codenamed negotiation give the
    labels negotiation and negotiation_00001. *)
Theorem C3_display_list_is_sorted_and_disambiguated data
    (Hok : Forall (fun p => env_record_ok p = true) data) :
  let profiles := in_codename_order data in
  let display := display_from [] profiles in
  sorted_by_codename data = Ok profiles /\
  (exists dict, environment_loop profiles ∅ [] ∅ = Ok (display, dict)) /\
  (forall e a r w st w' lines,
      body e a r w = (Ok st, w') -> fs w !! e = Some lines ->
      comprehension json_loads lines = Ok data -> environments st = display) /\
  Permutation profiles data /\
  StronglySorted (fun p q => String.leb (codename_of p) (codename_of q) = true) profiles /\
  map snd display = map env_id_of profiles /\
  (forall i p, profiles !! i = Some p ->
     display !! i
     = Some (display_label (codename_of p) (earlier_same (map codename_of profiles) i),
             env_id_of p) /\
     (display_label (codename_of p) (earlier_same (map codename_of profiles) i)
      = codename_of p
      <-> forall j q, j < i -> profiles !! j = Some q -> codename_of q <> codename_of p)) /\
  (forall i j p q, i < j -> profiles !! i = Some p -> profiles !! j = Some q ->
     codename_of p = codename_of q ->
     fst <$> display !! i <> fst <$> display !! j) /\
  (display_label "negotiation" 1 = "negotiation_00001" /\
   display_label "negotiation" 2 = "negotiation_00002") /\
  (forall p q, data = [p; q] ->
     codename_of p = "negotiation" -> codename_of q = "negotiation" ->
     map fst display = ["negotiation"; "negotiation_00001"]).
Proof.
  intros profiles display.
  assert (Hsorted : sorted_by_codename data = Ok profiles).
  { apply sorted_by_codename_ok. eapply Forall_impl; [exact Hok|].
    intros p Hp. simpl in Hp. unfold Profiles.env_record_ok in Hp.
    now apply andb_true_iff in Hp as [Hp _]. }
  assert (Hok' : Forall (fun p => env_record_ok p = true) profiles).
  { rewrite List.Forall_forall in Hok |- *. intros p Hp. apply Hok.
    eapply Permutation_in; [apply in_codename_order_perm|exact Hp]. }
  destruct (environment_loop_display profiles [] ∅ [] ∅ Hok' counts_agree_empty)
    as [dict Hloop].
  simpl in Hloop. fold display in Hloop.
  assert (Hentry : forall i p, profiles !! i = Some p ->
     display !! i
     = Some (display_label (codename_of p) (earlier_same (map codename_of profiles) i),
             env_id_of p)).
  { intros i p Hi. unfold display. rewrite (display_from_lookup _ _ _ _ Hi).
    now rewrite (earlier_same_lookup _ _ _ Hi). }
  split; [exact Hsorted|]. split; [eauto|]. split; [|split; [|split; [|split]]].
  - intros e a r w st w' lines Hb Hf Hp.
    apply body_inv in Hb
      as (le & de & profiles' & _ & _ & _ & _ & Hle & Hde & Hs & Hl & _).
    rewrite Hf in Hle. inversion Hle; subst le.
    rewrite Hp in Hde. inversion Hde; subst de.
    rewrite Hsorted in Hs. inversion Hs; subst profiles'.
    rewrite Hloop in Hl. now inversion Hl.
  - apply in_codename_order_perm.
  - apply in_codename_order_sorted.
  - apply display_from_ids.
  - split; [|split; [|split]].
    + intros i p Hi. split; [now apply Hentry|].
      rewrite display_label_unsuffixed. now apply not_earlier_iff.
    + intros i j p q Hij Hi Hj Heq.
      rewrite (Hentry _ _ Hi), (Hentry _ _ Hj). simpl. intros Hl.
      inversion Hl as [Hl']. rewrite <- Heq in Hl'.
      apply display_label_inj in Hl'.
      rewrite (earlier_same_lookup _ _ _ Hi), (earlier_same_lookup _ _ _ Hj) in Hl'.
      rewrite <- Heq in Hl'.
      assert (Hlt := count_take_lt (map codename_of profiles) i j (codename_of p) Hij).
      rewrite !firstn_map in Hlt.
      rewrite list_lookup_fmap, Hi in Hlt. specialize (Hlt eq_refl).
      apply Nat.lt_neq in Hlt. apply Hlt. exact Hl'.
    + split; reflexivity.
    + intros p q Hdata Hp Hq. unfold display, profiles, Profiles.in_codename_order.
      subst data. cbn [map sort_by_key insert_by_key]. rewrite Hp, Hq.
      cbn [map sort_by_key insert_by_key snd].
      change (String.ltb "negotiation" "negotiation") with false.
      cbn [map snd Profiles.display_from]. rewrite Hp, Hq. reflexivity.
Qed.

(** C2.  On the store loaded from the relationship file, and after any
    number of further loads, queries and file changes, the bot dropdown
    for environment [e] and agent [u] lists exactly the other endpoints
    of the edges of [e]'s relationship type that have [u]'s [agent_id] as
    an endpoint, in the order of the file and with repetitions kept; and
    every edge makes each of its ends a counterpart of the other. *)
Theorem C2_bot_candidates_are_the_counterparts
    w0 ref w1 w lines rels st environment_id user_agent_id env user
    (Hfresh : cache w0 !! ([] : list string) = None)
    (Hload : get_sotopia_profiles [] w0 = (Ok ref, w1))
    (Hfile : fs w0 !! RELATIONSHIP_PROFILES = Some lines)
    (Hparse : comprehension json_loads lines = Ok rels)
    (Hsteps : rtc process_step w1 w)
    (Hst : current_store w = Some st)
    (Henv : environment_dict st !! environment_id = Some env)
    (Huser : agent_dict st !! user_agent_id = Some user)
    (Hknown : Forall (fun n => is_Some (agent_dict st !! n))
                (counterparts (Environment.relationship env) (Agent.agent_id user)
                   (map edge_of rels))) :
  let cs := choices_of (agent_dict st)
              (counterparts (Environment.relationship env) (Agent.agent_id user)
                 (map edge_of rels)) in
  (exists w', create_bot_agent_dropdown environment_id user_agent_id w
              = (Ok (mkDropdown cs (first_value cs) "Bot Agent Selection"), w')) /\
  map snd cs = counterparts (Environment.relationship env) (Agent.agent_id user)
                 (map edge_of rels) /\
  (forall r a1 a2, In (r, a1, a2) (map edge_of rels) ->
     In a2 (neighbors (relationship_dict st) r a1) /\
     In a1 (neighbors (relationship_dict st) r a2)).
Proof.
  destruct (loaded_index _ _ _ _ _ Hfresh Hload Hfile Hparse) as (st1 & Hc1 & Hh1 & Hn1 & _).
  assert (Hs1 : serves w1 st1) by (exists ref, st1; repeat split; auto).
  destruct (process_serves _ _ _ Hsteps Hs1) as (ref' & st' & Hc & Hh & _ & _ & _ & Hn).
  unfold current_store in Hst. rewrite Hc, Hh in Hst. inversion Hst; subst st'.
  assert (Hnb : forall r u, neighbors (relationship_dict st) r u
                            = counterparts r u (map edge_of rels)).
  { intros r u. now rewrite Hn, Hn1. }
  intros cs. split; [|split].
  - rewrite (create_bot_agent_dropdown_eq _ _ _ _ _ Hc Hh), Henv, Huser, Hnb.
    rewrite (comprehension_ok _ (fun n => (agent_name (agent_dict st) n, n))).
    + eexists. reflexivity.
    + eapply Forall_impl; [exact Hknown|]. intros n [ag Hag]. simpl.
      unfold dict_getitem, agent_name. now rewrite Hag.
  - unfold cs, choices_of. rewrite map_map. simpl. apply map_id.
  - intros r a1 a2 Hin. rewrite !Hnb. now apply counterparts_symmetric.
Qed.

(** C5 (as amended).  When the list of counterparts of the user agent
    under the environment's relationship type is empty, the bot dropdown
    query returns: a dropdown without choices whose value is [None].  The
    guard of line 140 keeps it from taking the first element of the empty
    list; nothing is raised. *)
Theorem C5_no_counterpart_gives_empty_dropdown
    w ref st environment_id user_agent_id env user
    (Hcache : cache w !! ([] : list string) = Some ref)
    (Hheap : heap w !! ref = Some st)
    (Henv : environment_dict st !! environment_id = Some env)
    (Huser : agent_dict st !! user_agent_id = Some user)
    (Hnone : neighbors (relationship_dict st)
               (Environment.relationship env) (Agent.agent_id user) = []) :
  exists w', create_bot_agent_dropdown environment_id user_agent_id w
             = (Ok (mkDropdown [] None "Bot Agent Selection"), w').
Proof.
  rewrite (create_bot_agent_dropdown_eq _ _ _ _ _ Hcache Hheap), Henv, Huser, Hnone.
  simpl. eexists. reflexivity.
Qed.

(** A store on the heap stays where it is and keeps answering the same,
    whatever happens in the process. *)
Lemma answers_like_refl st : Graph.answers_like st st.
Proof. repeat split. Qed.

Lemma answers_like_trans st1 st2 st3 :
  Graph.answers_like st1 st2 -> Graph.answers_like st2 st3 -> Graph.answers_like st1 st3.
Proof.
  intros (A1 & A2 & A3 & A4) (B1 & B2 & B3 & B4).
  split; [congruence|]. split; [congruence|]. split; [congruence|].
  intros r u. now rewrite A4, B4.
Qed.

Lemma with_relationship_dict_keeps_cells w ref st0 d i st :
  heap w !! ref = Some st0 ->
  (forall r u, neighbors d r u = neighbors (relationship_dict st0) r u) ->
  heap w !! i = Some st ->
  exists st', heap (with_relationship_dict w ref d) !! i = Some st' /\
              Graph.answers_like st' st.
Proof.
  intros H0 Hd Hi. rewrite with_relationship_dict_lookup. case_decide.
  - subst i. rewrite Hi. rewrite Hi in H0. inversion H0; subst st0.
    eexists. split; [reflexivity|]. repeat split. exact Hd.
  - exists st. split; [exact Hi|apply answers_like_refl].
Qed.

Lemma process_step_keeps_cells w w' :
  process_step w w' ->
  forall i st, heap w !! i = Some st ->
    exists st', heap w' !! i = Some st' /\ Graph.answers_like st' st.
Proof.
  intros Hstep i st Hi. destruct Hstep.
  - exists st. split; [now apply get_sotopia_profiles_keeps|apply answers_like_refl].
  - unfold Profiles.create_user_agent_dropdown. unfold bind at 1.
    pose proof (proj2 (get_sotopia_profiles_keeps [] w) i st Hi) as Hi1.
    destruct (get_sotopia_profiles [] w) as [[r1|ex] w1];
      [|exists st; split; [exact Hi1|apply answers_like_refl]].
    simpl in Hi1. unfold deref, bind, get, ret, raise, lift_result, dict_getitem,
      set_relationship_dict, modify.
    destruct (heap w1 !! r1) as [st0|] eqn:E0;
      [|exists st; split; [exact Hi1|apply answers_like_refl]].
    destruct (environment_dict st0 !! environment_id) as [env|];
      [|exists st; split; [exact Hi1|apply answers_like_refl]].
    pose proof (neighbors_outer_getitem (relationship_dict st0)
                  (Environment.relationship env)) as Hn.
    destruct (outer_getitem _ _) as [inner d']. simpl in Hn.
    pose proof (with_relationship_dict_keeps_cells w1 r1 st0 d' i st E0 Hn Hi1) as Hw.
    destruct (comprehension _ _); exact Hw.
  - unfold Profiles.create_bot_agent_dropdown. unfold bind at 1.
    pose proof (proj2 (get_sotopia_profiles_keeps [] w) i st Hi) as Hi1.
    destruct (get_sotopia_profiles [] w) as [[r1|ex] w1];
      [|exists st; split; [exact Hi1|apply answers_like_refl]].
    simpl in Hi1. unfold deref, bind, get, ret, raise, lift_result, dict_getitem,
      set_relationship_dict, modify.
    destruct (heap w1 !! r1) as [st0|] eqn:E0;
      [|exists st; split; [exact Hi1|apply answers_like_refl]].
    destruct (environment_dict st0 !! environment_id) as [env|];
      [|exists st; split; [exact Hi1|apply answers_like_refl]].
    destruct (agent_dict st0 !! user_agent_id) as [user|];
      [|exists st; split; [exact Hi1|apply answers_like_refl]].
    pose proof (neighbors_index_getitem (relationship_dict st0)
                  (Environment.relationship env) (Agent.agent_id user)) as Hn.
    destruct (index_getitem _ _ _) as [l d']. simpl in Hn.
    pose proof (with_relationship_dict_keeps_cells w1 r1 st0 d' i st E0 Hn Hi1) as Hw.
    destruct (comprehension _ _); exact Hw.
  - exists st. split; [exact Hi|apply answers_like_refl].
Qed.

Lemma process_keeps_cells w w' :
  rtc process_step w w' ->
  forall i st, heap w !! i = Some st ->
    exists st', heap w' !! i = Some st' /\ Graph.answers_like st' st.
Proof.
  induction 1 as [|w w1 w2 Hstep _ IH]; intros i st Hi.
  - exists st. split; [exact Hi|apply answers_like_refl].
  - destruct (process_step_keeps_cells _ _ Hstep i st Hi) as (st1 & Hi1 & Ha1).
    destruct (IH i st1 Hi1) as (st2 & Hi2 & Ha2).
    exists st2. split; [exact Hi2|]. eapply answers_like_trans; eauto.
Qed.

(** C7 (as amended).  Once a call of [get_sotopia_profiles] has returned a
    reference, every later call with the same argument list returns that
    reference and does nothing else (no file is opened, nothing is put on
    the heap), whatever loads, queries and changes of the files happened in
    between.  The reference denotes a store: when the first call missed
    the cache, it is the store the body built from the files the arguments
    name, put on the heap at a place not used before; and the store found
    at the reference later is that one, answering as it did.  The cache
    goes by the argument list, not by the paths: a call with an argument
    list that is not in the cache loads anew and returns a reference of
    its own, also when its arguments name the same three files. *)
Theorem C7_same_argument_list_same_store
    args w ref w1 w2
    (Hfirst : get_sotopia_profiles args w = (Ok ref, w1))
    (Hlater : rtc process_step w1 w2) :
  get_sotopia_profiles args w2 = (Ok ref, w2) /\
  (cache w !! args = None ->
   exists e a r st1 w',
     bind_args args = Ok (e, a, r) /\
     body e a r w = (Ok st1, w') /\
     ref = length (heap w) /\
     heap w1 = heap w ++ [st1] /\
     heap w1 !! ref = Some st1) /\
  (forall st1, heap w1 !! ref = Some st1 ->
     exists st2, heap w2 !! ref = Some st2 /\ Graph.answers_like st2 st1) /\
  (forall args' ref' w3,
     cache w2 !! args' = None ->
     get_sotopia_profiles args' w2 = (Ok ref', w3) ->
     ref' = length (heap w2) /\
     (exists st', heap w3 = heap w2 ++ [st'] /\ heap w3 !! ref' = Some st') /\
     opened w3 <> opened w2 /\
     (is_Some (heap w1 !! ref) -> ref' <> ref)).
Proof.
  split; [|split; [|split]].
  4: { intros args' ref' w3 Hmiss Hcall.
       rewrite (get_sotopia_profiles_miss _ _ Hmiss) in Hcall.
       destruct (bind_args args') as [[[e a] r]|ex]; [|discriminate].
       cbn [fst snd] in Hcall.
       pose proof (body_frame e a r w2) as (_ & Hh & _).
       destruct (body e a r w2) as [[st'|ex] w'] eqn:Eb; [|discriminate].
       apply body_inv in Eb as (le & de & profiles & la & da & lr & dr & Eb).
       do 10 destruct Eb as [_ Eb]. subst w'.
       cbn [snd heap opened] in *. inversion Hcall; subst. cbn [heap opened].
       repeat apply conj; auto.
       - exists st'. split; [reflexivity|]. now apply list_lookup_middle.
       - intros Heq. apply (f_equal (@length string)) in Heq.
         rewrite length_app in Heq. simpl in Heq. lia.
       - intros [st1 H1] Heq.
         destruct (process_keeps_cells _ _ Hlater ref st1 H1) as (st2 & H2 & _).
         apply lookup_lt_Some in H2. lia. }
  - apply get_sotopia_profiles_hit.
    eapply process_keeps_cache; [exact Hlater|].
    eapply get_sotopia_profiles_cached; eauto.
  - intros Hmiss. rewrite (get_sotopia_profiles_miss _ _ Hmiss) in Hfirst.
    destruct (bind_args args) as [[[e a] r]|ex] eqn:Eargs; [|discriminate].
    cbn [fst snd] in Hfirst.
    pose proof (body_frame e a r w) as (_ & Hh & _).
    destruct (body e a r w) as [[st1|ex] w'] eqn:Eb; [|discriminate].
    cbn [snd] in Hh. inversion Hfirst; subst. cbn [heap].
    exists e, a, r, st1, w'. rewrite Hh. repeat apply conj; auto.
    now apply list_lookup_middle.
  - intros st1 H1. exact (process_keeps_cells _ _ Hlater ref st1 H1).
Qed.

(** C8.  If a line of one of the three files does not parse, a load (a
    call that misses the cache) raises; no store is put on the heap and
    the cache gets no entry, so no query can see a partial store. *)
Theorem C8_unparsable_line_aborts_the_load
    args w e a r path lines line err
    (Hmiss : cache w !! args = None)
    (Hargs : bind_args args = Ok (e, a, r))
    (Hpath : path = e \/ path = a \/ path = r)
    (Hfile : fs w !! path = Some lines)
    (Hline : In line lines)
    (Hbad : json_loads line = Raise err) :
  exists ex w',
    get_sotopia_profiles args w = (Raise ex, w') /\
    cache w' = cache w /\ heap w' = heap w /\ fs w' = fs w.
Proof.
  rewrite (get_sotopia_profiles_miss _ _ Hmiss), Hargs. simpl.
  pose proof (body_frame e a r w) as (Hf & Hh & Hc).
  destruct (body e a r w) as [[st|ex] w'] eqn:Eb.
  - exfalso.
    destruct (comprehension_raises json_loads lines line err Hline Hbad) as [e' He'].
    apply body_inv in Eb
      as (le & de & profiles & la & da & lr & dr
          & Hle & Hde & _ & _ & Hla & Hda & _ & Hlr & Hdr & _ & _).
    destruct Hpath as [->|[->| ->]].
    + rewrite Hfile in Hle. inversion Hle; subst. congruence.
    + rewrite Hfile in Hla. inversion Hla; subst. congruence.
    + rewrite Hfile in Hlr. inversion Hlr; subst. congruence.
  - exists ex, w'. simpl in *. auto.
Qed.

(** The user dropdown is empty whenever the index holds no agent under
    the relationship type, be the type absent or its entry empty. *)
Lemma create_user_agent_dropdown_no_agent environment_id w ref st env :
  (forall s, Permutation (set_iter s) (elements s)) ->
  cache w !! ([] : list string) = Some ref ->
  heap w !! ref = Some st ->
  environment_dict st !! environment_id = Some env ->
  default ∅ (relationship_dict st !! Environment.relationship env) = ∅ ->
  exists w', create_user_agent_dropdown environment_id w
             = (Ok (mkDropdown [] None "User Agent Selection"), w').
Proof.
  intros Hiter Hc Hh Henv Hempty.
  rewrite (create_user_agent_dropdown_eq _ _ _ _ Hc Hh), Henv.
  assert (Hinner : fst (outer_getitem (relationship_dict st) (Environment.relationship env)) = ∅).
  { unfold outer_getitem.
    destruct (relationship_dict st !! Environment.relationship env); simpl in *; auto. }
  rewrite Hinner, dom_empty_L.
  assert (Hnil : set_iter ∅ = []).
  { apply Permutation_nil. symmetry. rewrite <- (elements_empty (C:=gset string)). apply Hiter. }
  rewrite Hnil. simpl. eexists. reflexivity.
Qed.

(** On the store as loaded, that is before any query has run, the user
    dropdown of an environment whose relationship type occurs in no record
    of the relationship file has no choices and the value [None]; the
    query does not raise. *)
Lemma no_edges_gives_empty_user_dropdown_as_loaded
    w0 ref w1 lines rels st environment_id env
    (Hiter : forall s, Permutation (set_iter s) (elements s))
    (Hfresh : cache w0 !! ([] : list string) = None)
    (Hload : get_sotopia_profiles [] w0 = (Ok ref, w1))
    (Hfile : fs w0 !! RELATIONSHIP_PROFILES = Some lines)
    (Hparse : comprehension json_loads lines = Ok rels)
    (Hst : current_store w1 = Some st)
    (Henv : environment_dict st !! environment_id = Some env)
    (Hzero : forall p, In p rels ->
               field getitem p "relationship" <> Environment.relationship env) :
  exists w', create_user_agent_dropdown environment_id w1
             = (Ok (mkDropdown [] None "User Agent Selection"), w').
Proof.
  destruct (loaded_index _ _ _ _ _ Hfresh Hload Hfile Hparse) as (st1 & Hc1 & Hh1 & _ & Hnone).
  unfold current_store in Hst. rewrite Hc1, Hh1 in Hst. inversion Hst; subst st1.
  rewrite (create_user_agent_dropdown_eq _ _ _ _ Hc1 Hh1), Henv.
  unfold outer_getitem. rewrite (Hnone _ Hzero). simpl.
  rewrite dom_empty_L.
  assert (Hnil : set_iter ∅ = []).
  { apply Permutation_nil. symmetry. rewrite <- (elements_empty (C:=gset string)). apply Hiter. }
  rewrite Hnil. simpl. eexists. reflexivity.
Qed.

(** After the bot dropdown query for an environment whose relationship
    type the index does not hold, the user dropdown query for that
    environment offers the agent the bot query was asked about. *)
Lemma user_dropdown_after_bot_query environment_id user_agent_id w ref st env user ag :
  (forall s, Permutation (set_iter s) (elements s)) ->
  cache w !! ([] : list string) = Some ref ->
  heap w !! ref = Some st ->
  environment_dict st !! environment_id = Some env ->
  agent_dict st !! user_agent_id = Some user ->
  agent_dict st !! Agent.agent_id user = Some ag ->
  relationship_dict st !! Environment.relationship env = None ->
  fst (create_bot_agent_dropdown environment_id user_agent_id w)
  = Ok (mkDropdown [] None "Bot Agent Selection") /\
  fst (create_user_agent_dropdown environment_id
         (snd (create_bot_agent_dropdown environment_id user_agent_id w)))
  = Ok (mkDropdown [(Agent.name ag, Agent.agent_id user)] (Some (Agent.agent_id user))
          "User Agent Selection").
Proof.
  intros Hiter Hc Hh Henv Huser Hag Hnone.
  rewrite (create_bot_agent_dropdown_eq _ _ _ _ _ Hc Hh), Henv, Huser.
  assert (Hnb : neighbors (relationship_dict st) (Environment.relationship env)
                  (Agent.agent_id user) = []).
  { unfold neighbors. now rewrite Hnone. }
  rewrite Hnb. cbn [comprehension fst snd]. split; [reflexivity|].
  set (d' := snd (index_getitem (relationship_dict st) (Environment.relationship env)
                    (Agent.agent_id user))).
  assert (Hh' : heap (with_relationship_dict w ref d') !! ref
                = Some (mkStore (environments st) (environment_dict st) (agent_dict st) d')).
  { rewrite with_relationship_dict_lookup, decide_True by done. now rewrite Hh. }
  rewrite (create_user_agent_dropdown_eq environment_id
             (with_relationship_dict w ref d') ref _ Hc Hh').
  cbn [environment_dict agent_dict relationship_dict fst]. rewrite Henv.
  assert (Hd' : d' !! Environment.relationship env = Some {[ Agent.agent_id user := [] ]}).
  { unfold d'. rewrite index_getitem_eq. cbn [snd]. rewrite lookup_insert_eq.
    unfold neighbors. rewrite Hnone. cbn. reflexivity. }
  unfold outer_getitem. rewrite Hd'. cbn [fst].
  rewrite dom_singleton_L.
  assert (Hone : set_iter {[ Agent.agent_id user ]} = [Agent.agent_id user]).
  { apply Permutation_length_1_inv. symmetry.
    rewrite <- (elements_singleton (C:=gset string) (Agent.agent_id user)). apply Hiter. }
  rewrite Hone. cbn [comprehension]. unfold dict_getitem. rewrite Hag. reflexivity.
Qed.

End WithUtils.

End StoreFacts.

(* ===================================================================== *)
(** ** The statements at concrete inputs *)
(* ===================================================================== *)

Module Scenarios.

Import Fixtures Profiles.

(** *** Chat turns *)



(** What the five failed attempts of that turn leave on the standard
    output. *)
Lemma unsanitizable_turn_log :
  Chat.stdout (snd (turn always_malformed "hi" Chat.DEFAULT_MODEL_SELECTION st0))
  = ["malformed output"; "Retrying..."; "malformed output"; "Retrying...";
     "malformed output"; "Retrying..."; "malformed output"; "Retrying...";
     "malformed output"; "Retrying..."].
Proof. reflexivity. Qed.

Lemma C6_witness :
  fst (turn nonempty_or_raise "hi" Chat.DEFAULT_MODEL_SELECTION st0)
  = fst (Chat.retry_loop nonempty_or_raise 1 "Eli said: hello there" ""
           (snd (completion "hi" Chat.DEFAULT_MODEL_SELECTION st0))).
Proof.
  refine (proj1 (ChatFacts.C6_retry_loop_equals_single_attempt
           stub_load_peft stub_load_base stub_prompt stub_infer nonempty_or_raise
           "hi" [] "" (agent_widget "Mia") (agent_widget "Eli")
           Chat.DEFAULT_MODEL_SELECTION st0
           (snd (completion "hi" Chat.DEFAULT_MODEL_SELECTION st0))
           "Eli said: hello there" _ _)).
  - intros text x x'. destruct text; reflexivity.
  - reflexivity.
Defined.

(** Without the hypothesis of C6 the loop is not one attempt: a sanitizer
    that raises on its first two calls makes five rounds return the reply
    and one round return the empty string. *)
Lemma retry_is_observable_for_a_flaky_sanitizer :
  fst (Chat.retry_loop flaky 5 "hello" "" st0) = Ok "hello" /\
  fst (Chat.retry_loop flaky 1 "hello" "" st0) = Ok "" /\
  ~ Chat.deterministic flaky.
Proof.
  split; [reflexivity|]. split; [reflexivity|].
  intros H. specialize (H "hello" 0 2). discriminate H.
Qed.




(** *** The profile store *)

Local Abbreviation relationship_lines := ["friend a1 a2"; "friend a3 a1"; "friend a2 a1"].

Lemma loaded_world_is_loaded : load [] world0 = (Ok 0, loaded_world).
Proof. vm_compute. reflexivity. Qed.

(** The index holds nothing under "family" after the load. *)
Lemma family_has_no_record :
  forall p, In p relationship_records ->
            field stub_getitem p "relationship" <> "family".
Proof.
  intros p Hp. vm_compute in Hp.
  repeat (destruct Hp as [<-|Hp]; [vm_compute; discriminate|]). destruct Hp.
Qed.

Lemma C2_witness :
  exists w',
    bot_dropdown "e1" "a1" (snd (bot_dropdown "e2" "a1" loaded_world))
    = (Ok (mkDropdown [("Bob", "a2"); ("Carol", "a3"); ("Bob", "a2")] (Some "a2")
             "Bot Agent Selection"), w').
Proof.
  refine (proj1 (StoreFacts.C2_bot_candidates_are_the_counterparts
            stub_json_loads stub_getitem stub_Environment stub_Agent stub_set_iter
            world0 0 loaded_world (snd (bot_dropdown "e2" "a1" loaded_world))
            relationship_lines relationship_records
            (store_of (snd (bot_dropdown "e2" "a1" loaded_world)))
            "e1" "a1" env_e1 agent_a1 _ _ _ _ _ _ _ _ _)).
  - reflexivity.
  - exact loaded_world_is_loaded.
  - vm_compute. reflexivity.
  - reflexivity.
  - apply rtc_once.
    exact (step_bot stub_json_loads stub_getitem stub_Environment stub_Agent stub_set_iter
             "e2" "a1" loaded_world).
  - vm_compute. reflexivity.
  - vm_compute. reflexivity.
  - vm_compute. reflexivity.
  - repeat (constructor; [eexists; vm_compute; reflexivity|]). constructor.
Defined.

Lemma C3_witness :
  sorted_by_codename stub_getitem environment_records
  = Ok (in_codename_order stub_getitem environment_records) /\
  map fst (display_from stub_getitem stub_Environment []
             (in_codename_order stub_getitem environment_records))
  = ["borrow"; "negotiation"; "negotiation_00001"].
Proof.
  split; [|vm_compute; reflexivity].
  refine (proj1 (StoreFacts.C3_display_list_is_sorted_and_disambiguated
            stub_json_loads stub_getitem stub_Environment stub_Agent
            environment_records _)).
  repeat (constructor; [vm_compute; reflexivity|]). constructor.
Defined.

(** C4.  The queries write to the store they read.  On the store loaded
    at start-up, where no record has the relationship type "family":
    the user dropdown query for the environment e2 of that type leaves an
    empty entry for "family" in the index; the bot dropdown query for e2
    and Alice leaves an empty list for Alice under "family"; and from then
    on the user dropdown query for e2 offers Alice, where it offered nobody
    before. *)
Theorem C4_queries_write_to_the_relationship_index :
  relationship_dict (store_of loaded_world) !! "family" = None /\
  relationship_dict (store_of (snd (user_dropdown "e2" loaded_world))) !! "family"
  = Some ∅ /\
  relationship_dict (store_of (snd (bot_dropdown "e2" "a1" loaded_world))) !! "family"
  = Some {[ "a1" := [] ]} /\
  current_store (snd (user_dropdown "e2" loaded_world)) <> current_store loaded_world /\
  current_store (snd (bot_dropdown "e2" "a1" loaded_world)) <> current_store loaded_world /\
  fst (user_dropdown "e2" loaded_world)
  = Ok (mkDropdown [] None "User Agent Selection") /\
  fst (user_dropdown "e2" (snd (bot_dropdown "e2" "a1" loaded_world)))
  = Ok (mkDropdown [("Alice", "a1")] (Some "a1") "User Agent Selection").
Proof.
  pose (family := fun o : option store =>
                    match o with
                    | Some st => relationship_dict st !! "family"
                    | None => None
                    end).
  assert (Hproj : forall o o' : option store, o = o' -> family o = family o')
    by (intros o o' Heq; now rewrite Heq).
  repeat apply conj.
  - vm_compute. reflexivity.
  - vm_compute. reflexivity.
  - vm_compute. reflexivity.
  - intros H. apply Hproj in H. vm_compute in H. discriminate H.
  - intros H. apply Hproj in H. vm_compute in H. discriminate H.
  - vm_compute. reflexivity.
  - vm_compute. reflexivity.
Qed.

(** C5, as the specification has it, fails: Alice has no counterpart under
    "family", and the bot dropdown query returns a value instead of raising. *)
Lemma C5_counterexample_returns_instead_of_raising :
  counterparts "family" "a1" (map (edge_of stub_getitem) relationship_records) = [] /\
  neighbors (relationship_dict (store_of loaded_world)) "family" "a1" = [] /\
  fst (bot_dropdown "e2" "a1" loaded_world)
  = Ok (mkDropdown [] None "Bot Agent Selection").
Proof. repeat apply conj; vm_compute; reflexivity. Qed.

Lemma C5_witness :
  exists w',
    bot_dropdown "e2" "a1" loaded_world
    = (Ok (mkDropdown [] None "Bot Agent Selection"), w').
Proof.
  refine (StoreFacts.C5_no_counterpart_gives_empty_dropdown
            stub_json_loads stub_getitem stub_Environment stub_Agent
            loaded_world 0 (store_of loaded_world) "e2" "a1" env_e2 agent_a1 _ _ _ _ _);
    vm_compute; reflexivity.
Defined.

(** C7, as the specification has it, fails: the call without arguments
    and the call that spells out the default paths name the identical
    triple of source paths, and get two stores.  The second call reads the
    three files again and returns a second reference, to a copy. *)
Lemma C7_counterexample_same_paths_two_stores :
  bind_args [] = bind_args MoreFixtures.explicit_paths /\
  load [] world0 = (Ok 0, loaded_world) /\
  fst (load MoreFixtures.explicit_paths loaded_world) = Ok 1 /\
  opened (snd (load MoreFixtures.explicit_paths loaded_world))
  = [ENVIRONMENT_PROFILES; AGENT_PROFILES; RELATIONSHIP_PROFILES;
     ENVIRONMENT_PROFILES; AGENT_PROFILES; RELATIONSHIP_PROFILES] /\
  length (heap (snd (load MoreFixtures.explicit_paths loaded_world))) = 2 /\
  heap (snd (load MoreFixtures.explicit_paths loaded_world)) !! 1
  = heap (snd (load MoreFixtures.explicit_paths loaded_world)) !! 0.
Proof. repeat apply conj; vm_compute; reflexivity. Qed.

(** The files vanish after the load; the second call does not notice, and
    the store is still there. *)
Lemma C7_witness :
  load [] (mkWorld ∅ (opened loaded_world) (heap loaded_world) (cache loaded_world))
  = (Ok 0, mkWorld ∅ (opened loaded_world) (heap loaded_world) (cache loaded_world)) /\
  heap loaded_world !! 0 = Some (store_of loaded_world).
Proof.
  destruct (StoreFacts.C7_same_argument_list_same_store
              stub_json_loads stub_getitem stub_Environment stub_Agent stub_set_iter
              [] world0 0 loaded_world
              (mkWorld ∅ (opened loaded_world) (heap loaded_world) (cache loaded_world)))
    as (Hsame & Hloaded & _).
  - exact loaded_world_is_loaded.
  - apply rtc_once.
    exact (step_files stub_json_loads stub_getitem stub_Environment stub_Agent stub_set_iter
             ∅ loaded_world).
  - split; [exact Hsame|].
    destruct (Hloaded eq_refl) as (e & a & r & st1 & w' & _ & _ & _ & _ & Hcell).
    rewrite Hcell. f_equal.
    assert (Hst : Some st1 = Some (store_of loaded_world))
      by (rewrite <- Hcell; vm_compute; reflexivity).
    now inversion Hst.
Defined.

Lemma C8_witness :
  exists ex w',
    load [] world_bad = (Raise ex, w') /\
    cache w' = cache world_bad /\ heap w' = heap world_bad /\ fs w' = fs world_bad.
Proof.
  refine (StoreFacts.C8_unparsable_line_aborts_the_load
            stub_json_loads stub_getitem stub_Environment stub_Agent
            [] world_bad ENVIRONMENT_PROFILES AGENT_PROFILES RELATIONSHIP_PROFILES
            AGENT_PROFILES ["agent a1"; "agent a2 {"; "agent a3"] "agent a2 {"
            (JSONDecodeError "Expecting value" "agent a2 {" 0) _ _ _ _ _ _).
  - reflexivity.
  - reflexivity.
  - right. left. reflexivity.
  - vm_compute. reflexivity.
  - simpl. tauto.
  - reflexivity.
Defined.

Lemma empty_user_dropdown_as_loaded :
  exists w',
    user_dropdown "e2" loaded_world
    = (Ok (mkDropdown [] None "User Agent Selection"), w').
Proof.
  refine (StoreFacts.no_edges_gives_empty_user_dropdown_as_loaded
            stub_json_loads stub_getitem stub_Environment stub_Agent stub_set_iter
            world0 0 loaded_world relationship_lines relationship_records
            (store_of loaded_world) "e2" env_e2 _ _ _ _ _ _ _ _).
  - intros s. reflexivity.
  - reflexivity.
  - exact loaded_world_is_loaded.
  - vm_compute. reflexivity.
  - reflexivity.
  - vm_compute. reflexivity.
  - vm_compute. reflexivity.
  - exact family_has_no_record.
Defined.

(** C9.  The user dropdown of an environment whose relationship type has
    no edge is not always empty.  The relationship file has no edge of
    type "family", the type of environment e2, and right after the load
    the user dropdown of e2 is empty.  One bot dropdown query for e2 and
    Alice later (it returns an empty dropdown and changes no file), the
    user dropdown of e2 offers Alice and selects her, although she has no
    counterpart: the bot dropdown for her is still empty. *)
Theorem C9_user_dropdown_offers_an_agent_without_an_edge :
  environment_dict (store_of loaded_world) !! "e2" = Some env_e2 /\
  Environment.relationship env_e2 = "family" /\
  Graph.endpoints "family" (map (edge_of stub_getitem) relationship_records) = [] /\
  fst (user_dropdown "e2" loaded_world) = Ok (mkDropdown [] None "User Agent Selection") /\
  fst (bot_dropdown "e2" "a1" loaded_world) = Ok (mkDropdown [] None "Bot Agent Selection") /\
  fs (snd (bot_dropdown "e2" "a1" loaded_world)) = fs loaded_world /\
  fst (user_dropdown "e2" (snd (bot_dropdown "e2" "a1" loaded_world)))
  = Ok (mkDropdown [("Alice", "a1")] (Some "a1") "User Agent Selection") /\
  fst (bot_dropdown "e2" "a1"
         (snd (user_dropdown "e2" (snd (bot_dropdown "e2" "a1" loaded_world)))))
  = Ok (mkDropdown [] None "Bot Agent Selection").
Proof. repeat apply conj; vm_compute; reflexivity. Qed.

End Scenarios.

(* ===================================================================== *)
(** ** More about the chat turn *)
(* ===================================================================== *)

Module ChatExtras.



Section WithRuntime.

Context {X Model Tokenizer : Type}.
Variable load_peft : string -> M X (Model * Tokenizer).
Variable load_base : M X (Model * Tokenizer).
Variable format_sotopia_prompt :
  string -> list (string * string) -> string -> pyobj -> pyobj -> M X string.
Variable infer : Model -> Tokenizer -> string -> M X string.
Variable format_bot_message : string -> M X string.

Local Abbreviation state := (@Chat.state X Model Tokenizer).
Local Abbreviation retry_loop := (Chat.retry_loop format_bot_message).
Local Abbreviation sanitize := (Chat.sanitize format_bot_message).
Local Abbreviation complete := (Chat.complete load_peft load_base format_sotopia_prompt infer).
Local Abbreviation run_chat :=
  (Chat.run_chat load_peft load_base format_sotopia_prompt infer format_bot_message).
Local Abbreviation prepare_model := (Chat.prepare_model load_peft load_base).
Local Abbreviation turn_step :=
  (Turns.turn_step load_peft load_base format_sotopia_prompt infer format_bot_message).

(** X1.  The sanitizing loop of [run_chat] makes between one and five
    calls of the sanitizer, one after the other: the outside state it
    leaves is the state after exactly [k] calls, [k <= 5].  Every call but
    possibly the last raised an [Exception], and for each of these the
    exception and "Retrying..." are printed, nothing else.  Either all five
    calls failed that way and the reply is the empty string, or the last
    call returned a value, which is the reply, or raised an exception
    outside the class [Exception], which is the only kind the loop lets
    out. *)
Theorem X1_sanitize_is_bounded_and_swallows_Exceptions text (st : state) :
  exists k es,
    1 <= k <= 5 /\
    length (fst (Turns.attempts format_bot_message k text (Chat.ext st))) = k /\
    Forall (fun e => is_Exception e = true) es /\
    Chat.ext (snd (sanitize text st))
    = snd (Turns.attempts format_bot_message k text (Chat.ext st)) /\
    Chat.stdout (snd (sanitize text st)) = Chat.stdout st ++ Turns.fail_log es /\
    ((k = 5 /\
      fst (Turns.attempts format_bot_message k text (Chat.ext st)) = map Raise es /\
      fst (sanitize text st) = Ok "") \/
     (exists r,
        fst (Turns.attempts format_bot_message k text (Chat.ext st)) = map Raise es ++ [r] /\
        fst (sanitize text st) = r /\
        Turns.leaves_the_loop r)).
Proof.
  destruct (ChatFacts.retry_loop_trace format_bot_message 5 text "" st)
    as (k & es & Hk & Hes & Hx & Hout & _ & Hcase).
  exists k, es.
  pose proof (ChatFacts.attempts_length format_bot_message k text (Chat.ext st)) as Hlen.
  repeat apply conj; auto.
  destruct Hcase as [(-> & _)|(r & Ha & _)]; [lia|].
  rewrite Ha, length_app in Hlen. simpl in Hlen. lia.
Qed.

(** Nothing before the loop prints. *)
Lemma call_stdout {A} (c : M X A) (st : state) :
  Chat.stdout (snd (Chat.call c st)) = Chat.stdout st.
Proof. unfold Chat.call. now destruct (c (Chat.ext st)). Qed.

Lemma prepare_model_stdout name (st : state) :
  Chat.stdout (snd (prepare_model name st)) = Chat.stdout st.
Proof.
  unfold Chat.prepare_model, bind, get.
  destruct (Chat.model_cache st !! name) as [mt|]; [reflexivity|].
  unfold Chat.prepare_model_body.
  destruct (str_in "cmu-lti/sotopia-pi-mistral-7b-BC_SR" name);
    [|destruct (str_in "mistralai/Mistral-7B-Instruct-v0.1" name)].
  3: reflexivity.
  all: match goal with |- context [Chat.call ?c ?s] =>
         pose proof (call_stdout c s) as Hc;
         destruct (Chat.call c s) as [[mt|e] st'] end;
       simpl in *; exact Hc.
Qed.

Lemma complete_stdout message history instructions u b sel (st : state) :
  Chat.stdout (snd (complete message history instructions u b sel st)) = Chat.stdout st.
Proof.
  unfold Chat.complete, bind, lift_result.
  destruct (getattr u "value") as [uv|]; [|reflexivity].
  destruct (getattr uv "name") as [un|]; [|reflexivity].
  destruct (getattr b "value") as [bv|]; [|reflexivity].
  destruct (getattr bv "name") as [bn|]; [|reflexivity].
  pose proof (prepare_model_stdout sel st) as Hp.
  destruct (prepare_model sel st) as [[mt|e] st1]; simpl in Hp; [|exact Hp].
  pose proof (call_stdout (format_sotopia_prompt message history instructions un bn) st1) as Hc.
  destruct (Chat.call (format_sotopia_prompt message history instructions un bn) st1)
    as [[prompt|e] st2]; simpl in Hc; [|simpl; congruence].
  rewrite call_stdout. congruence.
Qed.

(** X2.  The try block covers the sanitizer only.  When anything before it
    raises (the attribute reads of line 224, [prepare_model], the prompt
    formatter, inference), [run_chat] raises that exception at once: no
    retry, nothing printed, the sanitizer's reply never computed. *)
Theorem X2_errors_before_the_loop_are_not_retried
    message history instructions u b sel (st st' : state) e
    (Hraise : complete message history instructions u b sel st = (Raise e, st')) :
  run_chat message history instructions u b sel st = (Raise e, st') /\
  Chat.stdout st' = Chat.stdout st.
Proof.
  split; [now apply ChatFacts.run_chat_complete_raises|].
  pose proof (complete_stdout message history instructions u b sel st) as H.
  now rewrite Hraise in H.
Qed.

(** [prepare_model] and a whole turn only ever add to the model cache. *)
Lemma prepare_model_keeps name (st : state) k mt :
  Chat.model_cache st !! k = Some mt ->
  Chat.model_cache (snd (prepare_model name st)) !! k = Some mt.
Proof.
  intros Hk. unfold Chat.prepare_model, bind, get.
  destruct (Chat.model_cache st !! name) as [mt'|] eqn:El; [exact Hk|].
  unfold Chat.prepare_model_body.
  destruct (str_in "cmu-lti/sotopia-pi-mistral-7b-BC_SR" name);
    [|destruct (str_in "mistralai/Mistral-7B-Instruct-v0.1" name)].
  3: exact Hk.
  all: match goal with |- context [Chat.call ?c ?s] =>
         pose proof (ChatFacts.call_model_cache c s) as Hc;
         destruct (Chat.call c s) as [[mt'|e] st'] end;
       simpl in Hc |- *; [|now rewrite Hc];
       rewrite Hc, lookup_insert_ne; [exact Hk|congruence].
Qed.

Lemma run_chat_keeps message history instructions u b sel (st : state) k mt :
  Chat.model_cache st !! k = Some mt ->
  Chat.model_cache (snd (run_chat message history instructions u b sel st)) !! k = Some mt.
Proof.
  intros Hk.
  assert (Hc : Chat.model_cache (snd (complete message history instructions u b sel st)) !! k
               = Some mt).
  { unfold Chat.complete, bind, lift_result.
    destruct (getattr u "value") as [uv|]; [|exact Hk].
    destruct (getattr uv "name") as [un|]; [|exact Hk].
    destruct (getattr b "value") as [bv|]; [|exact Hk].
    destruct (getattr bv "name") as [bn|]; [|exact Hk].
    pose proof (prepare_model_keeps sel st k mt Hk) as Hp.
    destruct (prepare_model sel st) as [[mt'|e] st1]; simpl in Hp; [|exact Hp].
    pose proof (ChatFacts.call_model_cache
                  (format_sotopia_prompt message history instructions un bn) st1) as Hc.
    destruct (Chat.call (format_sotopia_prompt message history instructions un bn) st1)
      as [[prompt|e] st2]; simpl in Hc; [|simpl; now rewrite Hc].
    rewrite ChatFacts.call_model_cache. now rewrite Hc. }
  destruct (complete message history instructions u b sel st) as [[text|e] st1] eqn:E.
  - rewrite (ChatFacts.run_chat_after_complete _ _ _ _ _ _ _ _ _ _ _ _ _ _ E).
    unfold Chat.sanitize. now rewrite ChatFacts.retry_loop_model_cache.
  - now rewrite (ChatFacts.run_chat_complete_raises _ _ _ _ _ _ _ _ _ _ _ _ _ _ E).
Qed.

Lemma prepare_model_cached name (st st1 : state) mt :
  prepare_model name st = (Ok mt, st1) -> Chat.model_cache st1 !! name = Some mt.
Proof.
  unfold Chat.prepare_model, bind, get.
  destruct (Chat.model_cache st !! name) as [mt'|] eqn:El.
  - intros H. inversion H; subst. exact El.
  - destruct (Chat.prepare_model_body load_peft load_base name st) as [[mt'|e] st'];
      [|discriminate].
    unfold modify, ret. intros H. inversion H; subst. simpl. apply lookup_insert_eq.
Qed.

(** X3.  A model is loaded once.  After [prepare_model] has returned a
    model for a name, then through any number of chat turns (with whatever
    model selections) a call with that name returns the same pair and
    leaves the state, the runtime included, as it is. *)
Theorem X3_a_prepared_model_is_not_loaded_again name (st st1 st2 : state) mt
    (Hfirst : prepare_model name st = (Ok mt, st1))
    (Hturns : rtc turn_step st1 st2) :
  prepare_model name st2 = (Ok mt, st2).
Proof.
  assert (Hk : Chat.model_cache st2 !! name = Some mt).
  { apply prepare_model_cached in Hfirst. revert Hfirst.
    induction Hturns as [|s1 s2 s3 Hstep _ IH]; intros Hk; [exact Hk|].
    apply IH. destruct Hstep. now apply run_chat_keeps. }
  unfold Chat.prepare_model, bind, get. now rewrite Hk.
Qed.

(** X4.  A load that raises is not remembered: the cache is as before, so
    the next call with that name runs the body again. *)
Theorem X4_a_failed_model_load_is_not_cached name (st st' : state) e
    (Hraise : prepare_model name st = (Raise e, st')) :
  Chat.model_cache st' = Chat.model_cache st /\
  Chat.model_cache st' !! name = None /\
  prepare_model name st' = 
    match Chat.prepare_model_body load_peft load_base name st' with
    | (Ok mt, st'') =>
        (Ok mt, Chat.mkState (Chat.ext st'') (<[name := mt]> (Chat.model_cache st''))
                  (Chat.stdout st''))
    | (Raise e', st'') => (Raise e', st'')
    end.
Proof.
  revert Hraise. unfold Chat.prepare_model at 1. unfold bind, get.
  destruct (Chat.model_cache st !! name) as [mt'|] eqn:El; [discriminate|].
  assert (Hb : Chat.model_cache (snd (Chat.prepare_model_body load_peft load_base name st))
               = Chat.model_cache st).
  { unfold Chat.prepare_model_body.
    destruct (str_in "cmu-lti/sotopia-pi-mistral-7b-BC_SR" name);
      [|destruct (str_in "mistralai/Mistral-7B-Instruct-v0.1" name)];
      [apply ChatFacts.call_model_cache|apply ChatFacts.call_model_cache|reflexivity]. }
  destruct (Chat.prepare_model_body load_peft load_base name st) as [[mt'|e'] s'];
    [discriminate|].
  intros H. inversion H; subst. simpl in Hb.
  split; [exact Hb|]. split; [now rewrite Hb|].
  unfold Chat.prepare_model, bind, get, modify, ret. rewrite Hb, El.
  destruct (Chat.prepare_model_body load_peft load_base name st') as [[mt'|e''] s'']; reflexivity.
Qed.


End WithRuntime.

End ChatExtras.
(* ===================================================================== *)
(** ** More about the loader *)
(* ===================================================================== *)

Module LoaderExtras.

Import Profiles Graph IndexFacts.

(** Each edge counts the same from both of its ends. *)
Lemma counterparts_count_symmetric r a b (edges : list edge) :
  count_occ string_dec (counterparts r a edges) b
  = count_occ string_dec (counterparts r b edges) a.
Proof.
  induction edges as [|[[r' a1] a2] edges IH]; [reflexivity|].
  rewrite !counterparts_cons, !count_occ_app, IH. f_equal.
  repeat case_decide; subst; simpl;
    repeat (destruct (string_dec _ _)); simpl; try lia; congruence.
Qed.

Lemma endpoints_cons r r' a1 a2 (edges : list edge) :
  endpoints r ((r', a1, a2) :: edges)
  = (if decide (r' = r) then [a1; a2] else []) ++ endpoints r edges.
Proof. reflexivity. Qed.

(** An agent is an end of an edge of type [r] exactly when it has a
    counterpart under [r]. *)
Lemma endpoint_iff_counterpart r a (edges : list edge) :
  In a (endpoints r edges) <-> counterparts r a edges <> [].
Proof.
  induction edges as [|[[r' a1] a2] edges IH].
  - simpl. split; [tauto|congruence].
  - rewrite endpoints_cons, counterparts_cons, in_app_iff, IH.
    split.
    + intros [H|H].
      * case_decide; [|destruct H]. destruct H as [<-|[<-|[]]].
        -- rewrite decide_True by done. discriminate.
        -- destruct (decide (a1 = a2)); [discriminate|].
           rewrite decide_True by done. discriminate.
      * intros Heq. apply app_eq_nil in Heq as [_ Heq]. contradiction.
    + intros Hne.
      destruct (counterparts r a edges) as [|c cs] eqn:Ec; [|right; discriminate].
      left. rewrite app_nil_r in Hne.
      case_decide; [|congruence].
      destruct (decide (a1 = a)); [left; done|].
      destruct (decide (a2 = a)); [right; left; done|]. simpl in Hne. congruence.
Qed.

(** A counterpart comes from an edge of the list. *)
Lemma counterpart_is_an_edge r a n (edges : list edge) :
  In n (counterparts r a edges) -> In (r, a, n) edges \/ In (r, n, a) edges.
Proof.
  unfold counterparts. rewrite in_flat_map. intros ([[r' a1] a2] & Hin & Hn).
  case_decide; [subst r'|destruct Hn].
  apply in_app_iff in Hn as [Hn|Hn]; case_decide; try destruct Hn as [<-|[]]; subst; auto.
  all: destruct Hn.
Qed.

Section WithUtils.

Context {json : Type}.
Variable json_loads : string -> result json.
Variable getitem : json -> string -> result string.
Variable Environment_init : json -> result Environment.t.
Variable Agent_init : json -> result Agent.t.
Variable set_iter : gset string -> list string.

Local Abbreviation environment_loop := (Profiles.environment_loop getitem Environment_init).
Local Abbreviation agent_loop := (Profiles.agent_loop Agent_init).
Local Abbreviation relationship_loop := (Profiles.relationship_loop getitem).
Local Abbreviation edge_of := (Profiles.edge_of getitem).
Local Abbreviation body :=
  (Profiles.get_sotopia_profiles_body json_loads getitem Environment_init Agent_init).
Local Abbreviation get_sotopia_profiles :=
  (Profiles.get_sotopia_profiles json_loads getitem Environment_init Agent_init).
Local Abbreviation create_user_agent_dropdown :=
  (Profiles.create_user_agent_dropdown json_loads getitem Environment_init Agent_init set_iter).
Local Abbreviation create_bot_agent_dropdown :=
  (Profiles.create_bot_agent_dropdown json_loads getitem Environment_init Agent_init).
Local Abbreviation process_step :=
  (Profiles.process_step json_loads getitem Environment_init Agent_init set_iter).

(** X5.  A file that is not there makes a load raise; nothing is put on
    the heap or in the cache.  When it is the environment file, the
    exception is [FileNotFoundError] for that path and the world is left
    exactly as it was. *)
Theorem X5_missing_file_aborts_the_load
    args w e a r path
    (Hmiss : cache w !! args = None)
    (Hargs : bind_args args = Ok (e, a, r))
    (Hpath : path = e \/ path = a \/ path = r)
    (Hgone : fs w !! path = None) :
  (exists ex w',
      get_sotopia_profiles args w = (Raise ex, w') /\
      cache w' = cache w /\ heap w' = heap w /\ fs w' = fs w) /\
  (path = e -> get_sotopia_profiles args w = (Raise (FileNotFoundError e), w)).
Proof.
  rewrite (StoreFacts.get_sotopia_profiles_miss _ _ _ _ _ _ Hmiss), Hargs. simpl.
  split.
  - pose proof (StoreFacts.body_frame json_loads getitem Environment_init Agent_init e a r w)
      as (Hf & Hh & Hc).
    destruct (body e a r w) as [[st|ex] w'] eqn:Eb.
    + exfalso. apply StoreFacts.body_inv in Eb
        as (le & de & profiles & la & da & lr & dr
            & Hle & _ & _ & _ & Hla & _ & _ & Hlr & _).
      destruct Hpath as [->|[->| ->]]; congruence.
    + exists ex, w'. simpl in *. auto.
  - intros ->. unfold Profiles.get_sotopia_profiles_body. unfold bind at 1.
    rewrite StoreFacts.read_jsonl_eq, Hgone. reflexivity.
Qed.

(** X6.  No failure is cached.  Whatever makes a call of the loader raise
    (a missing file, a line that does not parse, a record without a key, a
    constructor of [utils] that raises, too many arguments), the heap, the
    cache and the files are as before, so the same call is a miss again. *)
Theorem X6_a_failed_load_leaves_no_trace
    args w ex w'
    (Hraise : get_sotopia_profiles args w = (Raise ex, w')) :
  cache w' = cache w /\ heap w' = heap w /\ fs w' = fs w /\ cache w' !! args = None.
Proof.
  destruct (cache w !! args) as [ref|] eqn:E.
  { rewrite (StoreFacts.get_sotopia_profiles_hit _ _ _ _ _ _ _ E) in Hraise. discriminate. }
  rewrite (StoreFacts.get_sotopia_profiles_miss _ _ _ _ _ _ E) in Hraise.
  destruct (bind_args args) as [files|ex0].
  - pose proof (StoreFacts.body_frame json_loads getitem Environment_init Agent_init
                  (fst (fst files)) (snd (fst files)) (snd files) w) as (Hf & Hh & Hc).
    destruct (body _ _ _ w) as [[st|ex1] w1]; [discriminate|].
    inversion Hraise; subst. simpl in *. rewrite Hc. auto.
  - inversion Hraise; subst. auto.
Qed.

(** X7.  A load that misses the cache and returns has opened exactly the
    three files its arguments (and the defaults) name, in the order
    environments, agents, relationships; it has put exactly one store on
    the heap, at a reference not used before, and added exactly one entry
    to the cache. *)
Theorem X7_a_load_opens_three_files_and_adds_one_store
    args w ref w1
    (Hmiss : cache w !! args = None)
    (Hload : get_sotopia_profiles args w = (Ok ref, w1)) :
  exists e a r st,
    bind_args args = Ok (e, a, r) /\
    ref = length (heap w) /\
    heap w1 = heap w ++ [st] /\
    opened w1 = opened w ++ [e; a; r] /\
    cache w1 = <[args := ref]> (cache w) /\
    fs w1 = fs w.
Proof.
  rewrite (StoreFacts.get_sotopia_profiles_miss _ _ _ _ _ _ Hmiss) in Hload.
  destruct (bind_args args) as [[[e a] r]|]; [|discriminate]. simpl in Hload.
  destruct (body e a r w) as [[st|ex] w'] eqn:Eb; [|discriminate].
  apply StoreFacts.body_inv in Eb
    as (le & de & profiles & la & da & lr & dr & _ & _ & _ & _ & _ & _ & _ & _ & _ & _ & ->).
  inversion Hload; subst. simpl. exists e, a, r, st. repeat split; auto.
Qed.

(** The cache stays sound through every step of the process. *)
Lemma get_sotopia_profiles_cache_ok args w :
  cache_ok w -> cache_ok (snd (get_sotopia_profiles args w)).
Proof.
  intros [Hv Hi].
  destruct (cache w !! args) as [ref|] eqn:E.
  { rewrite (StoreFacts.get_sotopia_profiles_hit _ _ _ _ _ _ _ E). now split. }
  rewrite (StoreFacts.get_sotopia_profiles_miss _ _ _ _ _ _ E).
  destruct (bind_args args) as [files|]; [|now split].
  pose proof (StoreFacts.body_frame json_loads getitem Environment_init Agent_init
                (fst (fst files)) (snd (fst files)) (snd files) w) as (_ & Hh & Hc).
  destruct (body _ _ _ w) as [[st|ex] w1]; simpl in *.
  - rewrite Hh, Hc. split; cbn [cache heap].
    + intros k ref. rewrite lookup_insert, length_app. simpl.
      case_decide; [intros Heq; inversion Heq; lia|].
      intros Hk. apply Hv in Hk. lia.
    + intros k k' ref. rewrite !lookup_insert.
      repeat case_decide; subst; intros Hk1 Hk2; auto.
      * inversion Hk1; subst. apply Hv in Hk2. lia.
      * inversion Hk2; subst. apply Hv in Hk1. lia.
      * eapply Hi; eauto.
  - split; rewrite ?Hh, ?Hc; [apply Hv|apply Hi].
Qed.

Lemma with_relationship_dict_cache_ok w ref d :
  cache_ok w -> cache_ok (with_relationship_dict w ref d).
Proof.
  intros [Hv Hi]. split; simpl; [|exact Hi].
  intros k r Hk. rewrite length_alter. eauto.
Qed.

Lemma create_user_agent_dropdown_cache_ok environment_id w :
  cache_ok w -> cache_ok (snd (create_user_agent_dropdown environment_id w)).
Proof.
  intros Hok. unfold Profiles.create_user_agent_dropdown. unfold bind at 1.
  pose proof (get_sotopia_profiles_cache_ok [] w Hok) as Hok1.
  destruct (get_sotopia_profiles [] w) as [[r1|ex] w1]; [|exact Hok1].
  simpl in Hok1. unfold deref, bind, get, ret, raise, lift_result, dict_getitem,
    set_relationship_dict, modify.
  destruct (heap w1 !! r1) as [st|]; [|exact Hok1].
  destruct (environment_dict st !! environment_id) as [env|]; [|exact Hok1].
  destruct (outer_getitem _ _) as [inner d'].
  destruct (comprehension _ _); now apply with_relationship_dict_cache_ok.
Qed.

Lemma create_bot_agent_dropdown_cache_ok environment_id user_agent_id w :
  cache_ok w -> cache_ok (snd (create_bot_agent_dropdown environment_id user_agent_id w)).
Proof.
  intros Hok. unfold Profiles.create_bot_agent_dropdown. unfold bind at 1.
  pose proof (get_sotopia_profiles_cache_ok [] w Hok) as Hok1.
  destruct (get_sotopia_profiles [] w) as [[r1|ex] w1]; [|exact Hok1].
  simpl in Hok1. unfold deref, bind, get, ret, raise, lift_result, dict_getitem,
    set_relationship_dict, modify.
  destruct (heap w1 !! r1) as [st|]; [|exact Hok1].
  destruct (environment_dict st !! environment_id) as [env|]; [|exact Hok1].
  destruct (agent_dict st !! user_agent_id) as [user|]; [|exact Hok1].
  destruct (index_getitem _ _ _) as [l d'].
  destruct (comprehension _ _); now apply with_relationship_dict_cache_ok.
Qed.

Lemma process_cache_ok w w' :
  rtc process_step w w' -> cache_ok w -> cache_ok w'.
Proof.
  induction 1 as [|w w1 w2 Hstep _ IH]; intros Hok; [exact Hok|].
  apply IH. destruct Hstep.
  - now apply get_sotopia_profiles_cache_ok.
  - now apply create_user_agent_dropdown_cache_ok.
  - now apply create_bot_agent_dropdown_cache_ok.
  - exact Hok.
Qed.

(** X8.  Calls that pass different argument lists never share a store.
    From a start with an empty cache, through any loads, queries and file
    changes, two different argument lists in the cache point to two
    different cells of the heap, and both cells exist.  This includes the
    call without arguments and the call that spells out the default paths. *)
Theorem X8_different_arguments_different_stores
    w0 w k k' ref ref'
    (Hstart : cache w0 = ∅)
    (Hsteps : rtc process_step w0 w)
    (Hk : cache w !! k = Some ref)
    (Hk' : cache w !! k' = Some ref')
    (Hne : k <> k') :
  ref <> ref' /\ is_Some (heap w !! ref) /\ is_Some (heap w !! ref').
Proof.
  assert (H0 : cache_ok w0).
  { split; intros ?; rewrite Hstart; intros; simplify_map_eq. }
  destruct (process_cache_ok _ _ Hsteps H0) as [Hv Hi].
  split; [|split].
  - intros <-. apply Hne. eapply Hi; eauto.
  - apply lookup_lt_is_Some. eauto.
  - apply lookup_lt_is_Some. eauto.
Qed.

(** *** The maps built by the loops *)

(** X9.  The agent map holds, under each id, the last record of the
    agent file that carries it: a later record with the same id replaces
    an earlier one, and ids of no record are no keys. *)
Theorem X9_agent_dict_holds_the_last_record_of_each_id
    data agents
    (Hinit : comprehension Agent_init data = Ok agents) :
  exists d,
    agent_loop data ∅ = Ok d /\
    forall k, d !! k = last (filter (fun ag => Agent._id ag = k) agents).
Proof.
  assert (Hgen : forall d0,
    exists d, agent_loop data d0 = Ok d /\
      forall k, d !! k = match last (filter (fun ag => Agent._id ag = k) agents) with
                         | Some ag => Some ag
                         | None => d0 !! k
                         end).
  { revert agents Hinit. induction data as [|p rest IH]; intros agents Hinit d0.
    - inversion Hinit; subst. exists d0. split; [reflexivity|]. intros k. reflexivity.
    - simpl in Hinit. destruct (Agent_init p) as [ag|] eqn:Ep; [|discriminate].
      destruct (comprehension Agent_init rest) as [ags|] eqn:Er; [|discriminate].
      simpl in Hinit. inversion Hinit; subst agents.
      destruct (IH ags eq_refl (<[Agent._id ag := ag]> d0)) as (d & Hd & Hl).
      exists d. split.
      + cbn [Profiles.agent_loop]. rewrite Ep. exact Hd.
      + intros k. rewrite Hl, filter_cons.
        destruct (decide (Agent._id ag = k)) as [Hk|Hk].
        * rewrite last_cons.
          destruct (last (filter (fun ag0 => Agent._id ag0 = k) ags)); [reflexivity|].
          subst k. apply lookup_insert_eq.
        * destruct (last (filter (fun ag0 => Agent._id ag0 = k) ags)); [reflexivity|].
          now apply lookup_insert_ne. }
  destruct (Hgen ∅) as (d & Hd & Hl). exists d. split; [exact Hd|].
  intros k. rewrite Hl. destruct (last _); [reflexivity|apply lookup_empty].
Qed.

Lemma environment_loop_resolves profiles :
  forall cnt envs dict envs' dict',
    environment_loop profiles cnt envs dict = Ok (envs', dict') ->
    display_resolves envs dict -> display_resolves envs' dict'.
Proof.
  induction profiles as [|p rest IH]; intros cnt envs dict envs' dict' Hloop Hinv.
  - simpl in Hloop. inversion Hloop; subst. exact Hinv.
  - cbn [Profiles.environment_loop] in Hloop.
    destruct (Environment_init p) as [env|]; [|discriminate].
    destruct (getitem p "codename") as [cn|]; [|discriminate].
    cbn [rbind] in Hloop. eapply IH; [exact Hloop|].
    intros entry Hin. apply in_app_iff in Hin as [Hin|Hin].
    + destruct (Hinv entry Hin) as (env0 & He0 & Hid).
      destruct (decide (Environment._id env = snd entry)) as [Heq|Hne'].
      * exists env. rewrite <- Heq. split; [apply lookup_insert_eq|reflexivity].
      * exists env0. split; [|exact Hid]. now rewrite lookup_insert_ne.
    + destruct Hin as [<-|[]]. exists env.
      destruct (cnt !! cn); simpl; (split; [apply lookup_insert_eq|reflexivity]).
Qed.

(** What a load from an empty cache leaves behind, and what every later
    step keeps. *)
Lemma store_after_load w0 ref w1 w st lines rels :
  cache w0 !! ([] : list string) = None ->
  get_sotopia_profiles [] w0 = (Ok ref, w1) ->
  fs w0 !! RELATIONSHIP_PROFILES = Some lines ->
  comprehension json_loads lines = Ok rels ->
  rtc process_step w1 w ->
  current_store w = Some st ->
  exists st1 ref',
    heap w1 !! ref = Some st1 /\
    cache w !! ([] : list string) = Some ref' /\
    heap w !! ref' = Some st /\
    environments st = environments st1 /\
    environment_dict st = environment_dict st1 /\
    agent_dict st = agent_dict st1 /\
    display_resolves (environments st1) (environment_dict st1) /\
    (forall r u, neighbors (relationship_dict st) r u
                 = counterparts r u (map edge_of rels)) /\
    (forall r u, neighbors (relationship_dict st1) r u
                 = counterparts r u (map edge_of rels)).
Proof.
  intros Hmiss Hload Hfile Hparse Hsteps Hst.
  destruct (StoreFacts.loaded_index _ _ _ _ _ _ _ _ _ Hmiss Hload Hfile Hparse)
    as (st1 & Hc1 & Hh1 & Hn1 & _).
  assert (Hs1 : serves w1 st1) by (exists ref, st1; repeat split; auto).
  destruct (StoreFacts.process_serves _ _ _ _ _ _ _ _ Hsteps Hs1)
    as (ref' & st' & Hc & Hh & He & Hed & Had & Hn).
  unfold current_store in Hst. rewrite Hc, Hh in Hst. inversion Hst; subst st'.
  exists st1, ref'. repeat split; auto.
  - destruct (StoreFacts.get_sotopia_profiles_loaded _ _ _ _ _ _ _ Hmiss Hload)
      as (st2 & w' & Hb & _ & Hh2 & _).
    rewrite Hh1 in Hh2. inversion Hh2; subst st2.
    apply StoreFacts.body_inv in Hb
      as (le & de & profiles & la & da & lr & dr & _ & _ & _ & Hl & _).
    eapply environment_loop_resolves; [exact Hl|]. intros entry [].
  - intros r u. now rewrite Hn, Hn1.
Qed.

(** X10.  Every entry of the scenario list resolves.  On the loaded store,
    and after any further loads, queries and file changes, the id of each
    display entry is a key of the environment map, and the environment
    found under it carries that id (also when two records share an id). *)
Theorem X10_every_display_entry_resolves
    w0 ref w1 w st lines rels
    (Hfresh : cache w0 !! ([] : list string) = None)
    (Hload : get_sotopia_profiles [] w0 = (Ok ref, w1))
    (Hfile : fs w0 !! RELATIONSHIP_PROFILES = Some lines)
    (Hparse : comprehension json_loads lines = Ok rels)
    (Hsteps : rtc process_step w1 w)
    (Hst : current_store w = Some st) :
  display_resolves (environments st) (environment_dict st).
Proof.
  destruct (store_after_load _ _ _ _ _ _ _ Hfresh Hload Hfile Hparse Hsteps Hst)
    as (st1 & ref' & _ & _ & _ & He & Hed & _ & Hres & _).
  rewrite He, Hed. exact Hres.
Qed.

(** X11.  The index is a multigraph without direction: under every
    relationship type, [b] occurs among the counterparts of [a] exactly as
    often as [a] occurs among the counterparts of [b], on the loaded store
    and after any further loads, queries and file changes. *)
Theorem X11_counterparts_are_mutual_with_multiplicity
    w0 ref w1 w st lines rels r a b
    (Hfresh : cache w0 !! ([] : list string) = None)
    (Hload : get_sotopia_profiles [] w0 = (Ok ref, w1))
    (Hfile : fs w0 !! RELATIONSHIP_PROFILES = Some lines)
    (Hparse : comprehension json_loads lines = Ok rels)
    (Hsteps : rtc process_step w1 w)
    (Hst : current_store w = Some st) :
  count_occ string_dec (neighbors (relationship_dict st) r a) b
  = count_occ string_dec (neighbors (relationship_dict st) r b) a.
Proof.
  destruct (store_after_load _ _ _ _ _ _ _ Hfresh Hload Hfile Hparse Hsteps Hst)
    as (st1 & ref' & _ & _ & _ & _ & _ & _ & _ & Hn & _).
  rewrite !Hn. apply counterparts_count_symmetric.
Qed.

End WithUtils.

End LoaderExtras.
(* ===================================================================== *)
(** ** More about the dropdown queries *)
(* ===================================================================== *)

Module QueryExtras.

Import Profiles Graph IndexFacts LoaderExtras.

Implicit Types (d : gmap string (gmap string (list string))) (r a b u : string).

Lemma fst_outer_getitem d r : fst (outer_getitem d r) = default ∅ (d !! r).
Proof. unfold outer_getitem. now destruct (d !! r). Qed.

Lemma dom_index_append d r a b r' :
  dom (default ∅ (index_append d r a b !! r'))
  = if decide (r = r') then {[a]} ∪ dom (default ∅ (d !! r))
    else dom (default ∅ (d !! r')).
Proof.
  rewrite index_append_eq, lookup_insert. case_decide; [|reflexivity].
  simpl. now rewrite dom_insert_L.
Qed.

(** Reading twice through the [defaultdict] writes once. *)
Lemma outer_getitem_again d r :
  outer_getitem (snd (outer_getitem d r)) r
  = (fst (outer_getitem d r), snd (outer_getitem d r)).
Proof.
  unfold outer_getitem. destruct (d !! r) as [inner|] eqn:E; simpl.
  - now rewrite E.
  - now rewrite lookup_insert_eq.
Qed.

Lemma index_getitem_again d r a :
  index_getitem (snd (index_getitem d r a)) r a
  = (fst (index_getitem d r a), snd (index_getitem d r a)).
Proof.
  rewrite (index_getitem_eq (snd (index_getitem d r a))).
  rewrite neighbors_index_getitem.
  rewrite (index_getitem_eq d r a). simpl.
  rewrite lookup_insert_eq. simpl. now rewrite !insert_insert_eq.
Qed.

Lemma with_relationship_dict_again w ref d d' :
  with_relationship_dict (with_relationship_dict w ref d) ref d'
  = with_relationship_dict w ref d'.
Proof.
  unfold with_relationship_dict. simpl. f_equal.
  apply list_eq. intros i. rewrite !list_lookup_alter.
  case_decide; [|reflexivity].
  subst i. rewrite decide_True by done. now destruct (heap w !! ref).
Qed.

Lemma comprehension_stops {A B} (f : A -> result B) l1 x l2 e :
  Forall (fun y => is_Ok (f y) = true) l1 ->
  f x = Raise e ->
  comprehension f (l1 ++ x :: l2) = Raise e.
Proof.
  induction 1 as [|y l1 Hy _ IH]; intros Hx; simpl.
  - now rewrite Hx.
  - apply is_Ok_true in Hy as [v ->]. simpl. now rewrite (IH Hx).
Qed.

Section WithUtils.

Context {json : Type}.
Variable json_loads : string -> result json.
Variable getitem : json -> string -> result string.
Variable Environment_init : json -> result Environment.t.
Variable Agent_init : json -> result Agent.t.
Variable set_iter : gset string -> list string.

Local Abbreviation relationship_loop := (Profiles.relationship_loop getitem).
Local Abbreviation edge_of := (Profiles.edge_of getitem).
Local Abbreviation get_sotopia_profiles :=
  (Profiles.get_sotopia_profiles json_loads getitem Environment_init Agent_init).
Local Abbreviation create_user_agent_dropdown :=
  (Profiles.create_user_agent_dropdown json_loads getitem Environment_init Agent_init set_iter).
Local Abbreviation create_bot_agent_dropdown :=
  (Profiles.create_bot_agent_dropdown json_loads getitem Environment_init Agent_init).
Local Abbreviation process_step :=
  (Profiles.process_step json_loads getitem Environment_init Agent_init set_iter).

(** The keys of the index built by lines 64-67 are the ends of the edges. *)
Lemma relationship_loop_dom rels : forall d0 d',
  relationship_loop rels d0 = Ok d' ->
  forall r a, a ∈ dom (default ∅ (d' !! r))
              <-> a ∈ dom (default ∅ (d0 !! r)) \/ In a (endpoints r (map edge_of rels)).
Proof.
  induction rels as [|p rest IH]; intros d0 d' Hloop r a.
  - simpl in Hloop. inversion Hloop; subst. simpl. tauto.
  - cbn [Profiles.relationship_loop] in Hloop.
    destruct (getitem p "relationship") as [r0|] eqn:Hr; [|discriminate].
    destruct (getitem p "agent1_id") as [a1|] eqn:H1; [|discriminate].
    destruct (getitem p "agent2_id") as [a2|] eqn:H2; [|discriminate].
    cbn [rbind] in Hloop. rewrite (IH _ _ Hloop r a).
    assert (He : edge_of p = (r0, a1, a2)).
    { unfold Profiles.edge_of, field. now rewrite Hr, H1, H2. }
    cbn [map]. rewrite He, endpoints_cons, in_app_iff, !dom_index_append.
    repeat case_decide; subst; try congruence;
      rewrite ?elem_of_union, ?elem_of_singleton; simpl; intuition congruence.
Qed.

(** X12.  On the store as loaded, the user dropdown of an environment
    offers each agent that is an end of an edge of the environment's
    relationship type exactly once, and nobody else: however often and on
    whichever side an agent occurs in the file, it is one choice.  It
    returns provided each of these agents is a key of the agent map. *)
Theorem X12_user_candidates_are_the_distinct_endpoints
    w0 ref w1 lines rels st environment_id env
    (Hiter : forall s, Permutation (set_iter s) (elements s))
    (Hfresh : cache w0 !! ([] : list string) = None)
    (Hload : get_sotopia_profiles [] w0 = (Ok ref, w1))
    (Hfile : fs w0 !! RELATIONSHIP_PROFILES = Some lines)
    (Hparse : comprehension json_loads lines = Ok rels)
    (Hst : current_store w1 = Some st)
    (Henv : environment_dict st !! environment_id = Some env)
    (Hknown : forall a,
        In a (endpoints (Environment.relationship env) (map edge_of rels)) ->
        is_Some (agent_dict st !! a)) :
  exists ids w',
    create_user_agent_dropdown environment_id w1
    = (Ok (mkDropdown (choices_of (agent_dict st) ids)
             (first_value (choices_of (agent_dict st) ids)) "User Agent Selection"), w') /\
    List.NoDup ids /\
    forall a, In a ids
              <-> In a (endpoints (Environment.relationship env) (map edge_of rels)).
Proof.
  destruct (StoreFacts.get_sotopia_profiles_loaded _ _ _ _ _ _ _ Hfresh Hload)
    as (st1 & w' & Hb & Hc & Hh & _).
  unfold current_store in Hst. rewrite Hc, Hh in Hst. inversion Hst; subst st1.
  apply StoreFacts.body_inv in Hb
    as (le & de & profiles & la & da & lr & dr & _ & _ & _ & _ & _ & _ & _ & Hlr & Hdr & Hrl & _).
  rewrite Hfile in Hlr. inversion Hlr; subst lr.
  rewrite Hparse in Hdr. inversion Hdr; subst dr.
  pose proof (relationship_loop_dom _ _ _ Hrl (Environment.relationship env)) as Hdom.
  set (inner := default ∅ (relationship_dict st !! Environment.relationship env)) in *.
  assert (Hmem : forall a, In a (set_iter (dom inner))
                           <-> In a (endpoints (Environment.relationship env) (map edge_of rels))).
  { intros a. rewrite <- list_elem_of_In.
    rewrite (Hiter (dom inner)), elem_of_elements, Hdom.
    rewrite lookup_empty. simpl. rewrite dom_empty_L, elem_of_empty. tauto. }
  exists (set_iter (dom inner)). eexists.
  rewrite (StoreFacts.create_user_agent_dropdown_eq _ _ _ _ _ _ _ _ _ Hc Hh), Henv.
  rewrite fst_outer_getitem. fold inner.
  rewrite (comprehension_ok _ (fun n => (agent_name (agent_dict st) n, n))).
  - split; [reflexivity|]. split; [|exact Hmem].
    apply NoDup_ListNoDup. rewrite (Hiter (dom inner)). apply NoDup_elements.
  - apply List.Forall_forall. intros a Ha. apply Hmem, Hknown in Ha as [ag Hag].
    simpl. unfold dict_getitem, agent_name. now rewrite Hag.
Qed.

(** X13.  An agent with an edge always has someone to talk to.  On the
    loaded store and after any further steps, if the user agent's
    [agent_id] is an end of an edge of the environment's relationship type
    (and its counterparts are keys of the agent map), the bot dropdown has
    at least one choice and its default value is the first counterpart. *)
Theorem X13_an_endpoint_has_a_bot_candidate
    w0 ref w1 w lines rels st environment_id user_agent_id env user
    (Hfresh : cache w0 !! ([] : list string) = None)
    (Hload : get_sotopia_profiles [] w0 = (Ok ref, w1))
    (Hfile : fs w0 !! RELATIONSHIP_PROFILES = Some lines)
    (Hparse : comprehension json_loads lines = Ok rels)
    (Hsteps : rtc process_step w1 w)
    (Hst : current_store w = Some st)
    (Henv : environment_dict st !! environment_id = Some env)
    (Huser : agent_dict st !! user_agent_id = Some user)
    (Hend : In (Agent.agent_id user)
              (endpoints (Environment.relationship env) (map edge_of rels)))
    (Hknown : Forall (fun n => is_Some (agent_dict st !! n))
                (counterparts (Environment.relationship env) (Agent.agent_id user)
                   (map edge_of rels))) :
  exists c cs w',
    create_bot_agent_dropdown environment_id user_agent_id w
    = (Ok (mkDropdown (c :: cs) (Some (snd c)) "Bot Agent Selection"), w') /\
    Some (snd c) = head (counterparts (Environment.relationship env) (Agent.agent_id user)
                           (map edge_of rels)).
Proof.
  destruct (store_after_load _ _ _ _ _ _ _ _ _ _ _ _ Hfresh Hload Hfile Hparse Hsteps Hst)
    as (st1 & ref' & _ & Hc & Hh & _ & _ & _ & _ & Hn & _).
  rewrite (StoreFacts.create_bot_agent_dropdown_eq _ _ _ _ _ _ _ _ _ Hc Hh), Henv, Huser, Hn.
  apply endpoint_iff_counterpart in Hend.
  destruct (counterparts (Environment.relationship env) (Agent.agent_id user)
              (map edge_of rels)) as [|n ns]; [congruence|].
  rewrite (comprehension_ok _ (fun n => (agent_name (agent_dict st) n, n))).
  - simpl. exists (agent_name (agent_dict st) n, n).
    exists (map (fun m => (agent_name (agent_dict st) m, m)) ns).
    eexists. split; reflexivity.
  - eapply Forall_impl; [exact Hknown|]. intros m [ag Hag]. simpl.
    unfold dict_getitem, agent_name. now rewrite Hag.
Qed.

(** X14.  The queries write at most once.  Asking the same question again
    gives the same answer and leaves the world exactly as the first call
    left it: the default entries of the index are inserted by the first
    call only. *)
Theorem X14_repeating_a_query_changes_nothing
    w ref st environment_id user_agent_id
    (Hcache : cache w !! ([] : list string) = Some ref)
    (Hheap : heap w !! ref = Some st) :
  create_user_agent_dropdown environment_id
    (snd (create_user_agent_dropdown environment_id w))
  = create_user_agent_dropdown environment_id w /\
  create_bot_agent_dropdown environment_id user_agent_id
    (snd (create_bot_agent_dropdown environment_id user_agent_id w))
  = create_bot_agent_dropdown environment_id user_agent_id w.
Proof.
  split.
  - rewrite (StoreFacts.create_user_agent_dropdown_eq _ _ _ _ _ _ _ _ _ Hcache Hheap).
    destruct (environment_dict st !! environment_id) as [env|] eqn:Henv; simpl.
    2: { rewrite (StoreFacts.create_user_agent_dropdown_eq _ _ _ _ _ _ _ _ _ Hcache Hheap).
         now rewrite Henv. }
    set (d' := snd (outer_getitem (relationship_dict st) (Environment.relationship env))).
    assert (Hh' : heap (with_relationship_dict w ref d') !! ref
                  = Some (mkStore (environments st) (environment_dict st) (agent_dict st) d')).
    { rewrite StoreFacts.with_relationship_dict_lookup, decide_True by done.
      now rewrite Hheap. }
    rewrite (StoreFacts.create_user_agent_dropdown_eq _ _ _ _ _ environment_id
               (with_relationship_dict w ref d') ref _ Hcache Hh').
    simpl. rewrite Henv. unfold d'. rewrite outer_getitem_again. simpl.
    now rewrite with_relationship_dict_again.
  - rewrite (StoreFacts.create_bot_agent_dropdown_eq _ _ _ _ _ _ _ _ _ Hcache Hheap).
    destruct (environment_dict st !! environment_id) as [env|] eqn:Henv; simpl.
    2: { rewrite (StoreFacts.create_bot_agent_dropdown_eq _ _ _ _ _ _ _ _ _ Hcache Hheap).
         now rewrite Henv. }
    destruct (agent_dict st !! user_agent_id) as [user|] eqn:Huser; simpl.
    2: { rewrite (StoreFacts.create_bot_agent_dropdown_eq _ _ _ _ _ _ _ _ _ Hcache Hheap).
         now rewrite Henv, Huser. }
    set (d' := snd (index_getitem (relationship_dict st) (Environment.relationship env)
                      (Agent.agent_id user))).
    assert (Hh' : heap (with_relationship_dict w ref d') !! ref
                  = Some (mkStore (environments st) (environment_dict st) (agent_dict st) d')).
    { rewrite StoreFacts.with_relationship_dict_lookup, decide_True by done.
      now rewrite Hheap. }
    rewrite (StoreFacts.create_bot_agent_dropdown_eq _ _ _ _ environment_id user_agent_id
               (with_relationship_dict w ref d') ref _ Hcache Hh').
    simpl. rewrite Henv, Huser. unfold d'.
    rewrite neighbors_index_getitem, index_getitem_again. simpl.
    now rewrite with_relationship_dict_again.
Qed.

(** X15.  An id that is no key raises [KeyError] for that id before
    anything is written: the user dropdown for an unknown environment, the
    bot dropdown for an unknown environment or, the environment being
    known, for an unknown user agent, all leave the world untouched. *)
Theorem X15_unknown_ids_raise_KeyError_and_write_nothing
    w ref st environment_id user_agent_id
    (Hcache : cache w !! ([] : list string) = Some ref)
    (Hheap : heap w !! ref = Some st)
    (Hmissing : environment_dict st !! environment_id = None \/
                agent_dict st !! user_agent_id = None) :
  (environment_dict st !! environment_id = None ->
   create_user_agent_dropdown environment_id w = (Raise (KeyError (Some environment_id)), w) /\
   create_bot_agent_dropdown environment_id user_agent_id w
   = (Raise (KeyError (Some environment_id)), w)) /\
  (is_Some (environment_dict st !! environment_id) ->
   create_bot_agent_dropdown environment_id user_agent_id w
   = (Raise (KeyError (Some user_agent_id)), w)).
Proof.
  rewrite (StoreFacts.create_user_agent_dropdown_eq _ _ _ _ _ _ _ _ _ Hcache Hheap).
  rewrite (StoreFacts.create_bot_agent_dropdown_eq _ _ _ _ _ _ _ _ _ Hcache Hheap).
  split.
  - intros ->. split; reflexivity.
  - intros [env Henv]. rewrite Henv.
    destruct Hmissing as [H|H]; [congruence|]. now rewrite H.
Qed.

(** X16.  An edge whose other end is no agent shows up late and as a
    [KeyError].  On a store the loader has returned, and after any further
    steps: when the relationship file gives the user agent a counterpart
    that is not a key of the agent map (the file holds the edge, and the
    load returned all the same), the bot dropdown query raises [KeyError]
    for the first such counterpart, and the store answers afterwards as it
    did before. *)
Theorem X16_dangling_counterpart_raises_KeyError
    w0 ref w1 w lines rels st environment_id user_agent_id env user known n rest
    (Hfresh : cache w0 !! ([] : list string) = None)
    (Hload : get_sotopia_profiles [] w0 = (Ok ref, w1))
    (Hfile : fs w0 !! RELATIONSHIP_PROFILES = Some lines)
    (Hparse : comprehension json_loads lines = Ok rels)
    (Hsteps : rtc process_step w1 w)
    (Hst : current_store w = Some st)
    (Henv : environment_dict st !! environment_id = Some env)
    (Huser : agent_dict st !! user_agent_id = Some user)
    (Hlist : counterparts (Environment.relationship env) (Agent.agent_id user)
               (map edge_of rels)
             = known ++ n :: rest)
    (Hknown : Forall (fun m => is_Some (agent_dict st !! m)) known)
    (Hdangling : agent_dict st !! n = None) :
  (In (Environment.relationship env, Agent.agent_id user, n) (map edge_of rels) \/
   In (Environment.relationship env, n, Agent.agent_id user) (map edge_of rels)) /\
  exists w',
    create_bot_agent_dropdown environment_id user_agent_id w = (Raise (KeyError (Some n)), w') /\
    serves w' st.
Proof.
  split.
  { apply LoaderExtras.counterpart_is_an_edge. rewrite Hlist, in_app_iff. right. now left. }
  destruct (LoaderExtras.store_after_load _ _ _ _ _ _ _ _ _ _ _ _
              Hfresh Hload Hfile Hparse Hsteps Hst)
    as (st1 & ref' & _ & Hc & Hh & _ & _ & _ & _ & Hn & _).
  assert (Hs : serves w st) by (exists ref', st; repeat apply conj; auto).
  pose proof (StoreFacts.process_step_serves _ _ _ _ _ _ _ _
                (step_bot json_loads getitem Environment_init Agent_init set_iter
                   environment_id user_agent_id w) Hs) as Hs'.
  revert Hs'.
  rewrite (StoreFacts.create_bot_agent_dropdown_eq _ _ _ _ _ _ _ _ _ Hc Hh).
  rewrite Henv, Huser, Hn, Hlist.
  rewrite (comprehension_stops _ known n rest (KeyError (Some n))).
  - intros Hs'. eexists. split; [reflexivity|exact Hs'].
  - eapply Forall_impl; [exact Hknown|]. intros m [ag Hag]. simpl.
    unfold dict_getitem. now rewrite Hag.
  - unfold dict_getitem. now rewrite Hdangling.
Qed.

(** X21.  Once the store is cached the queries never go back to the
    files.  Whatever they are asked and whether they return or raise, the
    two dropdown queries open no file, leave the files and the cache as
    they are, and neither add nor remove a cell of the heap. *)
Theorem X21_queries_read_no_file_once_the_store_is_cached
    w ref st environment_id user_agent_id
    (Hcache : cache w !! ([] : list string) = Some ref)
    (Hheap : heap w !! ref = Some st) :
  let wu := snd (create_user_agent_dropdown environment_id w) in
  let wb := snd (create_bot_agent_dropdown environment_id user_agent_id w) in
  (opened wu = opened w /\ fs wu = fs w /\ cache wu = cache w /\
   length (heap wu) = length (heap w)) /\
  (opened wb = opened w /\ fs wb = fs w /\ cache wb = cache w /\
   length (heap wb) = length (heap w)).
Proof.
  intros wu wb. unfold wu, wb.
  rewrite (StoreFacts.create_user_agent_dropdown_eq _ _ _ _ _ _ _ _ _ Hcache Hheap).
  rewrite (StoreFacts.create_bot_agent_dropdown_eq _ _ _ _ _ _ _ _ _ Hcache Hheap).
  destruct (environment_dict st !! environment_id) as [env|]; [|auto 10].
  split.
  - simpl. rewrite length_alter. auto.
  - destruct (agent_dict st !! user_agent_id) as [user|]; [|auto 10].
    simpl. rewrite length_alter. auto.
Qed.

End WithUtils.

End QueryExtras.
(* ===================================================================== *)
(** ** The information boxes and the start-up of the page *)
(* ===================================================================== *)

Module UiExtras.

Import Profiles Graph IndexFacts Ui.

Section WithUtils.

Context {json : Type}.
Variable json_loads : string -> result json.
Variable getitem : json -> string -> result string.
Variable Environment_init : json -> result Environment.t.
Variable Agent_init : json -> result Agent.t.
Variable set_iter : gset string -> list string.
Variable get_starter_prompt : Agent.t -> Agent.t -> Environment.t -> result string.

Local Abbreviation get_sotopia_profiles :=
  (Profiles.get_sotopia_profiles json_loads getitem Environment_init Agent_init).
Local Abbreviation create_environment_info :=
  (Ui.create_environment_info json_loads getitem Environment_init Agent_init).
Local Abbreviation create_user_info :=
  (Ui.create_user_info json_loads getitem Environment_init Agent_init).
Local Abbreviation create_bot_info :=
  (Ui.create_bot_info json_loads getitem Environment_init Agent_init).
Local Abbreviation user_dropdown_for :=
  (Ui.user_dropdown_for json_loads getitem Environment_init Agent_init set_iter).
Local Abbreviation bot_dropdown_for :=
  (Ui.bot_dropdown_for json_loads getitem Environment_init Agent_init).
Local Abbreviation sotopia_info_accordion :=
  (Ui.sotopia_info_accordion json_loads getitem Environment_init Agent_init set_iter).
Local Abbreviation chat_tab_starter_prompt :=
  (Ui.chat_tab_starter_prompt json_loads getitem Environment_init Agent_init set_iter
     get_starter_prompt).
Local Abbreviation process_step :=
  (Profiles.process_step json_loads getitem Environment_init Agent_init set_iter).

(** The three information boxes, once the store is cached. *)
Lemma create_environment_info_eq v w ref st :
  cache w !! ([] : list string) = Some ref ->
  heap w !! ref = Some st ->
  create_environment_info v w
  = (match subscript (environment_dict st) v with
     | Ok env => Ok (mkTextbox "Scenario Information" 4 (Environment.scenario env))
     | Raise ex => Raise ex
     end, w).
Proof.
  intros Hc Hh. unfold Ui.create_environment_info.
  unfold bind at 1. rewrite (StoreFacts.get_sotopia_profiles_hit _ _ _ _ _ _ _ Hc).
  unfold bind at 1. unfold deref, bind at 1, get. rewrite Hh. unfold ret at 1.
  unfold bind, lift_result, ret.
  destruct (subscript (environment_dict st) v); reflexivity.
Qed.

Lemma create_user_info_eq v u w ref st :
  cache w !! ([] : list string) = Some ref ->
  heap w !! ref = Some st ->
  create_user_info v u w
  = (match subscript (environment_dict st) v with
     | Ok env =>
         match subscript (agent_dict st) u with
         | Ok ag =>
             match goal env 0 with
             | Ok g => Ok (mkTextbox "User Agent Profile" 4 (profile_text ag g))
             | Raise ex => Raise ex
             end
         | Raise ex => Raise ex
         end
     | Raise ex => Raise ex
     end, w).
Proof.
  intros Hc Hh. unfold Ui.create_user_info.
  unfold bind at 1. rewrite (StoreFacts.get_sotopia_profiles_hit _ _ _ _ _ _ _ Hc).
  unfold bind at 1. unfold deref, bind at 1, get. rewrite Hh. unfold ret at 1.
  unfold bind, lift_result, ret.
  destruct (subscript (environment_dict st) v) as [env|]; [|reflexivity].
  destruct (subscript (agent_dict st) u) as [ag|]; [|reflexivity].
  destruct (goal env 0); reflexivity.
Qed.

Lemma create_bot_info_eq v b w ref st :
  cache w !! ([] : list string) = Some ref ->
  heap w !! ref = Some st ->
  create_bot_info v b w
  = (match subscript (environment_dict st) v with
     | Ok env =>
         match subscript (agent_dict st) b with
         | Ok ag =>
             match goal env 1 with
             | Ok g => Ok (mkTextbox "Bot Agent Profile" 4 (profile_text ag g))
             | Raise ex => Raise ex
             end
         | Raise ex => Raise ex
         end
     | Raise ex => Raise ex
     end, w).
Proof.
  intros Hc Hh. unfold Ui.create_bot_info.
  unfold bind at 1. rewrite (StoreFacts.get_sotopia_profiles_hit _ _ _ _ _ _ _ Hc).
  unfold bind at 1. unfold deref, bind at 1, get. rewrite Hh. unfold ret at 1.
  unfold bind, lift_result, ret.
  destruct (subscript (environment_dict st) v) as [env|]; [|reflexivity].
  destruct (subscript (agent_dict st) b) as [ag|]; [|reflexivity].
  destruct (goal env 1); reflexivity.
Qed.

Lemma subscript_Ok {V} (d : gmap string V) v x :
  subscript d v = Ok x <-> exists k, v = Some k /\ d !! k = Some x.
Proof.
  unfold subscript, dict_getitem. destruct v as [k|].
  - destruct (d !! k) as [y|] eqn:E; split.
    + intros H. inversion H; subst. eauto.
    + intros (k' & Hk & Hx). inversion Hk; subst. congruence.
    + discriminate.
    + intros (k' & Hk & Hx). inversion Hk; subst. congruence.
  - split; [discriminate|]. intros (k & Hk & _). discriminate.
Qed.

Lemma goal_Ok env i g : goal env i = Ok g <-> Environment.agent_goals env !! i = Some g.
Proof.
  unfold goal. destruct (Environment.agent_goals env !! i); split; congruence.
Qed.

(** X17.  The three information boxes only read.  With the store cached,
    [create_environment_info], [create_user_info] and [create_bot_info]
    leave the world exactly as it is, whatever they are asked and whether
    they return or raise (the two dropdown queries do not: they insert
    into the index).  The user box returns exactly when the environment id
    and the agent id are keys and the environment has a goal at index 0;
    the bot box needs a goal at index 1. *)
Theorem X17_information_boxes_only_read
    w ref st v u b
    (Hcache : cache w !! ([] : list string) = Some ref)
    (Hheap : heap w !! ref = Some st) :
  snd (create_environment_info v w) = w /\
  snd (create_user_info v u w) = w /\
  snd (create_bot_info v b w) = w /\
  (forall tb, fst (create_user_info v u w) = Ok tb <->
     exists e env k ag g,
       v = Some e /\ environment_dict st !! e = Some env /\
       u = Some k /\ agent_dict st !! k = Some ag /\
       Environment.agent_goals env !! 0 = Some g /\
       tb = mkTextbox "User Agent Profile" 4 (profile_text ag g)) /\
  (forall tb, fst (create_bot_info v b w) = Ok tb <->
     exists e env k ag g,
       v = Some e /\ environment_dict st !! e = Some env /\
       b = Some k /\ agent_dict st !! k = Some ag /\
       Environment.agent_goals env !! 1 = Some g /\
       tb = mkTextbox "Bot Agent Profile" 4 (profile_text ag g)).
Proof.
  rewrite (create_environment_info_eq _ _ _ _ Hcache Hheap).
  rewrite (create_user_info_eq _ _ _ _ _ Hcache Hheap).
  rewrite (create_bot_info_eq _ _ _ _ _ Hcache Hheap).
  repeat apply conj; try reflexivity; intros tb; simpl.
  - split.
    + destruct (subscript (environment_dict st) v) as [env|] eqn:Ev; [|discriminate].
      destruct (subscript (agent_dict st) u) as [ag|] eqn:Eu; [|discriminate].
      destruct (goal env 0) as [g|] eqn:Eg; [|discriminate].
      intros H. inversion H; subst.
      apply subscript_Ok in Ev as (e & -> & He). apply subscript_Ok in Eu as (k & -> & Hk).
      apply goal_Ok in Eg. exists e, env, k, ag, g. auto 10.
    + intros (e & env & k & ag & g & -> & He & -> & Hk & Hg & ->).
      simpl. unfold dict_getitem, goal. now rewrite He, Hk, Hg.
  - split.
    + destruct (subscript (environment_dict st) v) as [env|] eqn:Ev; [|discriminate].
      destruct (subscript (agent_dict st) b) as [ag|] eqn:Eu; [|discriminate].
      destruct (goal env 1) as [g|] eqn:Eg; [|discriminate].
      intros H. inversion H; subst.
      apply subscript_Ok in Ev as (e & -> & He). apply subscript_Ok in Eu as (k & -> & Hk).
      apply goal_Ok in Eg. exists e, env, k, ag, g. auto 10.
    + intros (e & env & k & ag & g & -> & He & -> & Hk & Hg & ->).
      simpl. unfold dict_getitem, goal. now rewrite He, Hk, Hg.
Qed.

(** The dropdown queries on dropdown values. *)
Lemma user_dropdown_for_None w ref st :
  cache w !! ([] : list string) = Some ref ->
  heap w !! ref = Some st ->
  user_dropdown_for None w = (Raise (KeyError None), w).
Proof.
  intros Hc Hh. unfold Ui.user_dropdown_for.
  unfold bind at 1. rewrite (StoreFacts.get_sotopia_profiles_hit _ _ _ _ _ _ _ Hc).
  unfold bind at 1. unfold deref, bind at 1, get. now rewrite Hh.
Qed.

Lemma bot_dropdown_for_None v w ref st :
  cache w !! ([] : list string) = Some ref ->
  heap w !! ref = Some st ->
  exists k, bot_dropdown_for v None w = (Raise (KeyError k), w).
Proof.
  intros Hc Hh. unfold Ui.bot_dropdown_for. destruct v as [e|].
  - unfold bind at 1. rewrite (StoreFacts.get_sotopia_profiles_hit _ _ _ _ _ _ _ Hc).
    unfold bind at 1. unfold deref, bind at 1, get. rewrite Hh. unfold ret at 1.
    unfold bind, lift_result, dict_getitem, raise.
    destruct (environment_dict st !! e); eauto.
  - unfold bind at 1. rewrite (StoreFacts.get_sotopia_profiles_hit _ _ _ _ _ _ _ Hc).
    unfold bind at 1. unfold deref, bind at 1, get. rewrite Hh. unfold raise. eauto.
Qed.

Lemma bot_dropdown_for_None_known e env w ref st :
  cache w !! ([] : list string) = Some ref ->
  heap w !! ref = Some st ->
  environment_dict st !! e = Some env ->
  bot_dropdown_for (Some e) None w = (Raise (KeyError None), w).
Proof.
  intros Hc Hh He. unfold Ui.bot_dropdown_for.
  unfold bind at 1. rewrite (StoreFacts.get_sotopia_profiles_hit _ _ _ _ _ _ _ Hc).
  unfold bind at 1. unfold deref, bind at 1, get. rewrite Hh. unfold ret at 1.
  unfold bind, lift_result, dict_getitem, raise. now rewrite He.
Qed.

Lemma same_maps_refl w ref st :
  cache w !! ([] : list string) = Some ref -> heap w !! ref = Some st -> same_maps w ref st.
Proof. intros Hc Hh. split; [exact Hc|]. exists st. auto. Qed.

Lemma same_maps_with w ref st st' d :
  cache w !! ([] : list string) = Some ref ->
  heap w !! ref = Some st' ->
  environments st' = environments st ->
  environment_dict st' = environment_dict st ->
  agent_dict st' = agent_dict st ->
  (forall r u, neighbors d r u = neighbors (relationship_dict st) r u) ->
  same_maps (with_relationship_dict w ref d) ref st.
Proof.
  intros Hc Hh H1 H2 H3 H4. split; [exact Hc|].
  exists (mkStore (environments st') (environment_dict st') (agent_dict st') d).
  rewrite StoreFacts.with_relationship_dict_lookup, decide_True by done.
  rewrite Hh. simpl. auto.
Qed.

Lemma same_maps_user_for v w ref st :
  same_maps w ref st -> same_maps (snd (user_dropdown_for v w)) ref st.
Proof.
  intros Hm. pose proof Hm as (Hc & st' & Hh & H1 & H2 & H3 & H4).
  destruct v as [e|].
  - unfold Ui.user_dropdown_for.
    rewrite (StoreFacts.create_user_agent_dropdown_eq _ _ _ _ _ _ _ _ _ Hc Hh).
    destruct (environment_dict st' !! e) as [env|]; [|exact Hm].
    simpl. eapply same_maps_with; eauto.
    intros r u. now rewrite neighbors_outer_getitem.
  - now rewrite (user_dropdown_for_None _ _ _ Hc Hh).
Qed.

Lemma same_maps_bot_for v u w ref st :
  same_maps w ref st -> same_maps (snd (bot_dropdown_for v u w)) ref st.
Proof.
  intros Hm. pose proof Hm as (Hc & st' & Hh & H1 & H2 & H3 & H4).
  destruct u as [k|].
  - destruct v as [e|].
    + unfold Ui.bot_dropdown_for.
      rewrite (StoreFacts.create_bot_agent_dropdown_eq _ _ _ _ _ _ _ _ _ Hc Hh).
      destruct (environment_dict st' !! e) as [env|]; [|exact Hm].
      destruct (agent_dict st' !! k) as [ag|]; [|exact Hm].
      simpl. eapply same_maps_with; eauto.
      intros r u. now rewrite neighbors_index_getitem.
    + unfold Ui.bot_dropdown_for.
      unfold bind at 1. rewrite (StoreFacts.get_sotopia_profiles_hit _ _ _ _ _ _ _ Hc).
      unfold bind at 1. unfold deref, bind at 1, get. rewrite Hh. exact Hm.
  - destruct (bot_dropdown_for_None v _ _ _ Hc Hh) as [k ->]. exact Hm.
Qed.

(** The start-up of the accordion, stage by stage. *)
Lemma sotopia_info_accordion_eq p ref st :
  cache (page_world p) !! ([] : list string) = Some ref ->
  heap (page_world p) !! ref = Some st ->
  sotopia_info_accordion p
  = let v := first_value (environments st) in
    let out := page_stdout p ++ [str_of_value v] in
    match user_dropdown_for v (page_world p) with
    | (Raise ex, w1) => (Raise ex, mkPage w1 out)
    | (Ok ud, w1) =>
        match bot_dropdown_for v (value ud) w1 with
        | (Raise ex, w2) => (Raise ex, mkPage w2 out)
        | (Ok bd, w2) =>
            match create_environment_info v w2 with
            | (Raise ex, w3) => (Raise ex, mkPage w3 out)
            | (Ok _, w3) =>
                match create_user_info v (value ud) w3 with
                | (Raise ex, w4) => (Raise ex, mkPage w4 out)
                | (Ok _, w4) =>
                    match create_bot_info v (value bd) w4 with
                    | (Raise ex, w5) => (Raise ex, mkPage w5 out)
                    | (Ok _, w5) =>
                        (Ok (mkAccordion model_dropdown
                               (mkDropdown (environments st) v "Scenario Selection") ud bd),
                         mkPage w5 out)
                    end
                end
            end
        end
    end.
Proof.
  intros Hc Hh. unfold Ui.sotopia_info_accordion.
  unfold bind at 1. unfold in_world at 1.
  rewrite (StoreFacts.get_sotopia_profiles_hit _ _ _ _ _ _ _ Hc). cbv beta iota.
  unfold bind at 1. unfold in_world at 1. unfold deref, bind at 1, get.
  cbn [page_world page_stdout]. rewrite Hh.
  unfold ret at 1. cbv beta iota. cbn [value page_world page_stdout].
  unfold bind at 1. unfold page_print, modify. cbv beta iota.
  unfold bind at 1. unfold in_world at 1. cbn [page_world page_stdout].
  destruct (user_dropdown_for (first_value (environments st)) (page_world p))
    as [[ud|ex] w1]; [|reflexivity].
  unfold bind at 1. unfold in_world at 1. cbn [page_world page_stdout].
  destruct (bot_dropdown_for (first_value (environments st)) (value ud) w1)
    as [[bd|ex] w2]; [|reflexivity].
  unfold bind at 1. unfold in_world at 1. cbn [page_world page_stdout].
  destruct (create_environment_info (first_value (environments st)) w2)
    as [[t1|ex] w3]; [|reflexivity].
  unfold bind at 1. unfold in_world at 1. cbn [page_world page_stdout].
  destruct (create_user_info (first_value (environments st)) (value ud) w3)
    as [[t2|ex] w4]; [|reflexivity].
  unfold bind at 1. unfold in_world at 1. cbn [page_world page_stdout].
  destruct (create_bot_info (first_value (environments st)) (value bd) w4)
    as [[t3|ex] w5]; reflexivity.
Qed.

(** X18.  The page cannot be built without a scenario that has candidates.
    With the store cached, [sotopia_info_accordion] raises [KeyError(None)]
    when the scenario list is empty (line 179 asks for the user agents of
    [None]), and also when the index holds no agent under the relationship
    type of the first scenario (line 180 asks for the counterparts of
    [None]). *)
Theorem X18_accordion_needs_a_first_scenario_with_candidates
    p ref st
    (Hiter : forall s, Permutation (set_iter s) (elements s))
    (Hcache : cache (page_world p) !! ([] : list string) = Some ref)
    (Hheap : heap (page_world p) !! ref = Some st)
    (Hempty : environments st = [] \/
              exists lbl e rest env,
                environments st = (lbl, e) :: rest /\
                environment_dict st !! e = Some env /\
                default ∅ (relationship_dict st !! Environment.relationship env) = ∅) :
  exists p', sotopia_info_accordion p = (Raise (KeyError None), p').
Proof.
  rewrite (sotopia_info_accordion_eq _ _ _ Hcache Hheap). cbv zeta.
  destruct Hempty as [Hnil|(lbl & e & rest & env & Hl & He & Hno)].
  - rewrite Hnil. cbn [first_value].
    rewrite (user_dropdown_for_None _ _ _ Hcache Hheap). eauto.
  - rewrite Hl. cbn [first_value snd].
    pose proof (same_maps_user_for (Some e) _ _ _ (same_maps_refl _ _ _ Hcache Hheap)) as Hm.
    destruct (StoreFacts.create_user_agent_dropdown_no_agent
                json_loads getitem Environment_init Agent_init set_iter
                e (page_world p) ref st env Hiter Hcache Hheap He Hno) as [w' Hq].
    unfold Ui.user_dropdown_for in Hm |- *. rewrite Hq in Hm |- *. cbn [snd value] in Hm |- *.
    destruct Hm as (Hc' & st' & Hh' & _ & Hed & _).
    rewrite (bot_dropdown_for_None_known e env w' ref st' Hc' Hh'); [eauto|].
    now rewrite Hed.
Qed.

(** X19.  When the accordion is built, the page starts with a complete
    selection.  With the store cached, if [sotopia_info_accordion]
    returns, the scenario dropdown holds the first entry of the display
    list, the user and bot dropdowns hold ids, all three ids are keys, the
    environment has goals at indices 0 and 1, the only line printed is the
    scenario id, and the three subscripts of [chat_tab] (line 259) find
    their records: its starter prompt is what [get_starter_prompt] makes
    of them. *)
Theorem X19_a_built_accordion_holds_a_complete_selection
    p ref st acc p'
    (Hcache : cache (page_world p) !! ([] : list string) = Some ref)
    (Hheap : heap (page_world p) !! ref = Some st)
    (Hbuilt : sotopia_info_accordion p = (Ok acc, p')) :
  exists e env u ua b ba g0 g1,
    first_value (environments st) = Some e /\
    value (environment_dropdown acc) = Some e /\
    environment_dict st !! e = Some env /\
    value (user_agent_dropdown acc) = Some u /\
    agent_dict st !! u = Some ua /\
    value (bot_agent_dropdown acc) = Some b /\
    agent_dict st !! b = Some ba /\
    Environment.agent_goals env !! 0 = Some g0 /\
    Environment.agent_goals env !! 1 = Some g1 /\
    page_stdout p' = page_stdout p ++ [e] /\
    chat_tab_starter_prompt p = (get_starter_prompt ua ba env, p').
Proof.
  destruct p as [w0 out0]. cbn [page_world page_stdout] in *.
  pose proof Hbuilt as Hb.
  rewrite (sotopia_info_accordion_eq (mkPage w0 out0) ref st Hcache Hheap) in Hb.
  cbv zeta in Hb. cbn [page_world page_stdout] in Hb.
  set (v := first_value (environments st)) in *.
  pose proof (same_maps_user_for v _ _ _ (same_maps_refl _ _ _ Hcache Hheap)) as M1.
  destruct (user_dropdown_for v w0) as [[ud|ex] w1]; [|discriminate].
  pose proof (same_maps_bot_for v (value ud) _ _ _ M1) as M2. cbn [snd] in M1, M2.
  destruct (bot_dropdown_for v (value ud) w1) as [[bd|ex] w2]; [|discriminate].
  cbn [snd] in M2. destruct M2 as (Hc2 & st2 & Hh2 & _ & Hed & Had & _).
  rewrite (create_environment_info_eq _ _ _ _ Hc2 Hh2) in Hb.
  destruct (subscript (environment_dict st2) v) as [env|] eqn:Ev; [|discriminate].
  rewrite (create_user_info_eq _ _ _ _ _ Hc2 Hh2), Ev in Hb.
  destruct (subscript (agent_dict st2) (value ud)) as [ua|] eqn:Eu; [|discriminate].
  destruct (goal env 0) as [g0|] eqn:Eg0; [|discriminate].
  rewrite (create_bot_info_eq _ _ _ _ _ Hc2 Hh2), Ev in Hb.
  destruct (subscript (agent_dict st2) (value bd)) as [ba|] eqn:Eb; [|discriminate].
  destruct (goal env 1) as [g1|] eqn:Eg1; [|discriminate].
  inversion Hb; subst acc p'. clear Hb.
  rewrite Hed in Ev. rewrite Had in Eu, Eb.
  pose proof Ev as Ev'. pose proof Eu as Eu'. pose proof Eb as Eb'.
  apply subscript_Ok in Ev' as (e & Hv & He).
  apply subscript_Ok in Eu' as (u & Hu & Hua).
  apply subscript_Ok in Eb' as (b & Hbv & Hba).
  apply goal_Ok in Eg0. apply goal_Ok in Eg1.
  exists e, env, u, ua, b, ba, g0, g1. cbn [environment_dropdown user_agent_dropdown
    bot_agent_dropdown value page_stdout].
  repeat apply conj; auto.
  - now rewrite Hv.
  - unfold Ui.chat_tab_starter_prompt.
    unfold bind at 1. unfold in_world at 1. cbn [page_world page_stdout].
    rewrite (StoreFacts.get_sotopia_profiles_hit _ _ _ _ _ _ _ Hcache). cbv beta iota.
    unfold bind at 1. unfold in_world at 1. unfold deref, bind at 1, get.
    cbn [page_world page_stdout]. rewrite Hheap.
    unfold ret at 1. cbv beta iota.
    unfold bind at 1. rewrite Hbuilt.
    cbn [environment_dropdown user_agent_dropdown bot_agent_dropdown value].
    unfold bind, lift_result. fold v. rewrite Eu, Eb, Ev. rewrite Hv. reflexivity.
Qed.

End WithUtils.

End UiExtras.
(* ===================================================================== *)
(** ** The further statements at concrete inputs *)
(* ===================================================================== *)

Module MoreScenarios.

Import Fixtures MoreFixtures Profiles Graph Ui.

Local Abbreviation relationship_lines := ["friend a1 a2"; "friend a3 a1"; "friend a2 a1"].
Local Abbreviation peft := "cmu-lti/sotopia-pi-mistral-7b-BC_SR".

(** *** Chat turns *)

(** A sanitizer that counts its calls and always fails is called five
    times, no more. *)
Lemma failing_sanitizer_is_called_five_times :
  Chat.sanitize counting_malformed "Eli said: hello there" st0
  = (Ok "", Chat.mkState 5 ∅
              ["malformed output"; "Retrying..."; "malformed output"; "Retrying...";
               "malformed output"; "Retrying..."; "malformed output"; "Retrying...";
               "malformed output"; "Retrying..."]).
Proof. reflexivity. Qed.

(** One that fails twice is called three times. *)
Lemma flaky_sanitizer_is_called_three_times :
  Chat.sanitize flaky "hello" st0
  = (Ok "hello", Chat.mkState 3 ∅
                   ["try again"; "Retrying..."; "try again"; "Retrying..."]).
Proof. reflexivity. Qed.

(** Inference fails with an [Exception]: the turn raises it, nothing is
    printed. *)
Lemma X2_witness :
  Chat.run_chat stub_load_peft stub_load_base stub_prompt failing_infer always_malformed
    "hi" [] "" (agent_widget "Mia") (agent_widget "Eli") peft st0
  = (Raise (Exception "CUDA out of memory"),
     snd (Chat.complete stub_load_peft stub_load_base stub_prompt failing_infer
            "hi" [] "" (agent_widget "Mia") (agent_widget "Eli") peft st0)) /\
  Chat.stdout (snd (Chat.complete stub_load_peft stub_load_base stub_prompt failing_infer
                      "hi" [] "" (agent_widget "Mia") (agent_widget "Eli") peft st0))
  = Chat.stdout st0.
Proof.
  apply ChatExtras.X2_errors_before_the_loop_are_not_retried.
  vm_compute. reflexivity.
Defined.

Lemma X3_witness :
  prepare peft (snd (turn always_malformed "hi" "GPT3.5" (snd (prepare peft st0))))
  = (Ok (tt, tt), snd (turn always_malformed "hi" "GPT3.5" (snd (prepare peft st0)))).
Proof.
  apply ChatExtras.X3_a_prepared_model_is_not_loaded_again
    with (format_sotopia_prompt := stub_prompt) (infer := stub_infer)
         (format_bot_message := always_malformed) (st := st0) (st1 := snd (prepare peft st0)).
  - vm_compute. reflexivity.
  - apply rtc_once.
    exact (Turns.step_turn stub_load_peft stub_load_base stub_prompt stub_infer
             always_malformed "hi" [] "" (agent_widget "Mia") (agent_widget "Eli")
             "GPT3.5" (snd (prepare peft st0))).
Defined.

(** The download fails once; the failure is not remembered and the second
    call gets the model. *)
Lemma X4_witness :
  Chat.model_cache (snd (prepare_flaky peft st0)) !! peft = None /\
  fst (prepare_flaky peft (snd (prepare_flaky peft st0))) = Ok (tt, tt).
Proof.
  edestruct (ChatExtras.X4_a_failed_model_load_is_not_cached flaky_load_peft stub_load_base
               peft st0 (snd (prepare_flaky peft st0)) (Exception "connection reset"))
    as (_ & Hnone & _).
  - vm_compute. reflexivity.
  - split; [exact Hnone|]. vm_compute. reflexivity.
Defined.

(** *** The loader *)

Lemma X5_witness :
  exists ex w',
    load [] world_without_agents = (Raise ex, w') /\
    cache w' = cache world_without_agents /\ heap w' = heap world_without_agents /\
    fs w' = fs world_without_agents.
Proof.
  edestruct (LoaderExtras.X5_missing_file_aborts_the_load
               stub_json_loads stub_getitem stub_Environment stub_Agent
               [] world_without_agents
               ENVIRONMENT_PROFILES AGENT_PROFILES RELATIONSHIP_PROFILES AGENT_PROFILES)
    as [H _].
  - reflexivity.
  - reflexivity.
  - right. left. reflexivity.
  - vm_compute. reflexivity.
  - exact H.
Defined.

Lemma X6_witness :
  cache (snd (load [] world_bad)) = cache world_bad /\
  heap (snd (load [] world_bad)) = heap world_bad /\
  fs (snd (load [] world_bad)) = fs world_bad /\
  cache (snd (load [] world_bad)) !! ([] : list string) = None.
Proof.
  apply (LoaderExtras.X6_a_failed_load_leaves_no_trace
           stub_json_loads stub_getitem stub_Environment stub_Agent
           [] world_bad (JSONDecodeError "Expecting value" "agent a2 {" 0)).
  vm_compute. reflexivity.
Defined.

Lemma X7_witness :
  exists e a r st,
    bind_args [] = Ok (e, a, r) /\
    0 = length (heap world0) /\
    heap loaded_world = heap world0 ++ [st] /\
    opened loaded_world = opened world0 ++ [e; a; r] /\
    cache loaded_world = <[([] : list string) := 0]> (cache world0) /\
    fs loaded_world = fs world0.
Proof.
  apply (LoaderExtras.X7_a_load_opens_three_files_and_adds_one_store
           stub_json_loads stub_getitem stub_Environment stub_Agent).
  - reflexivity.
  - exact Scenarios.loaded_world_is_loaded.
Defined.

(** The call without arguments and the call that spells out the default
    paths load twice and get two stores. *)
Lemma X8_witness :
  0 <> 1 /\
  is_Some (heap (snd (load explicit_paths loaded_world)) !! 0) /\
  is_Some (heap (snd (load explicit_paths loaded_world)) !! 1).
Proof.
  apply (LoaderExtras.X8_different_arguments_different_stores
           stub_json_loads stub_getitem stub_Environment stub_Agent stub_set_iter
           world0 (snd (load explicit_paths loaded_world)) [] explicit_paths).
  - reflexivity.
  - eapply rtc_l.
    + exact (step_load stub_json_loads stub_getitem stub_Environment stub_Agent stub_set_iter
               [] world0).
    + apply rtc_once.
      exact (step_load stub_json_loads stub_getitem stub_Environment stub_Agent stub_set_iter
               explicit_paths loaded_world).
  - vm_compute. reflexivity.
  - vm_compute. reflexivity.
  - discriminate.
Defined.

Lemma X9_witness :
  exists d,
    agent_loop stub_Agent agent_records_with_a_duplicate ∅ = Ok d /\
    forall k, d !! k = last (filter (fun ag => Agent._id ag = k) agents_with_a_duplicate).
Proof.
  apply LoaderExtras.X9_agent_dict_holds_the_last_record_of_each_id.
  vm_compute. reflexivity.
Defined.

Lemma X10_witness :
  display_resolves (environments (store_of loaded_world))
    (environment_dict (store_of loaded_world)).
Proof.
  apply (LoaderExtras.X10_every_display_entry_resolves
           stub_json_loads stub_getitem stub_Environment stub_Agent stub_set_iter
           world0 0 loaded_world loaded_world (store_of loaded_world)
           relationship_lines relationship_records).
  - reflexivity.
  - exact Scenarios.loaded_world_is_loaded.
  - vm_compute. reflexivity.
  - reflexivity.
  - apply rtc_refl.
  - vm_compute. reflexivity.
Defined.

Lemma X11_witness :
  count_occ string_dec (neighbors (relationship_dict (store_of loaded_world)) "friend" "a1") "a2"
  = count_occ string_dec
      (neighbors (relationship_dict (store_of loaded_world)) "friend" "a2") "a1".
Proof.
  apply (LoaderExtras.X11_counterparts_are_mutual_with_multiplicity
           stub_json_loads stub_getitem stub_Environment stub_Agent stub_set_iter
           world0 0 loaded_world loaded_world (store_of loaded_world)
           relationship_lines relationship_records).
  - reflexivity.
  - exact Scenarios.loaded_world_is_loaded.
  - vm_compute. reflexivity.
  - reflexivity.
  - apply rtc_refl.
  - vm_compute. reflexivity.
Defined.

(** *** The queries *)

Lemma X12_witness :
  exists ids w',
    user_dropdown "e1" loaded_world
    = (Ok (mkDropdown (choices_of (agent_dict (store_of loaded_world)) ids)
             (first_value (choices_of (agent_dict (store_of loaded_world)) ids))
             "User Agent Selection"), w') /\
    List.NoDup ids /\
    forall a, In a ids
              <-> In a (endpoints (Environment.relationship env_e1)
                          (map (edge_of stub_getitem) relationship_records)).
Proof.
  apply (QueryExtras.X12_user_candidates_are_the_distinct_endpoints
           stub_json_loads stub_getitem stub_Environment stub_Agent stub_set_iter
           world0 0 loaded_world relationship_lines relationship_records).
  - intros s. reflexivity.
  - reflexivity.
  - exact Scenarios.loaded_world_is_loaded.
  - vm_compute. reflexivity.
  - reflexivity.
  - vm_compute. reflexivity.
  - vm_compute. reflexivity.
  - intros a Ha. vm_compute in Ha.
    repeat (destruct Ha as [<-|Ha]; [eexists; vm_compute; reflexivity|]). destruct Ha.
Defined.

Lemma X13_witness :
  exists c cs w',
    bot_dropdown "e1" "a1" loaded_world
    = (Ok (mkDropdown (c :: cs) (Some (snd c)) "Bot Agent Selection"), w') /\
    Some (snd c)
    = head (counterparts (Environment.relationship env_e1) (Agent.agent_id agent_a1)
              (map (edge_of stub_getitem) relationship_records)).
Proof.
  apply (QueryExtras.X13_an_endpoint_has_a_bot_candidate
           stub_json_loads stub_getitem stub_Environment stub_Agent stub_set_iter
           world0 0 loaded_world loaded_world relationship_lines relationship_records
           (store_of loaded_world)).
  - reflexivity.
  - exact Scenarios.loaded_world_is_loaded.
  - vm_compute. reflexivity.
  - reflexivity.
  - apply rtc_refl.
  - vm_compute. reflexivity.
  - vm_compute. reflexivity.
  - vm_compute. reflexivity.
  - vm_compute. tauto.
  - repeat (constructor; [eexists; vm_compute; reflexivity|]). constructor.
Defined.

Lemma X14_witness :
  user_dropdown "e2" (snd (user_dropdown "e2" loaded_world))
  = user_dropdown "e2" loaded_world /\
  bot_dropdown "e2" "a1" (snd (bot_dropdown "e2" "a1" loaded_world))
  = bot_dropdown "e2" "a1" loaded_world.
Proof.
  apply (QueryExtras.X14_repeating_a_query_changes_nothing
           stub_json_loads stub_getitem stub_Environment stub_Agent stub_set_iter
           loaded_world 0 (store_of loaded_world)).
  - vm_compute. reflexivity.
  - vm_compute. reflexivity.
Defined.

Lemma X15_witness :
  user_dropdown "e9" loaded_world = (Raise (KeyError (Some "e9")), loaded_world) /\
  bot_dropdown "e9" "a1" loaded_world = (Raise (KeyError (Some "e9")), loaded_world).
Proof.
  edestruct (QueryExtras.X15_unknown_ids_raise_KeyError_and_write_nothing
               stub_json_loads stub_getitem stub_Environment stub_Agent stub_set_iter
               loaded_world 0 (store_of loaded_world) "e9" "a1") as [H _].
  - vm_compute. reflexivity.
  - vm_compute. reflexivity.
  - left. vm_compute. reflexivity.
  - apply H. vm_compute. reflexivity.
Defined.

Lemma X16_witness :
  load [] world_with_a_dangling_edge = (Ok 0, loaded_with_a_dangling_edge) /\
  agent_dict (store_of loaded_with_a_dangling_edge) !! "a3" = None /\
  In ("friend", "a3", "a1") (map (edge_of stub_getitem) relationship_records) /\
  exists w',
    bot_dropdown "e1" "a1" loaded_with_a_dangling_edge = (Raise (KeyError (Some "a3")), w').
Proof.
  assert (Hload : load [] world_with_a_dangling_edge = (Ok 0, loaded_with_a_dangling_edge))
    by (vm_compute; reflexivity).
  split; [exact Hload|]. split; [vm_compute; reflexivity|].
  split; [vm_compute; tauto|].
  destruct (QueryExtras.X16_dangling_counterpart_raises_KeyError
              stub_json_loads stub_getitem stub_Environment stub_Agent stub_set_iter
              world_with_a_dangling_edge 0 loaded_with_a_dangling_edge
              loaded_with_a_dangling_edge relationship_lines relationship_records
              (store_of loaded_with_a_dangling_edge) "e1" "a1" env_e1 agent_a1
              ["a2"] "a3" ["a2"]) as (_ & w' & Hq & _).
  - reflexivity.
  - exact Hload.
  - vm_compute. reflexivity.
  - reflexivity.
  - apply rtc_refl.
  - vm_compute. reflexivity.
  - vm_compute. reflexivity.
  - vm_compute. reflexivity.
  - vm_compute. reflexivity.
  - repeat (constructor; [eexists; vm_compute; reflexivity|]). constructor.
  - vm_compute. reflexivity.
  - exists w'. exact Hq.
Defined.

Lemma X21_witness :
  opened (snd (user_dropdown "e2" loaded_world)) = opened loaded_world /\
  opened (snd (bot_dropdown "e2" "a1" loaded_world)) = opened loaded_world.
Proof.
  edestruct (QueryExtras.X21_queries_read_no_file_once_the_store_is_cached
               stub_json_loads stub_getitem stub_Environment stub_Agent stub_set_iter
               loaded_world 0 (store_of loaded_world) "e2" "a1")
    as ((H1 & _) & (H2 & _)).
  - vm_compute. reflexivity.
  - vm_compute. reflexivity.
  - split; [exact H1|exact H2].
Defined.

(** *** The page *)

Lemma X17_witness :
  snd (create_environment_info stub_json_loads stub_getitem stub_Environment stub_Agent
         (Some "e1") loaded_world) = loaded_world /\
  snd (create_user_info stub_json_loads stub_getitem stub_Environment stub_Agent
         (Some "e1") (Some "a1") loaded_world) = loaded_world /\
  snd (create_bot_info stub_json_loads stub_getitem stub_Environment stub_Agent
         (Some "e1") None loaded_world) = loaded_world.
Proof.
  edestruct (UiExtras.X17_information_boxes_only_read
               stub_json_loads stub_getitem stub_Environment stub_Agent
               loaded_world 0 (store_of loaded_world) (Some "e1") (Some "a1") None)
    as (H1 & H2 & H3 & _).
  - vm_compute. reflexivity.
  - vm_compute. reflexivity.
  - auto.
Defined.

Lemma X18_witness :
  exists p', accordion page_without_scenarios = (Raise (KeyError None), p').
Proof.
  apply (UiExtras.X18_accordion_needs_a_first_scenario_with_candidates
           stub_json_loads stub_getitem stub_Environment stub_Agent stub_set_iter
           page_without_scenarios 0 (store_of (page_world page_without_scenarios))).
  - intros s. reflexivity.
  - vm_compute. reflexivity.
  - vm_compute. reflexivity.
  - left. vm_compute. reflexivity.
Defined.

Lemma X19_witness :
  exists e u b,
    value (environment_dropdown built_accordion) = Some e /\
    value (user_agent_dropdown built_accordion) = Some u /\
    value (bot_agent_dropdown built_accordion) = Some b.
Proof.
  edestruct (UiExtras.X19_a_built_accordion_holds_a_complete_selection
               stub_json_loads stub_getitem stub_Environment_with_goals stub_Agent
               stub_set_iter stub_starter_prompt
               page_with_goals 0 (store_of (page_world page_with_goals)) built_accordion
               (snd (accordion_with_goals page_with_goals)))
    as (e & env & u & ua & b & ba & g0 & g1 & _ & He & _ & Hu & _ & Hb & _).
  - vm_compute. reflexivity.
  - vm_compute. reflexivity.
  - vm_compute. reflexivity.
  - exists e, u, b. auto.
Defined.

End MoreScenarios.
